(** * yt-insights: analytics, trends and the engagement cache

    A shallow embedding of the computation core of the service
    (package [models] and package [api]) together with the properties
    of its analytics engine, trends engine, video fetch and cache gate.

    Conventions of the embedding.
    - Go's [int64] is a [Z] kept in range by [Int64.wrap]; [int] is a [Z]
      (lengths and indices never leave the 64-bit range).
    - Go's [float64] is IEEE 754 binary64, taken from the specification of
      floating-point arithmetic of the standard library
      ([SpecFloat], precision 53, [emax] 1024), so NaN and the infinities
      are values of the model.
    - [time.Time] is an instant in nanoseconds since the Unix epoch
      ([Z]), read in UTC.
    - Go's [(T, error)] results are values of [result T]; a nil pointer
      returned with a nil error is [Ok None].
    - [sort.Slice] belongs to Go's library and is specified by its
      documented contract (class [SliceSorter]); Go's insertion sort is
      an instance. *)

From Stdlib Require Import ZArith Zpower List Bool Lia Permutation Sorted SpecFloat Ascii.
From stdpp Require Import gmap strings list list_numbers fin_maps sorting pretty.

Local Open Scope string_scope.
Local Open Scope list_scope.
Local Open Scope Z_scope.

(** ** Machine integers *)

Module Int64.

Definition modulus : Z := 2 ^ 64.
Definition half : Z := 2 ^ 63.
Definition min_int : Z := - half.
Definition max_int : Z := half - 1.

(** Two's complement wrap-around of an integer into the [int64] range. *)
Definition wrap (z : Z) : Z := (z + half) mod modulus - half.

Definition add (a b : Z) : Z := wrap (a + b).

Definition in_range (z : Z) : Prop := min_int <= z <= max_int.

(** [sum l] is the value of [var s int64; for x in l { s += x }]. *)
Definition sum (l : list Z) : Z := fold_left add l 0.

End Int64.

(** ** Binary64 floating point *)

Module F64.

Definition prec : Z := 53.
Definition emax : Z := 1024.

Abbreviation float64 := spec_float.

Definition zero : float64 := S754_zero false.
Definition nan : float64 := S754_nan.

(** [float64(z)] for an integer [z] (round to nearest even). *)
Definition of_int (z : Z) : float64 := binary_normalize prec emax z 0 false.

Definition add : float64 -> float64 -> float64 := SFadd prec emax.
Definition mul : float64 -> float64 -> float64 := SFmul prec emax.
Definition div : float64 -> float64 -> float64 := SFdiv prec emax.

(** Go's [x > y] on floats: false as soon as one side is NaN. *)
Definition gt (x y : float64) : bool := SFltb y x.

(** The constants [1.0], [2.0] and [3.0]. *)
Definition one : float64 := Eval vm_compute in of_int 1.
Definition two : float64 := Eval vm_compute in of_int 2.
Definition three : float64 := Eval vm_compute in of_int 3.

End F64.

Abbreviation float64 := spec_float.

(** ** Instants and the calendar (package [time]) *)

Module time.

(** An instant: nanoseconds since 1970-01-01T00:00:00Z. *)
Definition Time : Type := Z.

Definition nanosPerSecond : Z := 1000000000.
Definition nanosPerDay : Z := 86400 * nanosPerSecond.

(** [t.After(u)] *)
Definition After (t u : Time) : bool := u <? t.

(** Days since the epoch of the UTC calendar day that holds [t]. *)
Definition utcDay (t : Time) : Z := t / nanosPerDay.

(** Proleptic Gregorian date of a day number. *)
Definition civil_from_days (z : Z) : Z * Z * Z :=
  let z := z + 719468 in
  let era := z / 146097 in
  let doe := z - era * 146097 in
  let yoe := (doe - doe / 1460 + doe / 36524 - doe / 146096) / 365 in
  let y := yoe + era * 400 in
  let doy := doe - (365 * yoe + yoe / 4 - yoe / 100) in
  let mp := (5 * doy + 2) / 153 in
  let d := doy - (153 * mp + 2) / 5 + 1 in
  let m := if mp <? 10 then mp + 3 else mp - 9 in
  (if m <=? 2 then y + 1 else y, m, d).

(** Day number of a date; days beyond the month's end run on into the
    following month, as [time.Date] normalises them. *)
Definition days_from_civil (y m d : Z) : Z :=
  let y := if m <=? 2 then y - 1 else y in
  let era := y / 400 in
  let yoe := y - era * 400 in
  let doy := (153 * (if 2 <? m then m - 3 else m + 9) + 2) / 5 + d - 1 in
  let doe := yoe * 365 + yoe / 4 - yoe / 100 + doy in
  era * 146097 + doe - 719468.

(** The zero [time.Time{}]: January 1, year 1, 00:00:00 UTC. *)
Definition zeroTime : Time := Eval vm_compute in days_from_civil 1 1 1 * nanosPerDay.

(** [appendInt(b, x, width)]: decimal with zero padding, sign first. *)
Definition zeros (n : nat) : string := String.concat "" (repeat "0" n).
Definition appendInt (x : Z) (width : nat) : string :=
  let digits := pretty (Z.abs x) in
  (if x <? 0 then "-" else "") +:+ zeros (width - String.length digits) +:+ digits.

(** [t.Format("2006-01-02")] in UTC. *)
Definition formatDate (t : Time) : string :=
  let '(y, m, d) := civil_from_days (utcDay t) in
  appendInt y 4 +:+ "-" +:+ appendInt m 2 +:+ "-" +:+ appendInt d 2.

(** [t.Format("2006-01")] in UTC. *)
Definition formatMonth (t : Time) : string :=
  let '(y, m, _) := civil_from_days (utcDay t) in
  appendInt y 4 +:+ "-" +:+ appendInt m 2.

(** ISO 8601 weekday of a day number: Monday is 1, Sunday is 7. *)
Definition isoWeekday (day : Z) : Z := (day + 3) mod 7 + 1.

(** [t.ISOWeek()]: the year and week of the Thursday of [t]'s week. *)
Definition ISOWeek (t : Time) : Z * Z :=
  let day := utcDay t in
  let thursday := day + (4 - isoWeekday day) in
  let '(year, _, _) := civil_from_days thursday in
  let yday := thursday - days_from_civil year 1 1 in
  (year, yday / 7 + 1).

(** [now.AddDate(0, 0, days)] *)
Definition AddDays (t : Time) (days : Z) : Time := t + days * nanosPerDay.

(** [now.AddDate(0, months, 0)] in UTC: the month is shifted and the
    date normalised, the time of day kept. *)
Definition AddMonths (t : Time) (months : Z) : Time :=
  let '(y, m, d) := civil_from_days (utcDay t) in
  let m' := m - 1 + months in
  let day := days_from_civil (y + m' / 12) (m' mod 12 + 1) d in
  day * nanosPerDay + t mod nanosPerDay.

End time.

(** ** Results, slices and [sort.Slice] *)

(** A Go call that returns [(T, error)].  [Panic] stands for a run-time
    panic (nil dereference, slice bounds) that unwinds the call. *)
Inductive result (A : Type) : Type :=
  | Ok (a : A)
  | Err (msg : string)
  | Panic (msg : string).
Arguments Ok {A} a.
Arguments Err {A} msg.
Arguments Panic {A} msg.

Definition bindR {A B} (r : result A) (k : A -> result B) : result B :=
  match r with
  | Ok a => k a
  | Err e => Err e
  | Panic e => Panic e
  end.

(** [fmt.Errorf(prefix + ": %w", err)] on the error branch. *)
Definition wrapErr {A} (pfx : string) (r : result A) : result A :=
  match r with
  | Err e => Err (pfx +:+ ": " +:+ e)
  | other => other
  end.

(** [len(s)] as a Go [int]. *)
Definition len {A} (l : list A) : Z := Z.of_nat (length l).

(** [s[:n]]; a negative or too large bound panics. *)
Definition slice_to {A} (l : list A) (n : Z) : result (list A) :=
  if (n <? 0) || (len l <? n) then Panic "slice bounds out of range"
  else Ok (firstn (Z.to_nat n) l).

(** The interface of [sort.Slice]: a function of the comparison and of
    the slice.  The comparison is given on elements; the closures of the
    source read both elements from the slice being sorted. *)
Class SliceSorter : Type :=
  sort_Slice : forall A : Type, (A -> A -> bool) -> list A -> list A.
Arguments sort_Slice {_} {A} less l.

(** What Go asks of [less]: a strict weak ordering of the elements of
    the slice. *)
Definition strict_weak {A} (less : A -> A -> bool) (l : list A) : Prop :=
  (forall x, In x l -> less x x = false) /\
  (forall x y z, In x l -> In y l -> In z l ->
     less x y = true -> less y z = true -> less x z = true) /\
  (forall x y z, In x l -> In y l -> In z l ->
     less x y = false -> less y z = false -> less x z = false).

(** A slice is in order when no later element is less than an earlier one. *)
Definition ordered {A} (less : A -> A -> bool) (l : list A) : Prop :=
  StronglySorted (fun x y => less y x = false) l.

(** The documented contract of [sort.Slice]: the slice is rearranged, and
    it ends up in order when [less] is a strict weak ordering.  Nothing is
    promised about the relative order of equal elements. *)
Definition SortContract (S : SliceSorter) : Prop :=
  forall (A : Type) (less : A -> A -> bool) (l : list A),
    Permutation (sort_Slice less l) l /\
    (strict_weak less l -> ordered less (sort_Slice less l)).

(** Go's [insertionSortLessFunc], the algorithm [sort.Slice] runs on
    slices of at most six elements: each element in turn is swapped
    leftwards while it is less than its left neighbour.  The sorted prefix
    is kept reversed, its last element first. *)
Fixpoint insertLeft {A} (less : A -> A -> bool) (x : A) (rprefix : list A) : list A :=
  match rprefix with
  | [] => [x]
  | y :: r => if less x y then y :: insertLeft less x r else x :: y :: r
  end.

Definition insertionSort {A} (less : A -> A -> bool) (l : list A) : list A :=
  rev (fold_left (fun rprefix x => insertLeft less x rprefix) l []).

Definition insertionSorter : SliceSorter := fun A => @insertionSort A.

(** ** Go's [strings] and [strconv]

    The functions of the two packages that the program calls, on strings
    as Go has them: sequences of bytes. *)

Module strings.

(** [strings.HasPrefix(s, prefix)] *)
Fixpoint HasPrefix (s pre : string) : bool :=
  match pre with
  | "" => true
  | String p pre' =>
      match s with
      | String c s' => Ascii.eqb c p && HasPrefix s' pre'
      | "" => false
      end
  end.

(** [s[:n]] and [s[n:]], for [n] within the string. *)
Fixpoint takeBytes (n : nat) (s : string) : string :=
  match n, s with
  | S n', String c s' => String c (takeBytes n' s')
  | _, _ => ""
  end.

Fixpoint dropBytes (n : nat) (s : string) : string :=
  match n, s with
  | S n', String _ s' => dropBytes n' s'
  | _, _ => s
  end.

(** [strings.TrimPrefix(s, prefix)] *)
Definition TrimPrefix (s pre : string) : string :=
  if HasPrefix s pre then dropBytes (String.length pre) s else s.

(** [strings.Index(s, substr)]: the position of the first occurrence,
    or -1. *)
Fixpoint Index (s substr : string) : Z :=
  if HasPrefix s substr then 0
  else match s with
       | "" => -1
       | String _ s' => let i := Index s' substr in if i <? 0 then -1 else i + 1
       end.

(** [strings.Contains(s, substr)] *)
Definition Contains (s substr : string) : bool := 0 <=? Index s substr.

(** The loop of [strings.Split] for a separator that is not empty: cut at
    each occurrence in turn.  No string has more occurrences than bytes. *)
Fixpoint splitLoop (fuel : nat) (s sep : string) : list string :=
  match fuel with
  | O => [s]
  | S fuel' =>
      let m := Index s sep in
      if m <? 0 then [s]
      else takeBytes (Z.to_nat m) s
           :: splitLoop fuel' (dropBytes (Z.to_nat m + String.length sep) s) sep
  end.

(** [strings.Split(s, sep)].  Every call of the program passes a
    separator that is not empty; for the empty one Go cuts after each
    UTF-8 sequence, which on ASCII text is after each byte. *)
Definition Split (s sep : string) : list string :=
  if String.eqb sep "" then map (fun c => String c "") (String.list_ascii_of_string s)
  else splitLoop (String.length s) s sep.

End strings.

Module strconv.

(** The two errors of the number parsers. *)
Inductive NumError : Type := ErrSyntax | ErrRange.

Definition maxUint64 : Z := 2 ^ 64 - 1.

(** The value of a decimal digit. *)
Definition digit (c : Ascii.ascii) : option Z :=
  let n := Z.of_N (Ascii.N_of_ascii c) - 48 in
  if (0 <=? n) && (n <=? 9) then Some n else None.

(** The digit loop of [ParseUint(s, 10, 64)]: a byte that is no decimal
    digit is a syntax error; as soon as the number leaves the 64 bits the
    loop stops with the largest value and a range error. *)
Fixpoint parseUintFrom (n : Z) (s : string) : Z * option NumError :=
  match s with
  | "" => (n, None)
  | String c s' =>
      match digit c with
      | None => (0, Some ErrSyntax)
      | Some d =>
          if maxUint64 / 10 + 1 <=? n then (maxUint64, Some ErrRange)
          else
            let n1 := n * 10 + d in
            if maxUint64 <? n1 then (maxUint64, Some ErrRange)
            else parseUintFrom n1 s'
      end
  end.

(** [strconv.ParseUint(s, 10, 64)]: the value and the error. *)
Definition ParseUint (s : string) : Z * option NumError :=
  match s with
  | "" => (0, Some ErrSyntax)
  | _ => parseUintFrom 0 s
  end.

(** [strconv.ParseInt(s, 10, 64)]: an optional sign, then [ParseUint];
    out of range the nearest bound is returned with the error. *)
Definition ParseInt (s : string) : Z * option NumError :=
  match s with
  | "" => (0, Some ErrSyntax)
  | String c rest =>
      let neg := Ascii.eqb c "-"%char in
      let digits := if Ascii.eqb c "+"%char || neg then rest else s in
      match ParseUint digits with
      | (_, Some ErrSyntax) => (0, Some ErrSyntax)
      | (un, _) =>
          if negb neg && (Int64.half <=? un) then (Int64.max_int, Some ErrRange)
          else if neg && (Int64.half <? un) then (Int64.min_int, Some ErrRange)
          else (if neg then - un else un, None)
      end
  end.

(** [strconv.Atoi(s)], [int] being 64 bits wide: the value and the error
    of [ParseInt(s, 10, 0)], which its fast path for short strings
    computes too. *)
Definition Atoi (s : string) : Z * option NumError := ParseInt s.

End strconv.

(** ** Package [config] *)

Module config.

Module Config.
Record t : Type := mk { YouTubeAPIKey : string; DBPath : string }.
End Config.

(** What [Load] reads of the process: the environment ([os.Getenv] gives
    the empty string for a variable that is not set), the working
    directory, and [filepath.Join]. *)
Module Process.
Record t : Type := mk {
  Getenv : string -> string;
  Getwd : result string;
  Join : list string -> string
}.
End Process.

Definition ErrMissingAPIKey : string := "YouTube API key is required".

(** [func Load()], which returns the configuration or an error. *)
Definition Load (p : Process.t) : result Config.t :=
  let apiKey := Process.Getenv p "YOUTUBE_API_KEY" in
  if String.eqb apiKey "" then Err "YOUTUBE_API_KEY environment variable is required"
  else
    let dbPath := Process.Getenv p "DB_PATH" in
    bindR (if String.eqb dbPath "" then
             match Process.Getwd p with
             | Ok wd => Ok (Process.Join p [wd; ".."; "sqlite"; "yt_insights.db"])
             | Err e => Err ("failed to get working directory: " +:+ e)
             | Panic e => Panic e
             end
           else Ok dbPath)
      (fun dbPath => Ok (Config.mk apiKey dbPath)).

(** [func (c *Config) Validate() error] *)
Definition Validate (c : Config.t) : result unit :=
  if String.eqb (Config.YouTubeAPIKey c) ""
  then Err (ErrMissingAPIKey +:+ ": YOUTUBE_API_KEY environment variable is not set")
  else Ok tt.

End config.

(** ** Package [models] *)

Module models.

Import time.

Module Video.
Record t : Type := mk {
  ID : string;
  Title : string;
  Description : string;
  Views : Z;
  Likes : Z;
  Comments : Z;
  UploadDate : Time;
  PublishedAt : Time;
  Duration : string;
  Thumbnail : string;
  ViewCount : Z;
  LikeCount : Z;
  CommentCount : Z
}.
End Video.

(** [VideoSortOption] is a string type with three named values. *)
Definition VideoSortOption : Type := string.
Definition SortByViews : VideoSortOption := "views".
Definition SortByLikes : VideoSortOption := "likes".
Definition SortByRecency : VideoSortOption := "recency".

Module VideoFilter.
Record t : Type := mk {
  SortBy : VideoSortOption;
  MaxVideos : Z;
  MinViews : Z;
  MinLikes : Z
}.
End VideoFilter.

Module Channel.
Record t : Type := mk {
  ID : string;
  Title : string;
  Description : string;
  Subscribers : Z;
  ViewCount : Z;
  VideoCount : Z;
  Thumbnail : string
}.
End Channel.

Module TimeRange.
Record t : Type := mk { StartDate : string; EndDate : string }.
End TimeRange.

Module ChannelAnalytics.
Record t : Type := mk {
  ChannelID : string;
  ChannelTitle : string;
  ChannelName : string;
  SubscriberCount : Z;
  ViewCount : Z;
  VideoCount : Z;
  TotalVideos : Z;
  AverageViews : float64;
  LikeToViewRatio : float64;
  CommentToViewRatio : float64;
  TopEngagingVideos : list Video.t;
  TimeRange : TimeRange.t;
  Timestamp : Time
}.
End ChannelAnalytics.

(** Weight factors of the engagement score. *)
Definition viewWeight : float64 := F64.one.
Definition likeWeight : float64 := F64.two.
Definition commentWeight : float64 := F64.three.

(** [func (v *Video) EngagementScore() float64] *)
Definition EngagementScore (v : Video.t) : float64 :=
  if Video.Views v =? 0 then F64.zero
  else
    F64.add
      (F64.add (F64.mul viewWeight (F64.of_int (Video.Views v)))
               (F64.mul likeWeight (F64.of_int (Video.Likes v))))
      (F64.mul commentWeight (F64.of_int (Video.Comments v))).

Module VideoPerformancePoint.
Record t : Type := mk {
  UploadDate : Time;
  Views : Z;
  Likes : Z;
  Comments : Z;
  LikesToViews : float64;
  CommentsToViews : float64
}.
End VideoPerformancePoint.

Module RollingAverage.
Record t : Type := mk { UploadIndex : Z; AverageViews : float64 }.
End RollingAverage.

Module UploadFrequency.
Record t : Type := mk { Period : string; Count : Z }.
End UploadFrequency.

Module EngagementTrend.
Record t : Type := mk {
  Period : string;
  AverageViews : float64;
  AverageLikes : float64;
  AverageComments : float64
}.
End EngagementTrend.

Module ChannelTrends.
Record t : Type := mk {
  ChannelID : string;
  ChannelTitle : string;
  ChannelName : string;
  TrendingVideos : list Video.t;
  PerformanceOverTime : list VideoPerformancePoint.t;
  RollingAverages : list RollingAverage.t;
  UploadFrequencyWeekly : list UploadFrequency.t;
  UploadFrequencyMonthly : list UploadFrequency.t;
  EngagementTrendsWeekly : list EngagementTrend.t;
  EngagementTrendsMonthly : list EngagementTrend.t;
  Timestamp : Time
}.
End ChannelTrends.

(** *** The engagement cache (table [channel_engagement]) *)

Definition EngagementType : Type := string.
Definition EngagementTypeAnalytics : EngagementType := "analytics".
Definition EngagementTypeTrends : EngagementType := "trends".

Module ChannelEngagement.
Record t : Type := mk {
  ID : Z;
  ChannelID : string;
  EngagementType : string;
  CreateDate : Time;
  UpdateDate : Time;
  JSONResponse : string
}.
End ChannelEngagement.

(** The database behind [*Database]: the rows of [channel_engagement]
    in rowid order, the next AUTOINCREMENT value, and whether the
    connection answers at all. *)
Module Database.
Record t : Type := mk {
  rows : list ChannelEngagement.t;
  next_id : Z;
  online : bool
}.
End Database.

Definition connError : string := "connection lost".

(** SQLite's [CURRENT_TIMESTAMP]: the instant cut to whole seconds. *)
Definition CURRENT_TIMESTAMP (now : Time) : Time := now - now mod nanosPerSecond.

(** [WHERE channel_id = ? AND engagement_type = ?] *)
Definition has_key (channelID engagementType : string) (r : ChannelEngagement.t) : bool :=
  String.eqb (ChannelEngagement.ChannelID r) channelID
  && String.eqb (ChannelEngagement.EngagementType r) engagementType.

(** [CHECK(engagement_type IN ('analytics', 'trends'))] *)
Definition check_engagement_type (ty : string) : bool :=
  String.eqb ty "analytics" || String.eqb ty "trends".

(** The [UPDATE ... SET json_response = ?, update_date = CURRENT_TIMESTAMP
    WHERE ...] statement on one row. *)
Definition update_row (channelID engagementType json : string) (ts : Time)
    (r : ChannelEngagement.t) : ChannelEngagement.t :=
  if has_key channelID engagementType r then
    ChannelEngagement.mk (ChannelEngagement.ID r) (ChannelEngagement.ChannelID r)
      (ChannelEngagement.EngagementType r) (ChannelEngagement.CreateDate r) ts json
  else r.

(** [func (d *Database) StoreEngagement(engagement *ChannelEngagement) error]
    (the SQLite Cloud variant), run at instant [now]. *)
Definition StoreEngagement (d : Database.t) (now : Time) (engagement : ChannelEngagement.t)
    : result unit * Database.t :=
  let channelID := ChannelEngagement.ChannelID engagement in
  let ty := ChannelEngagement.EngagementType engagement in
  let json := ChannelEngagement.JSONResponse engagement in
  if negb (Database.online d) then
    (Err ("failed to check existing record: " +:+ connError), d)
  else
    let count := len (List.filter (has_key channelID ty) (Database.rows d)) in
    if 0 <? count then
      (Ok tt,
       Database.mk (map (update_row channelID ty json (CURRENT_TIMESTAMP now)) (Database.rows d))
                   (Database.next_id d) (Database.online d))
    else if check_engagement_type ty then
      (Ok tt,
       Database.mk
         (Database.rows d ++
            [ChannelEngagement.mk (Database.next_id d) channelID ty
               (CURRENT_TIMESTAMP now) (CURRENT_TIMESTAMP now) json])
         (Database.next_id d + 1) (Database.online d))
    else
      (Err "failed to store engagement: CHECK constraint failed", d).

(** [ORDER BY create_date DESC LIMIT 1] over the selected rows. *)
Definition latest (rs : list ChannelEngagement.t) : option ChannelEngagement.t :=
  fold_left
    (fun best r =>
       match best with
       | None => Some r
       | Some b =>
           if ChannelEngagement.CreateDate b <? ChannelEngagement.CreateDate r
           then Some r else Some b
       end)
    rs None.

(** [func (d *Database) GetLatestEngagement(channelID, engagementType)] *)
Definition GetLatestEngagement (d : Database.t) (channelID : string)
    (engagementType : EngagementType) : result (option ChannelEngagement.t) :=
  if negb (Database.online d) then
    Err ("failed to get latest engagement: " +:+ connError)
  else
    Ok (latest (List.filter (has_key channelID engagementType) (Database.rows d))).

(** [func maskConnectionString(connStr string) string] *)
Definition maskConnectionString (connStr : string) : string :=
  if strings.Contains connStr "apikey=" then
    let parts := strings.Split connStr "apikey=" in
    if 1 <? len parts then nth 0 parts "" +:+ "apikey=***" else connStr
  else connStr.

(** [func (d *Database) UpdateEngagement(engagement *ChannelEngagement) error]
    (the SQLite Cloud variant): the [UPDATE] statement alone, run at
    instant [now]; the driver's error is returned as it is. *)
Definition UpdateEngagement (d : Database.t) (now : Time) (engagement : ChannelEngagement.t)
    : result unit * Database.t :=
  if negb (Database.online d) then (Err connError, d)
  else
    (Ok tt,
     Database.mk
       (map (update_row (ChannelEngagement.ChannelID engagement)
               (ChannelEngagement.EngagementType engagement)
               (ChannelEngagement.JSONResponse engagement) (CURRENT_TIMESTAMP now))
          (Database.rows d))
       (Database.next_id d) (Database.online d)).

(** [ORDER BY create_date DESC] over the selected rows; rows of one date
    stay in rowid order. *)
Definition newestFirst (rs : list ChannelEngagement.t) : list ChannelEngagement.t :=
  insertionSort
    (fun a b => ChannelEngagement.CreateDate b <? ChannelEngagement.CreateDate a) rs.

(** [LIMIT ?]: SQLite reads a negative limit as no limit. *)
Definition limitTo {A} (limit : Z) (l : list A) : list A :=
  if limit <? 0 then l else firstn (Z.to_nat limit) l.

(** [func (d *Database) GetEngagementHistory(channelID, engagementType, limit)]
    (the SQLite Cloud variant). *)
Definition GetEngagementHistory (d : Database.t) (channelID : string)
    (engagementType : EngagementType) (limit : Z) : result (list ChannelEngagement.t) :=
  if negb (Database.online d) then Err connError
  else
    Ok (limitTo limit
          (newestFirst (List.filter (has_key channelID engagementType) (Database.rows d)))).

End models.

(** [for ... { x, err := f(a); if err != nil { return } ; out = append(out, x) }] *)
Fixpoint mapR {A B} (f : A -> result B) (l : list A) : result (list B) :=
  match l with
  | [] => Ok []
  | a :: l' => bindR (f a) (fun b => bindR (mapR f l') (fun bs => Ok (b :: bs)))
  end.

(** What a handler writes with [c.JSON]: a status with a body, or a status
    with [gin.H{"error": msg}].  [Aborted] is a handler unwound by a panic. *)
Inductive Response (A : Type) : Type :=
  | JSON (status : Z) (body : A)
  | JSONError (status : Z) (msg : string)
  | Aborted (msg : string).
Arguments JSON {A} status body.
Arguments JSONError {A} status msg.
Arguments Aborted {A} msg.

Definition StatusOK : Z := 200.
Definition StatusBadRequest : Z := 400.
Definition StatusNotFound : Z := 404.
Definition StatusInternalServerError : Z := 500.

(** ** Package [api] *)

Module api.

Import time models.

(** A value boxed as Go's [any], and the type assertions on it. *)
Inductive any : Type :=
  | AnyString (s : string)
  | AnyUint64 (n : Z)
  | AnyTime (t : Time).

Definition as_uint64 (a : any) : option Z :=
  match a with AnyUint64 n => Some n | _ => None end.
Definition as_string (a : any) : option string :=
  match a with AnyString s => Some s | _ => None end.
Definition as_Time (a : any) : option Time :=
  match a with AnyTime t => Some t | _ => None end.

(** [time.Parse(time.RFC3339, s)], a function of Go's library; the
    parsed instant is read in UTC. *)
Class TimeParser : Type := parseRFC3339 : string -> option Time.

(** [videos[i]] *)
Definition index {A} (l : list A) (i : Z) : result A :=
  if i <? 0 then Panic "index out of range"
  else match l !! Z.to_nat i with
       | Some x => Ok x
       | None => Panic "index out of range"
       end.

(** [videos[i:j]] *)
Definition slice {A} (l : list A) (i j : Z) : result (list A) :=
  if (i <? 0) || (j <? i) || (len l <? j) then Panic "slice bounds out of range"
  else Ok (firstn (Z.to_nat (j - i)) (skipn (Z.to_nat i) l)).

(** [*p] *)
Definition deref {A} (p : option A) : result A :=
  match p with
  | Some a => Ok a
  | None => Panic "nil pointer dereference"
  end.

(** *** Code shared by the call paths

    The conversions, the filter, the sort switch, the running totals
    and the top-five selection are written out in each function of the
    source; they are stated once here. *)

(** [if n, ok := any(x).(uint64); ok { views = int64(n) }] *)
Definition countOf (a : any) : Z :=
  match as_uint64 a with
  | Some n => Int64.wrap n
  | None => 0
  end.

(** [if views < filter.MinViews || likes < filter.MinLikes { continue }] *)
Definition passes (filter : VideoFilter.t) (v : Video.t) : bool :=
  negb ((Video.Views v <? VideoFilter.MinViews filter)
        || (Video.Likes v <? VideoFilter.MinLikes filter)).

(** The running totals of views, likes and comments. *)
Definition totals (videos : list Video.t) : Z * Z * Z :=
  fold_left
    (fun '(totalViews, totalLikes, totalComments) video =>
       (Int64.add totalViews (Video.Views video),
        Int64.add totalLikes (Video.Likes video),
        Int64.add totalComments (Video.Comments video)))
    videos (0, 0, 0).

(** [videos[i].EngagementScore() > videos[j].EngagementScore()] *)
Definition byEngagementScore (a b : Video.t) : bool :=
  F64.gt (EngagementScore a) (EngagementScore b).

(** [top := videos; if len(videos) > 5 { top = videos[:5] }] *)
Definition top5 (videos : list Video.t) : list Video.t :=
  if 5 <? len videos then firstn 5 videos else videos.

(** One performance point per video; the ratios are guarded. *)
Definition perfPoint (v : Video.t) : VideoPerformancePoint.t :=
  let '(likesToViews, commentsToViews) :=
    if 0 <? Video.Views v then
      (F64.div (F64.of_int (Video.Likes v)) (F64.of_int (Video.Views v)),
       F64.div (F64.of_int (Video.Comments v)) (F64.of_int (Video.Views v)))
    else (F64.zero, F64.zero) in
  VideoPerformancePoint.mk (Video.UploadDate v) (Video.Views v) (Video.Likes v)
    (Video.Comments v) likesToViews commentsToViews.

Section Shared.

Context {sorter : SliceSorter} {parser : TimeParser}.

(** The publication date, from a string or from a [time.Time]. *)
Definition publishedOf (a : any) : Time :=
  match as_string a with
  | Some pub =>
      match parseRFC3339 pub with
      | Some parsed => parsed
      | None => zeroTime
      end
  | None =>
      match as_Time a with
      | Some pub => pub
      | None => zeroTime
      end
  end.

(** [switch filter.SortBy { ... sort.Slice(...) }] *)
Definition sortVideos (filter : VideoFilter.t) (videos : list Video.t) : list Video.t :=
  if String.eqb (VideoFilter.SortBy filter) SortByViews then
    sort_Slice (fun a b => Video.Views a >? Video.Views b) videos
  else if String.eqb (VideoFilter.SortBy filter) SortByLikes then
    sort_Slice (fun a b => Video.Likes a >? Video.Likes b) videos
  else if String.eqb (VideoFilter.SortBy filter) SortByRecency then
    sort_Slice (fun a b => After (Video.UploadDate a) (Video.UploadDate b)) videos
  else videos.

(** The top five by engagement score, as both trends functions take it. *)
Definition trending (videos : list Video.t) : list Video.t :=
  if 0 <? len videos then top5 (sort_Slice byEngagementScore videos) else [].

End Shared.

(** *** The direct HTTP client *)

Module YouTubeClient.

(** One element of [models.VideoListResponse.Items]: the statistics
    are strings, the publication date a decoded [time.Time]. *)
Module VideoItem.
Record t : Type := mk {
  ID : string;
  Title : string;
  Description : string;
  PublishedAt : Time;
  ThumbnailURL : string;
  Duration : string;
  ViewCount : string;
  LikeCount : string;
  CommentCount : string
}.
End VideoItem.

(** The client, given by the answers of the YouTube Data API to its
    requests.  A playlist is the finite sequence of its pages: a page
    carries a continuation token exactly when another page follows.
    [GetChannelByID] is taken at its result. *)
Record t : Type := mk {
  GetChannelByID : string -> result Channel.t;
  getUploads : string -> result (list string);
  getPlaylistItems : string -> list (result (list string));
  getVideos : list string -> result (list VideoItem.t)
}.

(** The four maps filled by the bucketing loop of [GetChannelTrends]. *)
Record Buckets : Type := {
  weekly : gmap string Z;
  monthly : gmap string Z;
  engageWeekly : gmap string (list Video.t);
  engageMonthly : gmap string (list Video.t)
}.

Section Client.

Context {sorter : SliceSorter} {parser : TimeParser}.

Definition toVideo (item : VideoItem.t) : Video.t :=
  let views := countOf (AnyString (VideoItem.ViewCount item)) in
  let likes := countOf (AnyString (VideoItem.LikeCount item)) in
  let comments := countOf (AnyString (VideoItem.CommentCount item)) in
  let publishedAt := publishedOf (AnyTime (VideoItem.PublishedAt item)) in
  Video.mk (VideoItem.ID item) (VideoItem.Title item) (VideoItem.Description item)
    views likes comments publishedAt publishedAt
    (VideoItem.Duration item) (VideoItem.ThumbnailURL item)
    views likes comments.

(** The pagination loop over the uploads playlist. *)
Fixpoint collectIDs (maxVideos : Z) (pages : list (result (list string)))
    (allVideoIDs : list string) : result (list string) :=
  match pages with
  | [] => Ok allVideoIDs
  | page :: rest =>
      bindR (wrapErr "failed to fetch playlist items" page) (fun items =>
        let allVideoIDs := allVideoIDs ++ items in
        if (maxVideos <=? len allVideoIDs) || (len rest =? 0)
        then Ok allVideoIDs
        else collectIDs maxVideos rest allVideoIDs)
  end.

(** [for i := 0; i < len(ids); i += 50 { batch := ids[i:end] ... }] *)
Fixpoint batches (fuel : nat) (ids : list string) : list (list string) :=
  match fuel, ids with
  | _, [] => []
  | O, _ => []
  | S fuel, _ => firstn 50 ids :: batches fuel (skipn 50 ids)
  end.

(** The detail requests, one per batch, with conversion and filtering. *)
Fixpoint fetchDetails (c : t) (filter : VideoFilter.t)
    (bs : list (list string)) (allVideos : list Video.t) : result (list Video.t) :=
  match bs with
  | [] => Ok allVideos
  | batch :: rest =>
      bindR (wrapErr "failed to fetch video details" (getVideos c batch)) (fun items =>
        fetchDetails c filter rest
          (allVideos ++ List.filter (passes filter) (map toVideo items)))
  end.

(** [func (c *YouTubeClient) GetChannelVideos(channelID, filter)] *)
Definition GetChannelVideos (c : t) (channelID : string)
    (filter : VideoFilter.t) : result (list Video.t) :=
  bindR (wrapErr "failed to fetch channel details" (getUploads c channelID)) (fun items =>
    match items with
    | [] => Err "channel not found"
    | uploadsPlaylistID :: _ =>
        bindR (collectIDs (VideoFilter.MaxVideos filter)
                 (getPlaylistItems c uploadsPlaylistID) []) (fun allVideoIDs =>
        bindR (if VideoFilter.MaxVideos filter <? len allVideoIDs
               then slice_to allVideoIDs (VideoFilter.MaxVideos filter)
               else Ok allVideoIDs) (fun allVideoIDs =>
        bindR (fetchDetails c filter (batches (length allVideoIDs) allVideoIDs) [])
          (fun allVideos => Ok (sortVideos filter allVideos))))
    end).

(** The body of [GetChannelAnalytics] below the empty check. *)
Definition analyticsOf (channelID : string) (channel : Channel.t)
    (videos : list Video.t) : result ChannelAnalytics.t :=
  let '(totalViews, totalLikes, totalComments) := totals videos in
  let averageViews := F64.div (F64.of_int totalViews) (F64.of_int (len videos)) in
  let likeToViewRatio := F64.div (F64.of_int totalLikes) (F64.of_int totalViews) in
  let commentToViewRatio := F64.div (F64.of_int totalComments) (F64.of_int totalViews) in
  let n := len videos in
  let videos := sort_Slice byEngagementScore videos in
  let topVideos := top5 videos in
  bindR (index videos (n - 1)) (fun last =>
  bindR (index videos 0) (fun first =>
    Ok (ChannelAnalytics.mk channelID (Channel.Title channel) "" 0 0 0
          n averageViews likeToViewRatio commentToViewRatio topVideos
          (TimeRange.mk (formatDate (Video.UploadDate last))
                        (formatDate (Video.UploadDate first)))
          zeroTime))).

(** [func (c *YouTubeClient) GetChannelAnalytics(channelID)] *)
Definition GetChannelAnalytics (c : t) (channelID : string)
    : result ChannelAnalytics.t :=
  bindR (wrapErr "failed to get channel info" (GetChannelByID c channelID)) (fun channel =>
    let filter := VideoFilter.mk SortByRecency (Channel.VideoCount channel) 0 0 in
    bindR (wrapErr "failed to get channel videos" (GetChannelVideos c channelID filter))
      (fun videos =>
         if len videos =? 0 then Err "no videos found for channel"
         else analyticsOf channelID channel videos)).

(** [sum := int64(0); for j := start; j <= i; j++ { sum += videos[j].Views }] *)
Definition sumViewsFrom (videos : list Video.t) (start i : Z) : result Z :=
  fold_left
    (fun acc j =>
       bindR acc (fun sum =>
       bindR (index videos j) (fun v => Ok (Int64.add sum (Video.Views v)))))
    (seqZ start (i - start + 1)) (Ok 0).

(** Rolling average of views over the last [window] uploads up to
    position [i] ([window := 10] in [GetChannelTrends]). *)
Definition rollingAt (window : Z) (videos : list Video.t) (i : Z)
    : result RollingAverage.t :=
  let start := i - window + 1 in
  let start := if start <? 0 then 0 else start in
  bindR (sumViewsFrom videos start i) (fun sum =>
    let avg := F64.div (F64.of_int sum) (F64.of_int (i - start + 1)) in
    Ok (RollingAverage.mk i avg)).

Definition rollingAverages (window : Z) (videos : list Video.t)
    : result (list RollingAverage.t) :=
  mapR (rollingAt window videos) (seqZ 0 (len videos)).

(** [fmt.Sprintf("%d-W%02d", wYear, w)] and [Format("2006-01")] *)
Definition weekKey (v : Video.t) : string :=
  let '(wYear, w) := ISOWeek (Video.UploadDate v) in
  pretty wYear +:+ "-W" +:+ appendInt w 2.
Definition monthKey (v : Video.t) : string := formatMonth (Video.UploadDate v).

(** [m[k]++] and [m[k] = append(m[k], v)] on Go maps. *)
Definition incr (k : string) (m : gmap string Z) : gmap string Z :=
  <[k := default 0 (m !! k) + 1]> m.
Definition push (k : string) (v : Video.t) (m : gmap string (list Video.t))
    : gmap string (list Video.t) :=
  <[k := default [] (m !! k) ++ [v]]> m.

Definition bucketStep (keyW keyM : Video.t -> string) (b : Buckets) (v : Video.t)
    : Buckets :=
  {| weekly := incr (keyW v) (weekly b);
     monthly := incr (keyM v) (monthly b);
     engageWeekly := push (keyW v) v (engageWeekly b);
     engageMonthly := push (keyM v) v (engageMonthly b) |}.

Definition bucketsBy (keyW keyM : Video.t -> string) (videos : list Video.t)
    : Buckets :=
  fold_left (bucketStep keyW keyM) videos
    {| weekly := ∅; monthly := ∅; engageWeekly := ∅; engageMonthly := ∅ |}.

Definition buckets : list Video.t -> Buckets := bucketsBy weekKey monthKey.

(** [for k, v := range m { out = append(out, UploadFrequency{k, v}) }];
    the order of a Go map range is unspecified, the order of
    [map_to_list] stands for it. *)
Definition frequencies (m : gmap string Z) : list UploadFrequency.t :=
  map (fun '(k, v) => UploadFrequency.mk k v) (map_to_list m).

Definition trendOf (k : string) (vids : list Video.t) : EngagementTrend.t :=
  let '(sumViews, sumLikes, sumComments) := totals vids in
  let count := F64.of_int (len vids) in
  EngagementTrend.mk k
    (F64.div (F64.of_int sumViews) count)
    (F64.div (F64.of_int sumLikes) count)
    (F64.div (F64.of_int sumComments) count).

Definition engagementTrends (m : gmap string (list Video.t))
    : list EngagementTrend.t :=
  map (fun '(k, vids) => trendOf k vids) (map_to_list m).

(** The body of [GetChannelTrends] below the empty check. *)
Definition trendsOf (now : Time) (channelID : string) (channel : Channel.t)
    (videos : list Video.t) : result ChannelTrends.t :=
  let perf := map perfPoint videos in
  bindR (rollingAverages 10 videos) (fun rolling =>
    let b := buckets videos in
    Ok (ChannelTrends.mk channelID (Channel.Title channel) (Channel.Title channel)
          (trending videos) perf rolling
          (frequencies (weekly b)) (frequencies (monthly b))
          (engagementTrends (engageWeekly b)) (engagementTrends (engageMonthly b))
          now)).

(** [func (c *YouTubeClient) GetChannelTrends(channelID)]; a nil
    result with a nil error is [Ok None]. *)
Definition GetChannelTrends (c : t) (now : Time) (channelID : string)
    : result (option ChannelTrends.t) :=
  bindR (GetChannelByID c channelID) (fun channel =>
    let filter := VideoFilter.mk SortByRecency (Channel.VideoCount channel) 0 0 in
    bindR (GetChannelVideos c channelID filter) (fun videos =>
      if len videos =? 0 then Ok None
      else bindR (trendsOf now channelID channel videos) (fun t => Ok (Some t)))).

End Client.

End YouTubeClient.

(** *** Channel lookups of the direct client

    The methods of [YouTubeClient] that resolve a channel, over the
    transport they use: [c.client.Get] answers a URL with a response or
    with the transport's error, and [json.NewDecoder(resp.Body).Decode]
    reads a body into the structure the method declares. *)

Module http.
Record Response : Type := mk { StatusCode : Z; Body : string }.
Definition StatusOK : Z := 200.
End http.

Module url.
Record URL : Type := mk { Host : string; Path : string }.
End url.

(** [url.Parse], a function of Go's library. *)
Class URLParser : Type := urlParse : string -> result url.URL.

Module HTTPClient.

(** One element of [models.ChannelResponse.Items]. *)
Module ChannelItem.
Record t : Type := mk {
  ID : string;
  Title : string;
  Description : string;
  ThumbnailURL : string;
  SubscriberCount : string;
  ViewCount : string;
  VideoCount : string
}.
End ChannelItem.

(** The client: its key, its transport, and the decoding of a body into
    the items of each of the structures the methods declare (identifiers;
    identifier and title; channel identifier of a search result, alone or
    with the title; channels). *)
Record t : Type := mk {
  apiKey : string;
  Get : string -> result http.Response;
  decodeIDs : string -> result (list string);
  decodeTitled : string -> result (list (string * string));
  decodeFound : string -> result (list string);
  decodeFoundTitled : string -> result (list (string * string));
  decodeChannels : string -> result (list ChannelItem.t)
}.

Definition youtubeAPIBaseURL : string := "https://www.googleapis.com/youtube/v3".

(** The request every lookup starts with: get, check the status, decode. *)
Definition fetch {A} (c : t) (decode : string -> result A) (url : string)
    (getFailure decodeFailure : string) : result A :=
  bindR (wrapErr getFailure (Get c url)) (fun resp =>
    if negb (http.StatusCode resp =? http.StatusOK)
    then Err ("YouTube API returned status code: " +:+ pretty (http.StatusCode resp))
    else wrapErr decodeFailure (decode (http.Body resp))).

(** [func (c *YouTubeClient) GetChannelByID(channelID)]: the errors of
    [strconv.ParseInt] are dropped, its values kept. *)
Definition GetChannelByID (c : t) (channelID : string) : result Channel.t :=
  let url :=
    youtubeAPIBaseURL +:+ "/channels?part=snippet,statistics&id=" +:+ channelID
    +:+ "&key=" +:+ apiKey c in
  bindR (fetch c (decodeChannels c) url "failed to fetch channel data"
           "failed to decode response") (fun items =>
    match items with
    | [] => Err "channel not found"
    | item :: _ =>
        let subscribers := fst (strconv.ParseInt (ChannelItem.SubscriberCount item)) in
        let views := fst (strconv.ParseInt (ChannelItem.ViewCount item)) in
        let videos := fst (strconv.ParseInt (ChannelItem.VideoCount item)) in
        Ok (Channel.mk (ChannelItem.ID item) (ChannelItem.Title item)
              (ChannelItem.Description item) subscribers views videos
              (ChannelItem.ThumbnailURL item))
    end).

(** [func (c *YouTubeClient) SearchChannelByTitle(title)] *)
Definition SearchChannelByTitle (c : t) (title : string) : result Channel.t :=
  let searchURL :=
    youtubeAPIBaseURL +:+ "/search?part=snippet&q=" +:+ title
    +:+ "&type=channel&key=" +:+ apiKey c in
  bindR (fetch c (decodeFound c) searchURL "failed to search for channel"
           "failed to decode search response") (fun items =>
    match items with
    | [] => Err ("no channels found with title: " +:+ title)
    | channelID :: _ => GetChannelByID c channelID
    end).

(** [func (c *YouTubeClient) getChannelIDFromCustomURL(customURL)] *)
Definition getChannelIDFromCustomURL (c : t) (customURL : string) : result string :=
  let url :=
    youtubeAPIBaseURL +:+ "/channels?part=id&forUsername=" +:+ customURL
    +:+ "&key=" +:+ apiKey c in
  bindR (fetch c (decodeIDs c) url "failed to fetch channel ID"
           "failed to decode response") (fun items =>
    match items with
    | [] => Err ("no channel found for URL: " +:+ customURL)
    | id :: _ => Ok id
    end).

(** [func (c *YouTubeClient) getChannelIDFromHandle(handle)]; the lines
    it prints are left out. *)
Definition getChannelIDFromHandle (c : t) (handle : string) : result string :=
  let url :=
    youtubeAPIBaseURL +:+ "/channels?part=id,snippet&forHandle=" +:+ handle
    +:+ "&key=" +:+ apiKey c in
  bindR (fetch c (decodeTitled c) url "failed to fetch channel ID"
           "failed to decode response") (fun items =>
    match items with
    | (id, _) :: _ => Ok id
    | [] =>
        let searchURL :=
          youtubeAPIBaseURL +:+ "/search?part=snippet&q=@" +:+ handle
          +:+ "&type=channel&key=" +:+ apiKey c in
        bindR (fetch c (decodeFoundTitled c) searchURL "failed to fetch channel ID"
                 "failed to decode response") (fun found =>
          match found with
          | [] => Err ("no channel found for handle: @" +:+ handle)
          | (channelID, _) :: _ =>
              bindR (wrapErr "failed to verify channel" (GetChannelByID c channelID))
                (fun _ => Ok channelID)
          end)
    end).

(** [func (c *YouTubeClient) ExtractChannelIDFromURL(channelURL)] *)
Definition ExtractChannelIDFromURL {parser : URLParser} (c : t) (channelURL : string)
    : result string :=
  bindR (wrapErr "invalid URL" (urlParse channelURL)) (fun parsedURL =>
    if strings.Contains (url.Host parsedURL) "youtube.com" then
      let path := url.Path parsedURL in
      if strings.HasPrefix path "/channel/" then Ok (strings.TrimPrefix path "/channel/")
      else if strings.HasPrefix path "/c/" || strings.HasPrefix path "/user/" then
        let customURL := strings.TrimPrefix path "/c/" in
        let customURL := strings.TrimPrefix customURL "/user/" in
        getChannelIDFromCustomURL c customURL
      else if strings.HasPrefix path "/@" then
        getChannelIDFromHandle c (strings.TrimPrefix path "/@")
      else Err "unsupported YouTube URL format"
    else if strings.Contains (url.Host parsedURL) "youtu.be" then
      Err "youtu.be URLs are typically video URLs, not channel URLs"
    else Err "unsupported YouTube URL format").

End HTTPClient.

(** *** The handlers of [Server] *)

Module Server.

Section Server.

Context {sorter : SliceSorter} {parser : TimeParser}.

(** [func (s *Server) getChannelAnalytics(c *gin.Context)] *)
Definition getChannelAnalytics (c : YouTubeClient.t) (channelID : string)
    : Response ChannelAnalytics.t :=
  match YouTubeClient.GetChannelAnalytics c channelID with
  | Err e => JSONError StatusBadRequest e
  | Panic e => Aborted e
  | Ok analytics => JSON StatusOK analytics
  end.

(** [func (s *Server) getChannelTrends(c *gin.Context)] *)
Definition getChannelTrends (c : YouTubeClient.t) (now : Time) (channelID : string)
    : Response ChannelTrends.t :=
  match YouTubeClient.GetChannelTrends c now channelID with
  | Err e => JSONError StatusBadRequest e
  | Panic e => Aborted e
  | Ok None => JSONError StatusNotFound "No videos found for channel"
  | Ok (Some trends) => JSON StatusOK trends
  end.

End Server.

(** The filter [getChannelVideos] builds from the query string;
    [query k] is [c.Query(k)], empty for a parameter that is not there. *)
Definition filterOfQuery (query : string -> string) : VideoFilter.t :=
  let sortBy := query "sortBy" in
  let SortBy :=
    if String.eqb sortBy "views" then SortByViews
    else if String.eqb sortBy "likes" then SortByLikes
    else SortByRecency in
  let maxVideos := query "maxVideos" in
  let MaxVideos :=
    if String.eqb maxVideos "" then 50
    else match strconv.Atoi maxVideos with
         | (n, None) => if 0 <? n then n else 50
         | _ => 50
         end in
  let minViews := query "minViews" in
  let MinViews :=
    if String.eqb minViews "" then 0
    else match strconv.ParseInt minViews with
         | (n, None) => n
         | _ => 0
         end in
  let minLikes := query "minLikes" in
  let MinLikes :=
    if String.eqb minLikes "" then 0
    else match strconv.ParseInt minLikes with
         | (n, None) => n
         | _ => 0
         end in
  VideoFilter.mk SortBy MaxVideos MinViews MinLikes.

Section Listing.

Context {sorter : SliceSorter} {parser : TimeParser}.

(** [func (s *Server) getChannelVideos(c *gin.Context)] *)
Definition getChannelVideos (c : YouTubeClient.t) (channelID : string)
    (query : string -> string) : Response (list Video.t) :=
  match YouTubeClient.GetChannelVideos c channelID (filterOfQuery query) with
  | Err e => JSONError StatusBadRequest e
  | Panic e => Aborted e
  | Ok videos => JSON StatusOK videos
  end.

End Listing.

Section Channels.

Context {parser : URLParser}.

(** [c.JSON] with the result of a lookup: 400 with the error's text, 200
    with the channel. *)
Definition respond (r : result Channel.t) : Response Channel.t :=
  match r with
  | Err e => JSONError StatusBadRequest e
  | Panic e => Aborted e
  | Ok channel => JSON StatusOK channel
  end.

(** [func (s *Server) getChannelByID(c *gin.Context)] *)
Definition getChannelByID (c : HTTPClient.t) (channelID : string) : Response Channel.t :=
  respond (HTTPClient.GetChannelByID c channelID).

(** [func (s *Server) getChannelByTitle(c *gin.Context)] *)
Definition getChannelByTitle (c : HTTPClient.t) (title : string) : Response Channel.t :=
  respond (HTTPClient.SearchChannelByTitle c title).

(** [func (s *Server) getChannelByURL(c *gin.Context)] *)
Definition getChannelByURL (c : HTTPClient.t) (url : string) : Response Channel.t :=
  if String.eqb url "" then JSONError StatusBadRequest "url query parameter is required"
  else
    match HTTPClient.ExtractChannelIDFromURL c url with
    | Err e => JSONError StatusBadRequest e
    | Panic e => Aborted e
    | Ok channelID => respond (HTTPClient.GetChannelByID c channelID)
    end.

End Channels.

End Server.

(** *** The SDK types ([google.golang.org/api/youtube/v3])

    Pointer fields that the source tests against nil are options. *)

Module youtube.

Module VideoSnippet.
Record t : Type := mk {
  Title : string;
  Description : string;
  PublishedAt : string;
  ThumbnailUrl : string
}.
End VideoSnippet.

Module VideoStatistics.
Record t : Type := mk { ViewCount : Z; LikeCount : Z; CommentCount : Z }.
End VideoStatistics.

Module VideoContentDetails.
Record t : Type := mk { Duration : string }.
End VideoContentDetails.

Module Video.
Record t : Type := mk {
  Id : string;
  Snippet : option VideoSnippet.t;
  Statistics : option VideoStatistics.t;
  ContentDetails : option VideoContentDetails.t
}.
End Video.

Module ChannelSnippet.
Record t : Type := mk { Title : string; Description : string; ThumbnailUrl : string }.
End ChannelSnippet.

Module ChannelStatistics.
Record t : Type := mk { SubscriberCount : Z; ViewCount : Z; VideoCount : Z }.
End ChannelStatistics.

(** [ContentDetails.RelatedPlaylists.Uploads] behind its two pointers. *)
Module Channel.
Record t : Type := mk {
  Id : string;
  Snippet : option ChannelSnippet.t;
  Statistics : option ChannelStatistics.t;
  ContentDetails : option (option string)
}.
End Channel.

(** The service, given by its answers.  [PlaylistItemsList] holds the
    successive answers for a playlist; an item is [None] when one of
    [item], [item.Snippet], [item.Snippet.ResourceId] is nil.  A page has a
    continuation token exactly when another answer follows. *)
Module Service.
Record t : Type := mk {
  ChannelsList : string -> result (list Channel.t);
  PlaylistItemsList : string -> list (result (list (option string)));
  VideosList : list string -> result (list (option Video.t))
}.
End Service.

End youtube.

(** *** The cache-gated handlers ([YouTubeAPI]) *)

Module YouTubeAPI.

(** [encoding/json] on the cached type. *)
Class JSONCodec (A : Type) : Type := {
  Marshal : A -> result string;
  Unmarshal : string -> result A
}.

(** What a request can change and what it can observe: the database, the
    clock, and the number of requests sent upstream so far. *)
Record World : Type := {
  db : Database.t;
  clock : Time;
  requests : nat
}.

(** Handlers are state transformers over the world. *)
Definition M (A : Type) : Type := World -> A * World.

Definition ret {A} (a : A) : M A := fun w => (a, w).
Definition bind {A B} (m : M A) (k : A -> M B) : M B :=
  fun w => let '(a, w') := m w in k a w'.

(** One request to the upstream service, answered by [answer]. *)
Definition request {A} (answer : A) : M A :=
  fun w => (answer, {| db := db w; clock := clock w; requests := S (requests w) |}).

(** [time.Now()] *)
Definition Now : M Time := fun w => (clock w, w).

Definition getLatestEngagement (channelID : string) (ty : EngagementType)
    : M (result (option ChannelEngagement.t)) :=
  fun w => (GetLatestEngagement (db w) channelID ty, w).

Definition storeEngagement (engagement : ChannelEngagement.t) : M (result unit) :=
  fun w =>
    let '(r, d) := StoreEngagement (db w) (clock w) engagement in
    (r, {| db := d; clock := clock w; requests := requests w |}).

(** The parsed query of [GET /channel/:id/videos]: [maxVideos], [minViews]
    and [minLikes] hold the number when the parameter is present and
    [strconv] accepts it. *)
Module Query.
Record t : Type := mk {
  sortBy : string;
  maxVideos : option Z;
  minViews : option Z;
  minLikes : option Z
}.
End Query.

(** The query string of [GET /channel/:id/videos] as [GetChannelVideos]
    reads it; [query k] is [c.Query(k)]. *)
Definition parseQuery (query : string -> string) : Query.t :=
  let number (s : string) (parsed : Z * option strconv.NumError) : option Z :=
    if String.eqb s "" then None
    else match parsed with
         | (n, None) => Some n
         | _ => None
         end in
  Query.mk (query "sortBy")
    (number (query "maxVideos") (strconv.Atoi (query "maxVideos")))
    (number (query "minViews") (strconv.ParseInt (query "minViews")))
    (number (query "minLikes") (strconv.ParseInt (query "minLikes"))).

Notation "x <- c ;; k" := (bind c (fun x => k))
  (at level 200, c at level 99, k at level 200, right associativity).

(** [x, err := f(); if err != nil { return nil, wrap(err) }] inside [M]. *)
Definition bindMR {A B} (wrap : string -> string) (m : M (result A))
    (k : A -> M (result B)) : M (result B) :=
  r <- m ;;
  match r with
  | Ok a => k a
  | Err e => ret (Err (wrap e))
  | Panic e => ret (Panic e)
  end.

Notation "x <-[ f ] c ;; k" := (bindMR f c (fun x => k))
  (at level 200, f at level 200, c at level 99, k at level 200, right associativity).

(** The conversion of one SDK video, once its parts are at hand. *)
Definition videoOf {parser : TimeParser} (v : youtube.Video.t) (snippet : youtube.VideoSnippet.t)
    (statistics : youtube.VideoStatistics.t) (details : youtube.VideoContentDetails.t)
    : Video.t :=
  let views := countOf (AnyUint64 (youtube.VideoStatistics.ViewCount statistics)) in
  let likes := countOf (AnyUint64 (youtube.VideoStatistics.LikeCount statistics)) in
  let comments := countOf (AnyUint64 (youtube.VideoStatistics.CommentCount statistics)) in
  let publishedAt := publishedOf (AnyString (youtube.VideoSnippet.PublishedAt snippet)) in
  Video.mk (youtube.Video.Id v) (youtube.VideoSnippet.Title snippet)
    (youtube.VideoSnippet.Description snippet)
    views likes comments publishedAt publishedAt
    (youtube.VideoContentDetails.Duration details)
    (youtube.VideoSnippet.ThumbnailUrl snippet)
    views likes comments.

(** The conversion as [getChannelAnalytics] and [getChannelTrends] write
    it: every pointer is followed unchecked. *)
Definition convert {parser : TimeParser} (v : option youtube.Video.t) : result Video.t :=
  bindR (deref v) (fun v =>
  bindR (deref (youtube.Video.Statistics v)) (fun statistics =>
  bindR (deref (youtube.Video.Snippet v)) (fun snippet =>
  bindR (deref (youtube.Video.ContentDetails v)) (fun details =>
    Ok (videoOf v snippet statistics details))))).

(** The conversion as [GetChannelVideos] writes it:
    [if v == nil || v.Snippet == nil || v.Statistics == nil ||
    v.ContentDetails == nil { continue }]. *)
Definition convertChecked {parser : TimeParser} (v : option youtube.Video.t) : option Video.t :=
  match v with
  | Some v =>
      match youtube.Video.Snippet v, youtube.Video.Statistics v,
            youtube.Video.ContentDetails v with
      | Some snippet, Some statistics, Some details =>
          Some (videoOf v snippet statistics details)
      | _, _, _ => None
      end
  | None => None
  end.

(** [iEngagement := videos[i].Views + videos[i].Likes + videos[i].Comments;
    return iEngagement > jEngagement] *)
Definition plainEngagement (v : Video.t) : Z :=
  Int64.add (Int64.add (Video.Views v) (Video.Likes v)) (Video.Comments v).
Definition byPlainEngagement (a b : Video.t) : bool :=
  plainEngagement a >? plainEngagement b.

Section Handlers.

Context {sorter : SliceSorter} {parser : TimeParser}.
Context {analyticsCodec : JSONCodec ChannelAnalytics.t}.
Context {trendsCodec : JSONCodec ChannelTrends.t}.
Variable service : youtube.Service.t.

(** [func (y *YouTubeAPI) getChannelInfo(channelID)] *)
Definition getChannelInfo (channelID : string) : M (result youtube.Channel.t) :=
  response <- request (youtube.Service.ChannelsList service channelID) ;;
  ret (match response with
       | Err e => Err ("error fetching channel info: " +:+ e)
       | Panic e => Panic e
       | Ok [] => Err "channel not found"
       | Ok (channel :: _) =>
           (* the debug line prints channel.Snippet.Title *)
           bindR (deref (youtube.Channel.Snippet channel)) (fun _ => Ok channel)
       end).

(** [func (y *YouTubeAPI) getChannelStatistics(channelID)] *)
Definition getChannelStatistics (channelID : string)
    : M (result (option youtube.ChannelStatistics.t)) :=
  channel <-[ fun e => e ] getChannelInfo channelID ;;
  ret (Ok (youtube.Channel.Statistics channel)).

(** The page loop of [getAllVideos]. *)
Fixpoint fetchPages (pages : list (result (list (option string))))
    (allVideos : list (option youtube.Video.t)) {struct pages}
    : M (result (list (option youtube.Video.t))) :=
  match pages with
  | [] => request (Ok allVideos)
  | page :: rest =>
      items <-[ fun e => "error fetching videos: " +:+ e ] request page ;;
      if len items =? 0 then ret (Ok allVideos)
      else
        let videoIDs := omap (fun item => item) items in
        found <-[ fun e => "error fetching video details: " +:+ e ]
          (if 0 <? len videoIDs
           then request (youtube.Service.VideosList service videoIDs)
           else ret (Ok [])) ;;
        let allVideos := allVideos ++ found in
        if len rest =? 0 then ret (Ok allVideos)
        else fetchPages rest allVideos
  end.

(** [func (y *YouTubeAPI) getAllVideos(channelID)] *)
Definition getAllVideos (channelID : string) : M (result (list (option youtube.Video.t))) :=
  channel <-[ fun e => "error getting channel info: " +:+ e ] getChannelInfo channelID ;;
  match youtube.Channel.ContentDetails channel with
  | None | Some None => ret (Err "channel or related playlists not found")
  | Some (Some playlistID) =>
      if String.eqb playlistID "" then ret (Err "uploads playlist ID not found")
      else fetchPages (youtube.Service.PlaylistItemsList service playlistID) []
  end.

(** The computation of [getChannelAnalytics] on the fetched data. *)
Definition analyticsOf (now : Time) (channelID : string) (channel : youtube.Channel.t)
    (stats : option youtube.ChannelStatistics.t)
    (allVideos : list (option youtube.Video.t)) : result ChannelAnalytics.t :=
  bindR (mapR convert allVideos) (fun videos =>
    let '(totalViews, totalLikes, totalComments) := totals videos in
    let averageViews :=
      if 0 <? len videos
      then F64.div (F64.of_int totalViews) (F64.of_int (len videos))
      else F64.zero in
    let likeToViewRatio :=
      if (0 <? len videos) && (0 <? totalViews)
      then F64.div (F64.of_int totalLikes) (F64.of_int totalViews)
      else F64.zero in
    let commentToViewRatio :=
      if (0 <? len videos) && (0 <? totalViews)
      then F64.div (F64.of_int totalComments) (F64.of_int totalViews)
      else F64.zero in
    let n := len videos in
    let videos := sort_Slice byPlainEngagement videos in
    let topEngagingVideos := top5 videos in
    bindR (if 0 <? n
           then bindR (index videos (n - 1)) (fun last =>
                bindR (index videos 0) (fun first =>
                  Ok (formatDate (Video.PublishedAt last),
                      formatDate (Video.PublishedAt first))))
           else Ok ("", "")) (fun '(startDate, endDate) =>
    bindR (deref (youtube.Channel.Snippet channel)) (fun snippet =>
    bindR (deref stats) (fun stats =>
      Ok (ChannelAnalytics.mk channelID
            (youtube.ChannelSnippet.Title snippet) (youtube.ChannelSnippet.Title snippet)
            (Int64.wrap (youtube.ChannelStatistics.SubscriberCount stats))
            (Int64.wrap (youtube.ChannelStatistics.ViewCount stats))
            (Int64.wrap (youtube.ChannelStatistics.VideoCount stats))
            n averageViews likeToViewRatio commentToViewRatio topEngagingVideos
            (TimeRange.mk startDate endDate) now))))).

(** [func (y *YouTubeAPI) getChannelAnalytics(channelID)] *)
Definition getChannelAnalytics (channelID : string) : M (result ChannelAnalytics.t) :=
  channel <-[ fun e => e ] getChannelInfo channelID ;;
  stats <-[ fun e => e ] getChannelStatistics channelID ;;
  allVideos <-[ fun e => e ] getAllVideos channelID ;;
  now <- Now ;;
  ret (analyticsOf now channelID channel stats allVideos).

(** The single ["week"] or ["month"] bucket: the videos uploaded after
    [since], counted and averaged ("Calculate averages safely"). *)
Definition recentTrend (period : string) (since : Time) (videos : list Video.t)
    : EngagementTrend.t :=
  let recent := List.filter (fun video => After (Video.UploadDate video) since) videos in
  let '(views, likes, comments) := totals recent in
  let count := len recent in
  if 0 <? count then
    EngagementTrend.mk period
      (F64.div (F64.of_int views) (F64.of_int count))
      (F64.div (F64.of_int likes) (F64.of_int count))
      (F64.div (F64.of_int comments) (F64.of_int count))
  else EngagementTrend.mk period F64.zero F64.zero F64.zero.

Definition recentUploads (period : string) (since : Time) (videos : list Video.t)
    : UploadFrequency.t :=
  UploadFrequency.mk period
    (len (List.filter (fun video => After (Video.UploadDate video) since) videos)).

(** Rolling average of views over the [windowSize] uploads from position
    [i] on ([windowSize := 7] in [getChannelTrends]). *)
Definition rollingForwardAt (windowSize : Z) (videos : list Video.t) (i : Z)
    : result RollingAverage.t :=
  let end_ := i + windowSize in
  let end_ := if len videos <? end_ then len videos else end_ in
  bindR (slice videos i end_) (fun window =>
    let totalViews := fold_left (fun total v => Int64.add total (Video.Views v)) window 0 in
    let avgViews :=
      if 0 <? len window
      then F64.div (F64.of_int totalViews) (F64.of_int (len window))
      else F64.zero in
    Ok (RollingAverage.mk i avgViews)).

Definition rollingForward (windowSize : Z) (videos : list Video.t)
    : result (list RollingAverage.t) :=
  mapR (rollingForwardAt windowSize videos) (seqZ 0 (len videos)).

(** The computation of [getChannelTrends] on the fetched data. *)
Definition trendsOf (now : Time) (channelID : string) (title : string)
    (apiVideos : list (option youtube.Video.t)) : result ChannelTrends.t :=
  bindR (mapR convert apiVideos) (fun videos =>
    let videos :=
      sort_Slice (fun a b => After (Video.UploadDate a) (Video.UploadDate b)) videos in
    let weekAgo := AddDays now (-7) in
    let monthAgo := AddMonths now (-1) in
    let performanceOverTime := map perfPoint videos in
    bindR (rollingForward 7 videos) (fun rollingAverages =>
      Ok (ChannelTrends.mk channelID title title
            (trending videos) performanceOverTime rollingAverages
            [recentUploads "week" weekAgo videos]
            [recentUploads "month" monthAgo videos]
            [recentTrend "week" weekAgo videos]
            [recentTrend "month" monthAgo videos]
            now))).

(** [func (y *YouTubeAPI) getChannelTrends(channelID)] *)
Definition getChannelTrends (channelID : string) : M (result ChannelTrends.t) :=
  apiChannel <-[ fun e => "failed to get channel info: " +:+ e ] getChannelInfo channelID ;;
  match deref (youtube.Channel.Snippet apiChannel) with
  | Ok snippet =>
      apiVideos <-[ fun e => "failed to get channel videos: " +:+ e ] getAllVideos channelID ;;
      now <- Now ;;
      ret (trendsOf now channelID (youtube.ChannelSnippet.Title snippet) apiVideos)
  | Err e => ret (Err e)
  | Panic e => ret (Panic e)
  end.

(** *** The cache gate *)

(** The cached value a handler may serve: the lookup succeeded, found a
    row, the row's update date is today's date in UTC, and the payload
    decodes. *)
Definition servedFromCache {A} `{JSONCodec A} (now : Time)
    (lookup : result (option ChannelEngagement.t)) : option A :=
  match lookup with
  | Ok (Some engagement) =>
      if String.eqb (formatDate (ChannelEngagement.UpdateDate engagement)) (formatDate now)
      then match Unmarshal (ChannelEngagement.JSONResponse engagement) with
           | Ok cached => Some cached
           | _ => None
           end
      else None
  | _ => None
  end.

(** The body that [GetChannelAnalytics] and [GetChannelTrends] share:
    serve today's snapshot, or compute, store and serve. *)
Definition cacheGated {A} `{JSONCodec A} (ty : EngagementType)
    (compute : string -> M (result A)) (marshalFailure : string)
    (channelID : string) : M (Response A) :=
  if String.eqb channelID "" then ret (JSONError StatusBadRequest "Channel ID is required")
  else
    lookup <- getLatestEngagement channelID ty ;;
    now <- Now ;;
    match servedFromCache now lookup with
    | Some cached => ret (JSON StatusOK cached)
    | None =>
        fresh <- compute channelID ;;
        match fresh with
        | Err e => ret (JSONError StatusInternalServerError e)
        | Panic e => ret (Aborted e)
        | Ok value =>
            match Marshal value with
            | Ok jsonData =>
                _ <- storeEngagement
                       (ChannelEngagement.mk 0 channelID ty zeroTime zeroTime jsonData) ;;
                ret (JSON StatusOK value)
            | _ => ret (JSONError StatusInternalServerError marshalFailure)
            end
        end
    end.

(** [func (h *YouTubeAPI) GetChannelAnalytics(c *gin.Context)] *)
Definition GetChannelAnalytics : string -> M (Response ChannelAnalytics.t) :=
  cacheGated EngagementTypeAnalytics getChannelAnalytics "Failed to process analytics data".

(** [func (h *YouTubeAPI) GetChannelTrends(c *gin.Context)] *)
Definition GetChannelTrends : string -> M (Response ChannelTrends.t) :=
  cacheGated EngagementTypeTrends getChannelTrends "Failed to process trends data".

(** *** The video listing *)

(** The filter built from the query parameters. *)
Definition filterOf (q : Query.t) : VideoFilter.t :=
  let sortBy :=
    if String.eqb (Query.sortBy q) "views" then SortByViews
    else if String.eqb (Query.sortBy q) "likes" then SortByLikes
    else SortByRecency in
  let maxVideos :=
    match Query.maxVideos q with
    | Some n => if 0 <? n then n else 50
    | None => 50
    end in
  VideoFilter.mk sortBy maxVideos
    (default 0 (Query.minViews q)) (default 0 (Query.minLikes q)).

(** Conversion, filtering, sorting and truncation of the fetched videos. *)
Definition selectVideos (filter : VideoFilter.t)
    (allVideos : list (option youtube.Video.t)) : result (list Video.t) :=
  let videos := List.filter (passes filter) (omap convertChecked allVideos) in
  let videos := sortVideos filter videos in
  if VideoFilter.MaxVideos filter <? len videos
  then slice_to videos (VideoFilter.MaxVideos filter)
  else Ok videos.

(** [func (y *YouTubeAPI) GetChannelVideos(c *gin.Context)] *)
Definition GetChannelVideos (channelID : string) (q : Query.t)
    : M (Response (list Video.t)) :=
  if String.eqb channelID "" then ret (JSONError StatusBadRequest "Channel ID is required")
  else
    info <- getChannelInfo channelID ;;
    match info with
    | Err e => ret (JSONError StatusInternalServerError ("Error fetching channel info: " +:+ e))
    | Panic e => ret (Aborted e)
    | Ok channel =>
        match youtube.Channel.ContentDetails channel with
        | None => ret (JSONError StatusNotFound "Channel content details not found")
        | Some None => ret (JSONError StatusNotFound "Channel playlists not found")
        | Some (Some uploads) =>
            if String.eqb uploads "" then ret (JSONError StatusNotFound "Uploads playlist not found")
            else
              let filter := filterOf q in
              fetched <- getAllVideos channelID ;;
              match fetched with
              | Err e =>
                  ret (JSONError StatusInternalServerError ("Error fetching videos: " +:+ e))
              | Panic e => ret (Aborted e)
              | Ok allVideos =>
                  if len allVideos =? 0 then ret (JSON StatusOK [])
                  else match selectVideos filter allVideos with
                       | Ok videos => ret (JSON StatusOK videos)
                       | Err e | Panic e => ret (Aborted e)
                       end
              end
        end
    end.

(** *** The channel handlers *)

(** [func (y *YouTubeAPI) GetChannelByID(c *gin.Context)] *)
Definition GetChannelByID (channelID : string) : M (Response youtube.Channel.t) :=
  if String.eqb channelID "" then ret (JSONError StatusBadRequest "Channel ID is required")
  else
    info <- getChannelInfo channelID ;;
    match info with
    | Err e => ret (JSONError StatusInternalServerError ("Error fetching channel info: " +:+ e))
    | Panic e => ret (Aborted e)
    | Ok channel => ret (JSON StatusOK channel)
    end.

(** The answer of [y.service.Search.List] for a title: the channel
    identifiers of the results, [None] where [item.Id] is nil. *)
Variable searchChannels : string -> result (list (option string)).

(** [func (y *YouTubeAPI) GetChannelByTitle(c *gin.Context)] *)
Definition GetChannelByTitle (title : string) : M (Response youtube.Channel.t) :=
  if String.eqb title "" then ret (JSONError StatusBadRequest "Channel title is required")
  else
    response <- request (searchChannels title) ;;
    match response with
    | Err e =>
        ret (JSONError StatusInternalServerError ("Error searching for channel: " +:+ e))
    | Panic e => ret (Aborted e)
    | Ok [] => ret (JSONError StatusNotFound "Channel not found")
    | Ok (None :: _) => ret (Aborted "nil pointer dereference")
    | Ok (Some channelID :: _) =>
        info <- getChannelInfo channelID ;;
        match info with
        | Err e =>
            ret (JSONError StatusInternalServerError ("Error fetching channel info: " +:+ e))
        | Panic e => ret (Aborted e)
        | Ok channel => ret (JSON StatusOK channel)
        end
    end.

(** The [models.Channel] that [GetChannelByURL] builds from an SDK
    channel; its snippet and statistics are followed unchecked. *)
Definition channelOf (item : youtube.Channel.t) : result Channel.t :=
  bindR (deref (youtube.Channel.Snippet item)) (fun snippet =>
  bindR (deref (youtube.Channel.Statistics item)) (fun statistics =>
    Ok (Channel.mk (youtube.Channel.Id item)
          (youtube.ChannelSnippet.Title snippet)
          (youtube.ChannelSnippet.Description snippet)
          (Int64.wrap (youtube.ChannelStatistics.SubscriberCount statistics))
          (Int64.wrap (youtube.ChannelStatistics.ViewCount statistics))
          (Int64.wrap (youtube.ChannelStatistics.VideoCount statistics))
          (youtube.ChannelSnippet.ThumbnailUrl snippet)))).

(** [func (y *YouTubeAPI) GetChannelByURL(c *gin.Context)]; [client] is
    [y.client]. *)
Definition GetChannelByURL {urlParser : URLParser} (client : HTTPClient.t)
    (channelURL : string) : M (Response Channel.t) :=
  if String.eqb channelURL "" then ret (JSONError StatusBadRequest "YouTube URL is required")
  else
    match HTTPClient.ExtractChannelIDFromURL client channelURL with
    | Err e => ret (JSONError StatusBadRequest ("Invalid YouTube URL: " +:+ e))
    | Panic e => ret (Aborted e)
    | Ok channelID =>
        response <- request (youtube.Service.ChannelsList service channelID) ;;
        match response with
        | Err e =>
            ret (JSONError StatusInternalServerError ("Error fetching channel info: " +:+ e))
        | Panic e => ret (Aborted e)
        | Ok [] => ret (JSONError StatusNotFound "Channel not found")
        | Ok (item :: _) =>
            match channelOf item with
            | Ok channel => ret (JSON StatusOK channel)
            | Err e | Panic e => ret (Aborted e)
            end
        end
    end.

End Handlers.

End YouTubeAPI.

End api.

(** * Properties *)

Import time models api.

(** Case analysis on the next call that may fail, in a goal that assumes
    the whole computation answered: the failing branches are absurd. *)
Ltac answered :=
  match goal with
  | |- context [bindR ?r _] => destruct r eqn:?; simpl bindR; try discriminate
  end.

(** ** Machine integers *)

Section Int64Facts.

Lemma wrap_in_range z : Int64.in_range (Int64.wrap z).
Proof.
  unfold Int64.in_range, Int64.wrap, Int64.min_int, Int64.max_int.
  pose proof (Z.mod_pos_bound (z + Int64.half) Int64.modulus eq_refl) as H.
  unfold Int64.modulus, Int64.half in *. lia.
Qed.

Lemma wrap_small z : Int64.in_range z -> Int64.wrap z = z.
Proof.
  unfold Int64.in_range, Int64.wrap, Int64.min_int, Int64.max_int,
    Int64.modulus, Int64.half.
  intros H. rewrite Z.mod_small; lia.
Qed.

Lemma add_small a b : Int64.in_range (a + b) -> Int64.add a b = a + b.
Proof. apply wrap_small. Qed.

End Int64Facts.

(** ** Sorting *)

Section SortFacts.

Context {A : Type} (less : A -> A -> bool).

Lemma insertLeft_perm x r : Permutation (insertLeft less x r) (x :: r).
Proof.
  induction r as [|y r IH]; simpl; [reflexivity|].
  destruct (less x y); [|reflexivity].
  rewrite IH. apply perm_swap.
Qed.

Lemma insertion_fold_perm l acc :
  Permutation (fold_left (fun rp x => insertLeft less x rp) l acc) (rev l ++ acc).
Proof.
  revert acc. induction l as [|x l IH]; intros acc; simpl; [reflexivity|].
  rewrite IH, insertLeft_perm, <- app_assoc. simpl.
  apply Permutation_app_head. reflexivity.
Qed.

Lemma insertionSort_perm l : Permutation (insertionSort less l) l.
Proof.
  unfold insertionSort.
  rewrite <- Permutation_rev, insertion_fold_perm, app_nil_r, <- Permutation_rev.
  reflexivity.
Qed.

(** The reversed prefix is kept in descending order. *)
Definition descending (r : list A) : Prop :=
  StronglySorted (fun later earlier => less later earlier = false) r.

Lemma strict_weak_incl l l' :
  strict_weak less l -> (forall x, In x l' -> In x l) -> strict_weak less l'.
Proof.
  intros (Hirr & Htrans & Hinc) Hsub. repeat split.
  - intros x Hx. apply Hirr. auto.
  - intros x y z Hx Hy Hz. apply Htrans; auto.
  - intros x y z Hx Hy Hz. apply Hinc; auto.
Qed.

Lemma less_asym l x y :
  strict_weak less l -> In x l -> In y l -> less x y = true -> less y x = false.
Proof.
  intros (Hirr & Htrans & _) Hx Hy Hxy.
  destruct (less y x) eqn:Hyx; [|reflexivity].
  rewrite <- (Hirr x Hx). symmetry. apply (Htrans x y x); auto.
Qed.

Lemma insertLeft_descending x r :
  strict_weak less (x :: r) -> descending r -> descending (insertLeft less x r).
Proof.
  unfold descending. induction r as [|y r IH]; simpl; intros Hless Hr.
  - repeat constructor.
  - apply StronglySorted_cons in Hr as [Hy Hr].
    destruct (less x y) eqn:Hxy.
    + apply StronglySorted_cons. split.
      * rewrite Forall_forall. intros z Hz.
        rewrite insertLeft_perm in Hz.
        apply elem_of_cons in Hz as [->|Hz].
        -- apply (less_asym _ _ _ Hless); simpl; auto.
        -- rewrite Forall_forall in Hy. auto.
      * apply IH; [|exact Hr].
        apply (strict_weak_incl _ _ Hless). simpl. intuition.
    + apply StronglySorted_cons. split.
      * constructor; [exact Hxy|].
        rewrite Forall_forall in Hy |- *. intros z Hz.
        destruct Hless as (_ & _ & Hinc).
        apply (Hinc x y z); simpl; auto.
        right. right. now apply list_elem_of_In.
      * apply StronglySorted_cons. auto.
Qed.

Lemma insertion_fold_descending l acc :
  strict_weak less (l ++ acc) -> descending acc ->
  descending (fold_left (fun rp x => insertLeft less x rp) l acc).
Proof.
  revert acc. induction l as [|x l IH]; intros acc Hless Hacc; simpl; [exact Hacc|].
  apply IH.
  - apply (strict_weak_incl _ _ Hless). intros z Hz. simpl.
    apply in_app_or in Hz as [Hz|Hz]; [right; apply in_or_app; now left|].
    apply list_elem_of_In in Hz. rewrite insertLeft_perm in Hz.
    apply list_elem_of_In in Hz. destruct Hz as [->|Hz]; [now left|].
    right. apply in_or_app. now right.
  - apply insertLeft_descending; [|exact Hacc].
    apply (strict_weak_incl _ _ Hless). intros z Hz. simpl in *.
    destruct Hz as [->|Hz]; [now left|]. right. apply in_or_app. now right.
Qed.

Lemma descending_rev r : descending r -> ordered less (rev r).
Proof.
  unfold descending, ordered. induction r as [|x r IH]; simpl; intros Hr.
  - constructor.
  - apply StronglySorted_cons in Hr as [Hx Hr].
    apply StronglySorted_app. split; [|split].
    + intros y z Hy Hz. apply list_elem_of_singleton in Hz as ->.
      rewrite Forall_forall in Hx. apply Hx.
      now rewrite <- (Permutation_rev r) in Hy.
    + auto.
    + repeat constructor.
Qed.

Lemma insertionSort_ordered l : strict_weak less l -> ordered less (insertionSort less l).
Proof.
  intros Hless. unfold insertionSort.
  apply descending_rev, insertion_fold_descending; [|constructor].
  now rewrite app_nil_r.
Qed.

End SortFacts.

(** Go's insertion sort meets the contract of [sort.Slice]. *)
Lemma insertionSorter_contract : SortContract insertionSorter.
Proof.
  intros A less l. split.
  - apply insertionSort_perm.
  - intros Hless. now apply insertionSort_ordered.
Qed.

(** What the contract gives on every call. *)
Section ContractFacts.

Context {sorter : SliceSorter} (Hsort : SortContract sorter).
Context {A : Type} (less : A -> A -> bool).

Lemma sort_Slice_perm l : Permutation (sort_Slice less l) l.
Proof. apply Hsort. Qed.

Lemma sort_Slice_length l : length (sort_Slice less l) = length l.
Proof. apply Permutation_length, sort_Slice_perm. Qed.

Lemma sort_Slice_len l : len (sort_Slice less l) = len l.
Proof. unfold len. now rewrite sort_Slice_length. Qed.

Lemma sort_Slice_nil : sort_Slice less [] = [].
Proof. apply Permutation_nil. symmetry. apply sort_Slice_perm. Qed.

Lemma sort_Slice_ordered l : strict_weak less l -> ordered less (sort_Slice less l).
Proof. apply Hsort. Qed.

Lemma sort_Slice_elem x l : x ∈ sort_Slice less l <-> x ∈ l.
Proof. now rewrite sort_Slice_perm. Qed.

End ContractFacts.

(** ** The engagement cache *)

(** The key of a snapshot row: channel identifier and engagement kind. *)
Definition key (r : ChannelEngagement.t) : string * string :=
  (ChannelEngagement.ChannelID r, ChannelEngagement.EngagementType r).

(** The invariant of the table: at most one row per key. *)
Definition unique_keys (rows : list ChannelEngagement.t) : Prop :=
  NoDup (map key rows).

(** The row an update leaves in place of [row]. *)
Definition refreshed (json : string) (ts : Time) (row : ChannelEngagement.t)
    : ChannelEngagement.t :=
  ChannelEngagement.mk (ChannelEngagement.ID row) (ChannelEngagement.ChannelID row)
    (ChannelEngagement.EngagementType row) (ChannelEngagement.CreateDate row) ts json.

Section CacheFacts.

Lemma has_key_true c ty r : has_key c ty r = true <-> key r = (c, ty).
Proof.
  unfold has_key, key. rewrite andb_true_iff, !String.eqb_eq.
  split; [intros [-> ->]; reflexivity | intros [= -> ->]; auto].
Qed.

Lemma has_key_false c ty r : has_key c ty r = false <-> key r <> (c, ty).
Proof.
  rewrite <- has_key_true. destruct (has_key c ty r); split; congruence.
Qed.

Lemma key_update_row c ty json ts r : key (update_row c ty json ts r) = key r.
Proof. unfold update_row. now destruct (has_key c ty r). Qed.

Lemma update_row_refreshed c ty json ts r :
  update_row c ty json ts r = if has_key c ty r then refreshed json ts r else r.
Proof. reflexivity. Qed.

Lemma filter_key_nil c ty rows :
  (c, ty) ∉ map key rows -> List.filter (has_key c ty) rows = [].
Proof.
  induction rows as [|r rows IH]; simpl; [reflexivity|].
  intros Hnotin. apply not_elem_of_cons in Hnotin as [Hne Hnotin].
  assert (has_key c ty r = false) as -> by (apply has_key_false; congruence).
  auto.
Qed.

(** Under the invariant the rows selected by a key are the row itself. *)
Lemma filter_key_unique c ty rows e :
  unique_keys rows -> e ∈ rows -> key e = (c, ty) ->
  List.filter (has_key c ty) rows = [e].
Proof.
  unfold unique_keys. induction rows as [|r rows IH]; simpl; intros Hnd Hin Hkey.
  - inversion Hin.
  - apply NoDup_cons in Hnd as [Hr Hnd].
    apply elem_of_cons in Hin as [<-|Hin].
    + assert (has_key c ty e = true) as -> by now apply has_key_true.
      f_equal. apply filter_key_nil. now rewrite <- Hkey.
    + assert (has_key c ty r = false) as ->.
      { apply has_key_false. intros Hk. apply Hr.
        rewrite Hk, <- Hkey. now apply list_elem_of_fmap_2. }
      auto.
Qed.

Lemma lookup_finds_row d c ty e :
  Database.online d = true -> unique_keys (Database.rows d) ->
  e ∈ Database.rows d -> key e = (c, ty) ->
  GetLatestEngagement d c ty = Ok (Some e).
Proof.
  intros Hon Hinv Hin Hkey. unfold GetLatestEngagement.
  rewrite Hon. cbn [negb].
  now rewrite (filter_key_unique c ty _ e Hinv Hin Hkey).
Qed.

Lemma formatDate_same_day t u : utcDay t = utcDay u -> formatDate t = formatDate u.
Proof. unfold formatDate. now intros ->. Qed.

End CacheFacts.

(** C5. [StoreEngagement] keeps at most one row per (channel identifier,
    engagement kind): whatever it does, the invariant survives; when a row
    with the key exists it answers without error, the table keeps its
    length and every row its place, identifier, key and creation date, the
    row with the key taking the new payload and update date; when no row
    has the key (and the kind is one of the two the table admits) exactly
    one row with the key and the payload is added at the end. *)
Theorem StoreEngagement_upsert (d : Database.t) (now : Time) (e : ChannelEngagement.t) :
  unique_keys (Database.rows d) ->
  let out := StoreEngagement d now e in
  let c := ChannelEngagement.ChannelID e in
  let ty := ChannelEngagement.EngagementType e in
  let json := ChannelEngagement.JSONResponse e in
  unique_keys (Database.rows (snd out)) /\
  (Database.online d = true ->
   (exists row, row ∈ Database.rows d /\ key row = key e) ->
   fst out = Ok tt /\
   length (Database.rows (snd out)) = length (Database.rows d) /\
   forall i row, Database.rows d !! i = Some row ->
     Database.rows (snd out) !! i =
       Some (if has_key c ty row then refreshed json (CURRENT_TIMESTAMP now) row else row)) /\
  (Database.online d = true ->
   (forall row, row ∈ Database.rows d -> key row <> key e) ->
   check_engagement_type ty = true ->
   fst out = Ok tt /\
   Database.rows (snd out) =
     Database.rows d ++
       [ChannelEngagement.mk (Database.next_id d) c ty
          (CURRENT_TIMESTAMP now) (CURRENT_TIMESTAMP now) json]).
Proof.
  intros Hinv. cbv zeta. unfold StoreEngagement.
  set (c := ChannelEngagement.ChannelID e).
  set (ty := ChannelEngagement.EngagementType e).
  set (json := ChannelEngagement.JSONResponse e).
  assert (Hke : key e = (c, ty)) by reflexivity.
  destruct (Database.online d) eqn:Hon; simpl.
  2:{ split; [exact Hinv|]. split; intros; discriminate. }
  destruct (0 <? len (List.filter (has_key c ty) (Database.rows d))) eqn:Hcount; simpl.
  - (* a row with the key exists: UPDATE *)
    split; [|split].
    + unfold unique_keys. rewrite map_map.
      erewrite map_ext; [exact Hinv|]. intros r. apply key_update_row.
    + intros _ _. split; [reflexivity|]. split; [apply length_map|].
      intros i row Hi. rewrite list_lookup_fmap, Hi. reflexivity.
    + intros _ Hnone. exfalso.
      rewrite filter_key_nil in Hcount; [discriminate|].
      intros Hin. apply list_elem_of_fmap in Hin as (row & Hk & Hrow).
      apply (Hnone row Hrow). congruence.
  - (* no row with the key: INSERT *)
    assert (Hfresh : (c, ty) ∉ map key (Database.rows d)).
    { intros Hin. apply list_elem_of_fmap in Hin as (row & Hk & Hrow).
      assert (Hf : row ∈ List.filter (has_key c ty) (Database.rows d)).
      { apply list_elem_of_In, filter_In. split; [now apply list_elem_of_In|].
        now apply has_key_true. }
      destruct (List.filter (has_key c ty) (Database.rows d)); [inversion Hf|].
      unfold len in Hcount. simpl in Hcount. apply Z.ltb_ge in Hcount. lia. }
    destruct (check_engagement_type ty) eqn:Hcheck; simpl.
    + split; [|split].
      * unfold unique_keys. rewrite map_app. simpl.
        apply NoDup_app. split; [exact Hinv|]. split.
        -- intros k Hk Hk'. apply list_elem_of_singleton in Hk'. subst k.
           now apply Hfresh.
        -- apply NoDup_singleton.
      * intros _ (row & Hrow & Hk). exfalso. apply Hfresh.
        rewrite <- Hke, <- Hk. now apply list_elem_of_fmap_2.
      * intros _ _ _. split; reflexivity.
    + split; [exact Hinv|]. split.
      * intros _ (row & Hrow & Hk). exfalso. apply Hfresh.
        rewrite <- Hke, <- Hk. now apply list_elem_of_fmap_2.
      * intros _ _ Hc. discriminate.
Qed.

(** A table with one analytics snapshot, stored on 1970-01-01. *)
Definition snapshot0 : ChannelEngagement.t :=
  ChannelEngagement.mk 1 "UC1" "analytics" 0 0 "{}".
Definition db0 : Database.t := Database.mk [snapshot0] 2 true.
Definition nextDay : Time := 86400000000000.

Lemma StoreEngagement_upsert_witness :
  unique_keys (Database.rows db0) /\
  unique_keys
    (Database.rows
       (snd (StoreEngagement db0 nextDay
               (ChannelEngagement.mk 0 "UC1" "analytics" zeroTime zeroTime "[1]")))).
Proof.
  assert (H : unique_keys (Database.rows db0)).
  { unfold unique_keys. simpl. apply NoDup_singleton. }
  split; [exact H|].
  exact (proj1 (StoreEngagement_upsert db0 nextDay
                  (ChannelEngagement.mk 0 "UC1" "analytics" zeroTime zeroTime "[1]") H)).
Defined.

(** The stored row is overwritten in place, not duplicated. *)
Example StoreEngagement_updates_in_place :
  StoreEngagement db0 nextDay
    (ChannelEngagement.mk 0 "UC1" "analytics" zeroTime zeroTime "[1]")
  = (Ok tt,
     Database.mk [ChannelEngagement.mk 1 "UC1" "analytics" 0 nextDay "[1]"] 2 true).
Proof. reflexivity. Qed.

(** ** The cache gate *)

Section CacheGate.

Context {sorter : SliceSorter} {parser : TimeParser}.
Context {A : Type} {codec : YouTubeAPI.JSONCodec A}.

Lemma servedFromCache_today now e (cached : A) :
  utcDay (ChannelEngagement.UpdateDate e) = utcDay now ->
  YouTubeAPI.Unmarshal (ChannelEngagement.JSONResponse e) = Ok cached ->
  YouTubeAPI.servedFromCache now (Ok (Some e)) = Some cached.
Proof.
  intros Hday Hdec. unfold YouTubeAPI.servedFromCache.
  rewrite (formatDate_same_day _ _ Hday), String.eqb_refl, Hdec. reflexivity.
Qed.

(** On a same-day hit the shared body answers with the decoded snapshot
    and leaves the world as it found it. *)
Lemma cacheGated_hit ty compute msg channelID (w : YouTubeAPI.World) e (cached : A) :
  channelID <> "" ->
  Database.online (YouTubeAPI.db w) = true ->
  unique_keys (Database.rows (YouTubeAPI.db w)) ->
  e ∈ Database.rows (YouTubeAPI.db w) ->
  key e = (channelID, ty) ->
  utcDay (ChannelEngagement.UpdateDate e) = utcDay (YouTubeAPI.clock w) ->
  YouTubeAPI.Unmarshal (ChannelEngagement.JSONResponse e) = Ok cached ->
  YouTubeAPI.cacheGated ty compute msg channelID w = (JSON StatusOK cached, w).
Proof.
  intros Hid Hon Hinv Hin Hkey Hday Hdec.
  unfold YouTubeAPI.cacheGated.
  apply String.eqb_neq in Hid. rewrite Hid.
  unfold YouTubeAPI.bind, YouTubeAPI.getLatestEngagement, YouTubeAPI.Now.
  rewrite (lookup_finds_row _ _ _ e Hon Hinv Hin Hkey).
  rewrite (servedFromCache_today _ _ cached Hday Hdec).
  reflexivity.
Qed.

End CacheGate.

(** C3. Cache Gate, same-day hit.  For an analytics or a trends request
    for a channel, when the table (one row per key, connection up) holds
    the snapshot of that channel and kind, its update date is the current
    UTC calendar day and its payload decodes, the handler answers 200 with
    the decoded snapshot and the world is unchanged: no request went
    upstream, nothing was computed from fetched data, nothing was
    stored. *)
Theorem cache_gate_same_day_hit
    {sorter : SliceSorter} {parser : TimeParser}
    {analyticsCodec : YouTubeAPI.JSONCodec ChannelAnalytics.t}
    {trendsCodec : YouTubeAPI.JSONCodec ChannelTrends.t}
    (service : youtube.Service.t) (w : YouTubeAPI.World)
    (channelID : string) (e : ChannelEngagement.t) :
  channelID <> "" ->
  Database.online (YouTubeAPI.db w) = true ->
  unique_keys (Database.rows (YouTubeAPI.db w)) ->
  e ∈ Database.rows (YouTubeAPI.db w) ->
  ChannelEngagement.ChannelID e = channelID ->
  utcDay (ChannelEngagement.UpdateDate e) = utcDay (YouTubeAPI.clock w) ->
  (forall analytics,
     ChannelEngagement.EngagementType e = EngagementTypeAnalytics ->
     YouTubeAPI.Unmarshal (ChannelEngagement.JSONResponse e) = Ok analytics ->
     YouTubeAPI.GetChannelAnalytics service channelID w = (JSON StatusOK analytics, w)) /\
  (forall trends,
     ChannelEngagement.EngagementType e = EngagementTypeTrends ->
     YouTubeAPI.Unmarshal (ChannelEngagement.JSONResponse e) = Ok trends ->
     YouTubeAPI.GetChannelTrends service channelID w = (JSON StatusOK trends, w)).
Proof.
  intros Hid Hon Hinv Hin Hch Hday. split.
  - intros analytics Hty Hdec. unfold YouTubeAPI.GetChannelAnalytics.
    apply (cacheGated_hit _ _ _ _ _ e); auto.
    unfold key. now rewrite Hch, Hty.
  - intros trends Hty Hdec. unfold YouTubeAPI.GetChannelTrends.
    apply (cacheGated_hit _ _ _ _ _ e); auto.
    unfold key. now rewrite Hch, Hty.
Qed.

(** *** Instances for the examples *)

(** A parser for the UTC form [YYYY-MM-DDTHH:MM:SSZ] of RFC 3339. *)
Definition digitOf (c : Ascii.ascii) : option Z :=
  let n := Z.of_N (Ascii.N_of_ascii c) - 48 in
  if (0 <=? n) && (n <=? 9) then Some n else None.

Fixpoint numberOf (acc : Z) (cs : list Ascii.ascii) : option Z :=
  match cs with
  | [] => Some acc
  | c :: cs' =>
      match digitOf c with
      | Some n => numberOf (10 * acc + n) cs'
      | None => None
      end
  end.

Definition parseUTC : TimeParser := fun s =>
  let cs := String.list_ascii_of_string s in
  let sep (i : nat) (c : string) :=
    String.eqb (String.string_of_list_ascii (firstn 1 (skipn i cs))) c in
  let num (i n : nat) := numberOf 0 (firstn n (skipn i cs)) in
  if (length cs =? 20)%nat && sep 4%nat "-" && sep 7%nat "-" && sep 10%nat "T"
     && sep 13%nat ":" && sep 16%nat ":" && sep 19%nat "Z"
  then
    match num 0%nat 4%nat, num 5%nat 2%nat, num 8%nat 2%nat,
          num 11%nat 2%nat, num 14%nat 2%nat, num 17%nat 2%nat with
    | Some y, Some mo, Some d, Some h, Some mi, Some sec =>
        let day := days_from_civil y mo d in
        if (1 <=? mo) && (mo <=? 12) && (1 <=? d) && (h <? 24) && (mi <? 60) && (sec <? 60)
           && bool_decide (civil_from_days day = (y, mo, d))
        then Some (day * nanosPerDay + ((h * 60 + mi) * 60 + sec) * nanosPerSecond)
        else None
    | _, _, _, _, _, _ => None
    end
  else None.

(** [json.Unmarshal] of the empty object gives the zero value; this codec
    decodes that payload only and encodes to it. *)
Definition zeroAnalytics : ChannelAnalytics.t :=
  ChannelAnalytics.mk "" "" "" 0 0 0 0 F64.zero F64.zero F64.zero []
    (TimeRange.mk "" "") zeroTime.
Definition zeroTrends : ChannelTrends.t :=
  ChannelTrends.mk "" "" "" [] [] [] [] [] [] [] zeroTime.

Definition emptyObjectCodec {A} (zero : A) : YouTubeAPI.JSONCodec A :=
  {| YouTubeAPI.Marshal := fun _ => Ok "{}";
     YouTubeAPI.Unmarshal := fun s =>
       if String.eqb s "{}" then Ok zero else Err "invalid character" |}.

(** A service none of whose requests is answered. *)
Definition unreachable : youtube.Service.t :=
  youtube.Service.mk (fun _ => Err "unreachable") (fun _ => [Err "unreachable"])
    (fun _ => Err "unreachable").

(** One hour into 1970-01-01, over the table [db0]. *)
Definition world0 : YouTubeAPI.World :=
  {| YouTubeAPI.db := db0; YouTubeAPI.clock := 3600000000000; YouTubeAPI.requests := 0 |}.

Example parseUTC_example :
  parseUTC "2024-02-29T12:00:01Z" = Some 1709208001000000000
  /\ parseUTC "2023-02-29T12:00:01Z" = None.
Proof. split; vm_compute; reflexivity. Qed.

Lemma cache_gate_same_day_hit_witness :
  YouTubeAPI.GetChannelAnalytics
    (sorter := insertionSorter) (parser := parseUTC)
    (analyticsCodec := emptyObjectCodec zeroAnalytics)
    unreachable "UC1" world0
  = (JSON StatusOK zeroAnalytics, world0).
Proof.
  refine (proj1 (cache_gate_same_day_hit
                   (sorter := insertionSorter) (parser := parseUTC)
                   (analyticsCodec := emptyObjectCodec zeroAnalytics)
                   (trendsCodec := emptyObjectCodec zeroTrends)
                   unreachable world0 "UC1" snapshot0 _ _ _ _ _ _)
                zeroAnalytics eq_refl eq_refl).
  - discriminate.
  - reflexivity.
  - apply NoDup_singleton.
  - apply list_elem_of_here.
  - reflexivity.
  - reflexivity.
Defined.

(** ** The week and month histograms *)

(** The videos of a list whose key is [k], in input order. *)
Definition inBucket (key : Video.t -> string) (k : string) (videos : list Video.t)
    : list Video.t :=
  List.filter (fun v => String.eqb (key v) k) videos.

(** The sum of the reported counts. *)
Definition totalCount (fs : list UploadFrequency.t) : Z :=
  foldr Z.add 0 (map UploadFrequency.Count fs).

Section Buckets.

Context {sorter : SliceSorter} {parser : TimeParser}.
Variable key : Video.t -> string.

(** One map of the loop at a time. *)
Definition countsOf (videos : list Video.t) : gmap string Z :=
  fold_left (fun m v => YouTubeClient.incr (key v) m) videos ∅.
Definition groupsOf (videos : list Video.t) : gmap string (list Video.t) :=
  fold_left (fun m v => YouTubeClient.push (key v) v m) videos ∅.

Lemma countsOf_snoc l v : countsOf (l ++ [v]) = YouTubeClient.incr (key v) (countsOf l).
Proof. unfold countsOf. now rewrite fold_left_app. Qed.

Lemma groupsOf_snoc l v : groupsOf (l ++ [v]) = YouTubeClient.push (key v) v (groupsOf l).
Proof. unfold groupsOf. now rewrite fold_left_app. Qed.

Lemma inBucket_snoc k l v :
  inBucket key k (l ++ [v]) =
  inBucket key k l ++ (if String.eqb (key v) k then [v] else []).
Proof. unfold inBucket. now rewrite List.filter_app. Qed.

(** A bucket holds exactly the videos of its key, and exists only when
    there is one. *)
Lemma groupsOf_lookup l k :
  groupsOf l !! k =
  match inBucket key k l with [] => None | vids => Some vids end.
Proof.
  induction l as [|v l IH] using rev_ind; [reflexivity|].
  rewrite groupsOf_snoc, inBucket_snoc. unfold YouTubeClient.push.
  destruct (String.eqb (key v) k) eqn:Hk.
  - apply String.eqb_eq in Hk. subst k.
    rewrite lookup_insert_eq, IH.
    destruct (inBucket key (key v) l); reflexivity.
  - apply String.eqb_neq in Hk.
    rewrite lookup_insert_ne, IH, app_nil_r by exact Hk. reflexivity.
Qed.

(** The count of a bucket is the number of its videos. *)
Lemma countsOf_lookup l k : countsOf l !! k = len <$> groupsOf l !! k.
Proof.
  induction l as [|v l IH] using rev_ind; [reflexivity|].
  rewrite countsOf_snoc, groupsOf_snoc.
  unfold YouTubeClient.incr, YouTubeClient.push.
  destruct (decide (key v = k)) as [<-|Hk].
  - rewrite !lookup_insert_eq, IH. simpl. f_equal.
    destruct (groupsOf l !! key v); simpl; unfold len;
      rewrite ?length_app; simpl; lia.
  - rewrite !lookup_insert_ne by exact Hk. exact IH.
Qed.

Lemma totalCount_frequencies (m : gmap string Z) :
  totalCount (YouTubeClient.frequencies m) = foldr Z.add 0 (map snd (map_to_list m)).
Proof.
  unfold totalCount, YouTubeClient.frequencies. rewrite map_map.
  f_equal. apply map_ext. now intros [k c].
Qed.

Lemma sum_perm (l1 l2 : list Z) :
  Permutation l1 l2 -> foldr Z.add 0 l1 = foldr Z.add 0 l2.
Proof. induction 1; simpl; lia. Qed.

Lemma totalCount_incr k (m : gmap string Z) :
  totalCount (YouTubeClient.frequencies (YouTubeClient.incr k m))
  = totalCount (YouTubeClient.frequencies m) + 1.
Proof.
  rewrite !totalCount_frequencies. unfold YouTubeClient.incr.
  destruct (m !! k) as [c|] eqn:Hk; simpl.
  - rewrite <- (insert_delete_eq m k (c + 1)).
    rewrite (sum_perm _ _ (Permutation_map snd
               (map_to_list_insert (delete k m) k (c + 1) (lookup_delete_eq m k)))).
    rewrite <- (sum_perm _ _ (Permutation_map snd (map_to_list_delete m k c Hk))).
    simpl. lia.
  - rewrite (sum_perm _ _ (Permutation_map snd (map_to_list_insert m k 1 Hk))).
    simpl. lia.
Qed.

(** The counts add up to the number of videos. *)
Lemma totalCount_countsOf l :
  totalCount (YouTubeClient.frequencies (countsOf l)) = len l.
Proof.
  induction l as [|v l IH] using rev_ind; [reflexivity|].
  rewrite countsOf_snoc, totalCount_incr, IH. unfold len.
  rewrite length_app. simpl. lia.
Qed.

Lemma frequencies_periods (m : gmap string Z) :
  NoDup (map UploadFrequency.Period (YouTubeClient.frequencies m)).
Proof.
  unfold YouTubeClient.frequencies. rewrite map_map.
  erewrite map_ext; [apply (NoDup_fst_map_to_list m)|]. now intros [k c].
Qed.

Lemma frequencies_elem (m : gmap string Z) f :
  f ∈ YouTubeClient.frequencies m <->
  m !! UploadFrequency.Period f = Some (UploadFrequency.Count f).
Proof.
  unfold YouTubeClient.frequencies. rewrite list_elem_of_fmap. split.
  - intros ([k c] & -> & Hin). now apply elem_of_map_to_list in Hin.
  - intros Hf. exists (UploadFrequency.Period f, UploadFrequency.Count f).
    split; [now destruct f|]. now apply elem_of_map_to_list.
Qed.

Lemma engagementTrends_elem l t :
  t ∈ YouTubeClient.engagementTrends (groupsOf l) ->
  inBucket key (EngagementTrend.Period t) l <> [] /\
  t = YouTubeClient.trendOf (EngagementTrend.Period t)
        (inBucket key (EngagementTrend.Period t) l).
Proof.
  unfold YouTubeClient.engagementTrends. rewrite list_elem_of_fmap.
  intros ([k vids] & -> & Hin). apply elem_of_map_to_list in Hin.
  rewrite groupsOf_lookup in Hin.
  assert (Hp : EngagementTrend.Period (YouTubeClient.trendOf k vids) = k).
  { unfold YouTubeClient.trendOf. now destruct (totals vids) as [[? ?] ?]. }
  rewrite Hp. destruct (inBucket key k l) eqn:Hb; [discriminate|].
  injection Hin as <-. split; [discriminate|reflexivity].
Qed.

End Buckets.

Lemma bucketsBy_maps keyW keyM (videos : list Video.t) :
  let b := YouTubeClient.bucketsBy keyW keyM videos in
  YouTubeClient.weekly b = countsOf keyW videos /\
  YouTubeClient.monthly b = countsOf keyM videos /\
  YouTubeClient.engageWeekly b = groupsOf keyW videos /\
  YouTubeClient.engageMonthly b = groupsOf keyM videos.
Proof.
  cbv zeta. induction videos as [|v l IH] using rev_ind.
  - repeat split.
  - unfold YouTubeClient.bucketsBy in *. rewrite fold_left_app. simpl.
    destruct IH as (-> & -> & -> & ->).
    rewrite !countsOf_snoc, !groupsOf_snoc. repeat split.
Qed.

(** What it is for a pair of maps (counts, grouped videos) to partition
    [videos] by [key]. *)
Definition Partitioned (videos : list Video.t) (key : Video.t -> string)
    (counts : gmap string Z) (groups : gmap string (list Video.t)) : Prop :=
  (forall k, groups !! k =
             match inBucket key k videos with [] => None | vids => Some vids end) /\
  (forall v, v ∈ videos -> exists vids, groups !! key v = Some vids /\ v ∈ vids) /\
  (forall k, counts !! k = len <$> groups !! k) /\
  NoDup (map UploadFrequency.Period (YouTubeClient.frequencies counts)) /\
  (forall f, f ∈ YouTubeClient.frequencies counts ->
             UploadFrequency.Count f = len (inBucket key (UploadFrequency.Period f) videos)
             /\ 0 < UploadFrequency.Count f) /\
  totalCount (YouTubeClient.frequencies counts) = len videos /\
  (forall t, t ∈ YouTubeClient.engagementTrends groups ->
             inBucket key (EngagementTrend.Period t) videos <> [] /\
             t = YouTubeClient.trendOf (EngagementTrend.Period t)
                   (inBucket key (EngagementTrend.Period t) videos)).

Lemma Partitioned_maps key (videos : list Video.t) :
  Partitioned videos key (countsOf key videos) (groupsOf key videos).
Proof.
  repeat split.
  - apply groupsOf_lookup.
  - intros v Hv. exists (inBucket key (key v) videos).
    assert (Hin : v ∈ inBucket key (key v) videos).
    { apply list_elem_of_In, filter_In. split; [now apply list_elem_of_In|].
      apply String.eqb_refl. }
    split; [|exact Hin]. rewrite groupsOf_lookup.
    destruct (inBucket key (key v) videos); [inversion Hin|reflexivity].
  - apply countsOf_lookup.
  - apply frequencies_periods.
  - apply frequencies_elem in H. rewrite countsOf_lookup, groupsOf_lookup in H.
    destruct (inBucket key (UploadFrequency.Period f) videos); [discriminate|].
    now injection H as <-.
  - apply frequencies_elem in H. rewrite countsOf_lookup, groupsOf_lookup in H.
    destruct (inBucket key (UploadFrequency.Period f) videos); [discriminate|].
    injection H as <-. unfold len. simpl. lia.
  - apply totalCount_countsOf.
  - now apply engagementTrends_elem in H.
  - now apply engagementTrends_elem in H.
Qed.

(** ** Rolling averages *)

(** The mean of the views of a window, as the code computes a mean:
    the [int64] sum and the length, both converted, then divided. *)
Definition meanViews (window : list Video.t) : float64 :=
  F64.div (F64.of_int (Int64.sum (map Video.Views window))) (F64.of_int (len window)).

(** The videos at the indices [from .. to - 1]. *)
Definition between {A} (l : list A) (from to : Z) : list A :=
  firstn (Z.to_nat (to - from)) (skipn (Z.to_nat from) l).

(** The backward window [max(0, i-W+1) .. i] and the forward window
    [i .. min(n, i+W) - 1]. *)
Definition backwardWindow (W : Z) (videos : list Video.t) (i : Z) : list Video.t :=
  between videos (Z.max 0 (i - W + 1)) (i + 1).
Definition forwardWindow (W : Z) (videos : list Video.t) (i : Z) : list Video.t :=
  between videos i (Z.min (len videos) (i + W)).

(** One entry per index [0 .. n-1], labelled with the index. *)
Definition rollingSpec (window : Z -> list Video.t) (n : Z) : list RollingAverage.t :=
  map (fun i => RollingAverage.mk i (meanViews (window i))) (seqZ 0 n).

Section Rolling.

Lemma between_lookup {A} (l : list A) from to k :
  0 <= from -> (Z.of_nat k < to - from) ->
  between l from to !! k = l !! (Z.to_nat from + k)%nat.
Proof.
  intros Hfrom Hk. unfold between.
  rewrite lookup_take_lt by lia. now rewrite lookup_drop.
Qed.

Lemma between_length {A} (l : list A) from to :
  0 <= from <= to -> to <= len l -> len (between l from to) = to - from.
Proof.
  unfold between, len. intros H1 H2.
  rewrite length_take, length_drop. lia.
Qed.

Lemma mapR_ok {A B} (f : A -> result B) (g : A -> B) (l : list A) :
  (forall a, a ∈ l -> f a = Ok (g a)) -> mapR f l = Ok (map g l).
Proof.
  induction l as [|a l IH]; intros H; simpl; [reflexivity|].
  rewrite (H a) by apply list_elem_of_here. simpl.
  rewrite IH; [reflexivity|]. intros b Hb. apply H. now apply list_elem_of_further.
Qed.

Lemma index_lookup {A} (l : list A) (i : Z) x :
  0 <= i -> l !! Z.to_nat i = Some x -> index l i = Ok x.
Proof.
  intros Hi Hx. unfold index.
  destruct (i <? 0) eqn:E; [apply Z.ltb_lt in E; lia|]. now rewrite Hx.
Qed.

Lemma sum_fold (l : list Video.t) acc :
  fold_left (fun total v => Int64.add total (Video.Views v)) l acc
  = fold_left Int64.add (map Video.Views l) acc.
Proof. revert acc. induction l; intros acc; simpl; auto. Qed.

(** The inner loop of the backward variant reads the videos it should. *)
Lemma sumViews_loop (videos : list Video.t) (n : nat) (start acc : Z) :
  0 <= start -> start + Z.of_nat n <= len videos ->
  fold_left
    (fun acc j =>
       bindR acc (fun sum =>
       bindR (index videos j) (fun v => Ok (Int64.add sum (Video.Views v)))))
    (seqZ start (Z.of_nat n)) (Ok acc)
  = Ok (fold_left Int64.add
          (map Video.Views (between videos start (start + Z.of_nat n))) acc).
Proof.
  revert start acc. induction n as [|n IH]; intros start acc Hs Hn.
  - simpl. unfold between.
    now replace (Z.to_nat (start + Z.of_nat 0 - start)) with 0%nat by lia.
  - rewrite seqZ_cons by lia. simpl fold_left at 1.
    destruct (lookup_lt_is_Some_2 videos (Z.to_nat start)) as [v Hv].
    { unfold len in Hn. lia. }
    rewrite (index_lookup _ _ v Hs Hv). simpl bindR.
    replace (Z.pred (Z.of_nat (S n))) with (Z.of_nat n) by lia.
    rewrite IH by (unfold len in *; lia).
    f_equal. unfold between.
    replace (Z.to_nat (start + Z.of_nat (S n) - start)) with (S n) by lia.
    replace (Z.to_nat (Z.succ start + Z.of_nat n - Z.succ start)) with n by lia.
    rewrite (drop_S _ _ _ Hv). simpl.
    now replace (Z.to_nat (Z.succ start)) with (S (Z.to_nat start)) by lia.
Qed.

Lemma sumViewsFrom_window (videos : list Video.t) (start i : Z) :
  0 <= start <= i -> i < len videos ->
  YouTubeClient.sumViewsFrom videos start i
  = Ok (Int64.sum (map Video.Views (between videos start (i + 1)))).
Proof.
  intros Hs Hi. unfold YouTubeClient.sumViewsFrom, Int64.sum.
  replace (i - start + 1) with (Z.of_nat (Z.to_nat (i - start + 1))) by lia.
  rewrite sumViews_loop by lia.
  now replace (start + Z.of_nat (Z.to_nat (i - start + 1))) with (i + 1) by lia.
Qed.

Lemma rollingAt_backward (W : Z) (videos : list Video.t) (i : Z) :
  1 <= W -> 0 <= i < len videos ->
  YouTubeClient.rollingAt W videos i
  = Ok (RollingAverage.mk i (meanViews (backwardWindow W videos i))).
Proof.
  intros HW Hi. unfold YouTubeClient.rollingAt, backwardWindow, meanViews.
  assert (Hstart : (if i - W + 1 <? 0 then 0 else i - W + 1) = Z.max 0 (i - W + 1)).
  { destruct (i - W + 1 <? 0) eqn:E; [apply Z.ltb_lt in E | apply Z.ltb_ge in E]; lia. }
  rewrite Hstart. set (start := Z.max 0 (i - W + 1)).
  rewrite sumViewsFrom_window by lia. simpl. repeat f_equal.
  rewrite between_length; lia.
Qed.

Lemma rollingAt_forward (W : Z) (videos : list Video.t) (i : Z) :
  1 <= W -> 0 <= i < len videos ->
  YouTubeAPI.rollingForwardAt W videos i
  = Ok (RollingAverage.mk i (meanViews (forwardWindow W videos i))).
Proof.
  intros HW Hi. unfold YouTubeAPI.rollingForwardAt, forwardWindow, meanViews.
  assert (Hend : (if len videos <? i + W then len videos else i + W)
                 = Z.min (len videos) (i + W)).
  { destruct (len videos <? i + W) eqn:E; [apply Z.ltb_lt in E | apply Z.ltb_ge in E]; lia. }
  rewrite Hend. set (stop := Z.min (len videos) (i + W)).
  unfold slice.
  assert (Hb : ((i <? 0) || (stop <? i) || (len videos <? stop)) = false).
  { rewrite !orb_false_iff, !Z.ltb_ge. lia. }
  rewrite Hb. simpl bindR. fold (between videos i stop).
  assert (Hlen : len (between videos i stop) = stop - i) by (apply between_length; lia).
  assert (Hpos : (0 <? len (between videos i stop)) = true) by (apply Z.ltb_lt; lia).
  rewrite Hpos, sum_fold. reflexivity.
Qed.

Lemma rollingAverages_spec (W : Z) (videos : list Video.t) :
  1 <= W ->
  YouTubeClient.rollingAverages W videos
  = Ok (rollingSpec (backwardWindow W videos) (len videos)).
Proof.
  intros HW. unfold YouTubeClient.rollingAverages, rollingSpec.
  apply mapR_ok. intros i Hi. apply elem_of_seqZ in Hi.
  apply rollingAt_backward; lia.
Qed.

Lemma rollingForward_spec (W : Z) (videos : list Video.t) :
  1 <= W ->
  YouTubeAPI.rollingForward W videos
  = Ok (rollingSpec (forwardWindow W videos) (len videos)).
Proof.
  intros HW. unfold YouTubeAPI.rollingForward, rollingSpec.
  apply mapR_ok. intros i Hi. apply elem_of_seqZ in Hi.
  apply rollingAt_forward; lia.
Qed.

Lemma rollingSpec_lookup window n (i : nat) :
  Z.of_nat i < n ->
  rollingSpec window n !! i
  = Some (RollingAverage.mk (Z.of_nat i) (meanViews (window (Z.of_nat i)))).
Proof.
  intros Hi. unfold rollingSpec.
  rewrite list_lookup_fmap, lookup_seqZ_lt by lia. reflexivity.
Qed.

Lemma rollingSpec_length window n : 0 <= n -> len (rollingSpec window n) = n.
Proof.
  intros Hn. unfold rollingSpec, len. rewrite length_map, length_seqZ. lia.
Qed.

End Rolling.

(** C10. Bucket partition of the ISO-week and month histograms of
    [GetChannelTrends]: for the weekly maps and for the monthly maps
    alike, the bucket of a key holds exactly the input videos with that
    key, in input order, and exists only when there is one, so every
    video lies in the bucket of its own key and in no other; each bucket is
    reported once, with the number of its videos as count; the reported
    counts add up to the number of input videos; and every reported
    engagement trend is the average over exactly the videos of its
    bucket.  The result of the trends computation reports these lists. *)
Theorem histogram_bucket_partition {sorter : SliceSorter} (videos : list Video.t) :
  let b := YouTubeClient.buckets videos in
  Partitioned videos YouTubeClient.weekKey
    (YouTubeClient.weekly b) (YouTubeClient.engageWeekly b) /\
  Partitioned videos YouTubeClient.monthKey
    (YouTubeClient.monthly b) (YouTubeClient.engageMonthly b) /\
  forall now channelID channel,
    exists t,
      YouTubeClient.trendsOf now channelID channel videos = Ok t /\
      ChannelTrends.UploadFrequencyWeekly t = YouTubeClient.frequencies (YouTubeClient.weekly b) /\
      ChannelTrends.UploadFrequencyMonthly t = YouTubeClient.frequencies (YouTubeClient.monthly b) /\
      ChannelTrends.EngagementTrendsWeekly t
      = YouTubeClient.engagementTrends (YouTubeClient.engageWeekly b) /\
      ChannelTrends.EngagementTrendsMonthly t
      = YouTubeClient.engagementTrends (YouTubeClient.engageMonthly b) /\
      totalCount (ChannelTrends.UploadFrequencyWeekly t) = len videos /\
      totalCount (ChannelTrends.UploadFrequencyMonthly t) = len videos.
Proof.
  cbv zeta.
  assert (Hmaps := bucketsBy_maps YouTubeClient.weekKey YouTubeClient.monthKey videos).
  cbv zeta in Hmaps. fold (YouTubeClient.buckets videos) in Hmaps.
  destruct Hmaps as (Hw & Hm & Hew & Hem).
  split; [|split].
  - rewrite Hw, Hew. apply Partitioned_maps.
  - rewrite Hm, Hem. apply Partitioned_maps.
  - intros now channelID channel. unfold YouTubeClient.trendsOf.
    rewrite rollingAverages_spec by lia. simpl bindR.
    eexists. split; [reflexivity|]. simpl.
    repeat (split; [reflexivity|]).
    rewrite Hw, Hm. split; apply totalCount_countsOf.
Qed.

(** The histogram of three uploads, two of them in the same ISO week. *)
Example histogram_example :
  let at_day d := d * nanosPerDay in
  let v (t : Time) := Video.mk "v" "" "" 5 1 0 t t "" "" 5 1 0 in
  let b := YouTubeClient.buckets [v (at_day 19723); v (at_day 19724); v (at_day 19730)] in
  YouTubeClient.weekly b !! "2024-W01" = Some 2
  /\ YouTubeClient.weekly b !! "2024-W02" = Some 1
  /\ YouTubeClient.monthly b !! "2024-01" = Some 3.
Proof. vm_compute. repeat split. Qed.

(** C7. Rolling view averages.  On a list of [n] videos the direct-client
    trends path ([window := 10]) and the SDK trends path
    ([windowSize := 7]) both produce, without failing, exactly [n]
    entries; the entry at position [i] is labelled [i] and carries the
    mean of the views over the indices [max(0, i-10+1) .. i] in the first
    path and over [i .. min(n, i+7) - 1] in the second.  The trends
    functions report these lists: the client over the list it was given,
    the SDK path over that list sorted by upload date. *)
Theorem rolling_averages_are_window_means
    {sorter : SliceSorter} {parser : TimeParser} (videos : list Video.t) :
  (exists r,
     YouTubeClient.rollingAverages 10 videos = Ok r /\ len r = len videos /\
     (forall i, 0 <= i < len videos ->
        r !! Z.to_nat i =
          Some (RollingAverage.mk i
                  (meanViews (between videos (Z.max 0 (i - 10 + 1)) (i + 1))))) /\
     forall now channelID channel,
       exists t, YouTubeClient.trendsOf now channelID channel videos = Ok t /\
                 ChannelTrends.RollingAverages t = r) /\
  (exists r,
     YouTubeAPI.rollingForward 7 videos = Ok r /\ len r = len videos /\
     (forall i, 0 <= i < len videos ->
        r !! Z.to_nat i =
          Some (RollingAverage.mk i
                  (meanViews (between videos i (Z.min (len videos) (i + 7)))))) /\
     forall now channelID title apiVideos,
       mapR YouTubeAPI.convert apiVideos = Ok videos ->
       let sorted :=
         sort_Slice (fun a b => After (Video.UploadDate a) (Video.UploadDate b)) videos in
       exists t, YouTubeAPI.trendsOf now channelID title apiVideos = Ok t /\
                 ChannelTrends.RollingAverages t
                 = rollingSpec (forwardWindow 7 sorted) (len sorted)).
Proof.
  assert (Hn : 0 <= len videos) by (unfold len; lia).
  split.
  - exists (rollingSpec (backwardWindow 10 videos) (len videos)).
    split; [apply rollingAverages_spec; lia|].
    split; [now apply rollingSpec_length|]. split.
    + intros i Hi. rewrite rollingSpec_lookup by lia.
      now replace (Z.of_nat (Z.to_nat i)) with i by lia.
    + intros now channelID channel. unfold YouTubeClient.trendsOf.
      rewrite rollingAverages_spec by lia. simpl. eexists. split; reflexivity.
  - exists (rollingSpec (forwardWindow 7 videos) (len videos)).
    split; [apply rollingForward_spec; lia|].
    split; [now apply rollingSpec_length|]. split.
    + intros i Hi. rewrite rollingSpec_lookup by lia.
      now replace (Z.of_nat (Z.to_nat i)) with i by lia.
    + intros now channelID title apiVideos Hconv sorted.
      unfold YouTubeAPI.trendsOf. rewrite Hconv. simpl bindR. fold sorted.
      rewrite rollingForward_spec by lia. simpl. eexists. split; reflexivity.
Qed.

(** Ten uploads with views 10, 20, ..., 100: at position 9 the backward
    window of ten averages all of them (55), the forward window of seven
    holds the last upload alone (100). *)
Example rolling_example :
  let v (n : Z) := Video.mk "v" "" "" n 0 0 0 0 "" "" n 0 0 in
  let videos := map (fun k => v (10 * k)) (seqZ 1 10) in
  YouTubeClient.rollingAt 10 videos 9 = Ok (RollingAverage.mk 9 (F64.of_int 55))
  /\ YouTubeAPI.rollingForwardAt 7 videos 9 = Ok (RollingAverage.mk 9 (F64.of_int 100))
  /\ YouTubeAPI.rollingForwardAt 7 videos 0 = Ok (RollingAverage.mk 0 (F64.of_int 40)).
Proof. vm_compute. repeat split. Qed.

(** ** Empty video lists *)

(** The world after [n] more requests went upstream. *)
Definition sent (n : nat) (w : YouTubeAPI.World) : YouTubeAPI.World :=
  {| YouTubeAPI.db := YouTubeAPI.db w;
     YouTubeAPI.clock := YouTubeAPI.clock w;
     YouTubeAPI.requests := (n + YouTubeAPI.requests w)%nat |}.

(** The upstream knows the channel, with all its parts, and its uploads
    playlist has no item. *)
Definition ChannelWithoutVideos (service : youtube.Service.t) (channelID : string)
    (channel : youtube.Channel.t) (snippet : youtube.ChannelSnippet.t)
    (stats : youtube.ChannelStatistics.t) : Prop :=
  exists others uploads,
    youtube.Service.ChannelsList service channelID = Ok (channel :: others) /\
    youtube.Channel.Snippet channel = Some snippet /\
    youtube.Channel.Statistics channel = Some stats /\
    youtube.Channel.ContentDetails channel = Some (Some uploads) /\
    uploads <> "" /\
    (youtube.Service.PlaylistItemsList service uploads = [] \/
     exists more, youtube.Service.PlaylistItemsList service uploads = Ok [] :: more).

Section EmptyInput.

Context {sorter : SliceSorter} {parser : TimeParser}.
Variable service : youtube.Service.t.

Lemma getChannelInfo_found channelID channel snippet others w :
  youtube.Service.ChannelsList service channelID = Ok (channel :: others) ->
  youtube.Channel.Snippet channel = Some snippet ->
  YouTubeAPI.getChannelInfo service channelID w = (Ok channel, sent 1 w).
Proof.
  intros Hlist Hsn. unfold YouTubeAPI.getChannelInfo, YouTubeAPI.bind, YouTubeAPI.request,
    YouTubeAPI.ret.
  now rewrite Hlist, Hsn.
Qed.

Lemma getAllVideos_empty channelID channel snippet stats w :
  ChannelWithoutVideos service channelID channel snippet stats ->
  YouTubeAPI.getAllVideos service channelID w = (Ok [], sent 2 w).
Proof.
  intros (others & uploads & Hlist & Hsn & _ & Hcd & Hup & Hpages).
  unfold YouTubeAPI.getAllVideos, YouTubeAPI.bindMR, YouTubeAPI.bind.
  rewrite (getChannelInfo_found _ _ _ _ _ Hlist Hsn), Hcd.
  apply String.eqb_neq in Hup. rewrite Hup.
  destruct Hpages as [-> | [more ->]]; reflexivity.
Qed.

Lemma getChannelAnalytics_empty channelID channel snippet stats w :
  ChannelWithoutVideos service channelID channel snippet stats ->
  YouTubeAPI.getChannelAnalytics service channelID w
  = (YouTubeAPI.analyticsOf (YouTubeAPI.clock w) channelID channel (Some stats) [],
     sent 4 w).
Proof.
  intros Hempty. pose proof Hempty as (others & uploads & Hlist & Hsn & Hst & _).
  unfold YouTubeAPI.getChannelAnalytics, YouTubeAPI.getChannelStatistics,
    YouTubeAPI.bindMR, YouTubeAPI.bind, YouTubeAPI.ret, YouTubeAPI.Now.
  rewrite !(getChannelInfo_found _ _ _ _ _ Hlist Hsn).
  rewrite (getAllVideos_empty _ _ _ _ _ Hempty), Hst. reflexivity.
Qed.

Lemma getChannelTrends_empty channelID channel snippet stats w :
  ChannelWithoutVideos service channelID channel snippet stats ->
  YouTubeAPI.getChannelTrends service channelID w
  = (YouTubeAPI.trendsOf (YouTubeAPI.clock w) channelID
       (youtube.ChannelSnippet.Title snippet) [],
     sent 3 w).
Proof.
  intros Hempty. pose proof Hempty as (others & uploads & Hlist & Hsn & Hst & _).
  unfold YouTubeAPI.getChannelTrends, YouTubeAPI.bindMR, YouTubeAPI.bind,
    YouTubeAPI.ret, YouTubeAPI.Now.
  rewrite (getChannelInfo_found _ _ _ _ _ Hlist Hsn), Hsn.
  unfold deref. cbv beta iota.
  rewrite (getAllVideos_empty _ _ _ _ _ Hempty). reflexivity.
Qed.

Hypothesis Hsort : SortContract sorter.

Lemma analyticsOf_empty now channelID channel snippet stats :
  youtube.Channel.Snippet channel = Some snippet ->
  YouTubeAPI.analyticsOf now channelID channel (Some stats) []
  = Ok (ChannelAnalytics.mk channelID
          (youtube.ChannelSnippet.Title snippet) (youtube.ChannelSnippet.Title snippet)
          (Int64.wrap (youtube.ChannelStatistics.SubscriberCount stats))
          (Int64.wrap (youtube.ChannelStatistics.ViewCount stats))
          (Int64.wrap (youtube.ChannelStatistics.VideoCount stats))
          0 F64.zero F64.zero F64.zero [] (TimeRange.mk "" "") now).
Proof.
  intros Hsn. unfold YouTubeAPI.analyticsOf. simpl.
  rewrite (sort_Slice_nil Hsort), Hsn. reflexivity.
Qed.

Lemma trendsOf_empty now channelID title :
  YouTubeAPI.trendsOf now channelID title []
  = Ok (ChannelTrends.mk channelID title title [] [] []
          [UploadFrequency.mk "week" 0] [UploadFrequency.mk "month" 0]
          [EngagementTrend.mk "week" F64.zero F64.zero F64.zero]
          [EngagementTrend.mk "month" F64.zero F64.zero F64.zero] now).
Proof.
  unfold YouTubeAPI.trendsOf. simpl. rewrite (sort_Slice_nil Hsort). reflexivity.
Qed.

End EmptyInput.

(** A channel the upstream knows, whose uploads playlist is empty, as the
    SDK and as the HTTP client see it. *)
Definition emptyChannel : youtube.Service.t :=
  youtube.Service.mk
    (fun _ => Ok [youtube.Channel.mk "UC1"
                    (Some (youtube.ChannelSnippet.mk "Empty" "" ""))
                    (Some (youtube.ChannelStatistics.mk 12 0 0))
                    (Some (Some "UU1"))])
    (fun _ => [Ok []])
    (fun _ => Ok []).

Definition emptyClient : YouTubeClient.t :=
  YouTubeClient.mk (fun _ => Ok (Channel.mk "UC1" "Empty" "" 12 0 0 ""))
    (fun _ => Ok ["UU1"]) (fun _ => [Ok []]) (fun _ => Ok []).

(** C2, as the code has it.  On an empty considered video list the
    direct-client analytics computation fails with the error
    [no videos found for channel] (which its handler reports with status
    400); the SDK analytics computation behind the cache-gated handler
    does not fail: it returns a [ChannelAnalytics] with zero videos, zero
    average and ratios, no top video and an empty time range. *)
Theorem analytics_on_empty_video_list {sorter : SliceSorter} {parser : TimeParser} :
  SortContract sorter ->
  (forall (c : YouTubeClient.t) channelID channel,
     YouTubeClient.GetChannelByID c channelID = Ok channel ->
     YouTubeClient.GetChannelVideos c channelID
       (VideoFilter.mk SortByRecency (Channel.VideoCount channel) 0 0) = Ok [] ->
     YouTubeClient.GetChannelAnalytics c channelID = Err "no videos found for channel" /\
     Server.getChannelAnalytics c channelID
     = JSONError StatusBadRequest "no videos found for channel") /\
  (forall service channelID channel snippet stats w,
     ChannelWithoutVideos service channelID channel snippet stats ->
     YouTubeAPI.getChannelAnalytics service channelID w
     = (Ok (ChannelAnalytics.mk channelID
              (youtube.ChannelSnippet.Title snippet) (youtube.ChannelSnippet.Title snippet)
              (Int64.wrap (youtube.ChannelStatistics.SubscriberCount stats))
              (Int64.wrap (youtube.ChannelStatistics.ViewCount stats))
              (Int64.wrap (youtube.ChannelStatistics.VideoCount stats))
              0 F64.zero F64.zero F64.zero [] (TimeRange.mk "" "") (YouTubeAPI.clock w)),
        sent 4 w)).
Proof.
  intros Hsort. split.
  - intros c channelID channel Hch Hvideos.
    assert (H : YouTubeClient.GetChannelAnalytics c channelID
                = Err "no videos found for channel").
    { unfold YouTubeClient.GetChannelAnalytics. rewrite Hch. simpl.
      rewrite Hvideos. reflexivity. }
    split; [exact H|]. unfold Server.getChannelAnalytics. now rewrite H.
  - intros service channelID channel snippet stats w Hempty.
    rewrite (getChannelAnalytics_empty _ _ _ _ _ _ Hempty).
    destruct Hempty as (others & uploads & _ & Hsn & _).
    now rewrite (analyticsOf_empty Hsort _ _ _ _ _ Hsn).
Qed.

Lemma analytics_on_empty_video_list_witness :
  SortContract insertionSorter /\
  YouTubeClient.GetChannelAnalytics (sorter := insertionSorter) (parser := parseUTC)
    emptyClient "UC1" = Err "no videos found for channel".
Proof.
  split; [exact insertionSorter_contract|].
  refine (proj1 (proj1 (analytics_on_empty_video_list
                          (sorter := insertionSorter) (parser := parseUTC)
                          insertionSorter_contract)
                   emptyClient "UC1" (Channel.mk "UC1" "Empty" "" 12 0 0 "") _ _));
    reflexivity.
Defined.

(** The SDK path on the empty channel: a zero-valued result, no error. *)
Lemma sdk_analytics_of_empty_channel :
  fst (YouTubeAPI.getChannelAnalytics (sorter := insertionSorter) (parser := parseUTC)
         emptyChannel "UC1" world0)
  = Ok (ChannelAnalytics.mk "UC1" "Empty" "Empty" 12 0 0
          0 F64.zero F64.zero F64.zero [] (TimeRange.mk "" "") 3600000000000).
Proof. reflexivity. Qed.

(** C8. On an empty considered video list the trends computation does
    not fail.  The direct client returns no result and no error (its
    handler turns the absent result into status 404); the SDK computation
    returns a [ChannelTrends] with no trending video, no performance
    point, no rolling average, and zero-valued fixed buckets. *)
Theorem trends_on_empty_video_list {sorter : SliceSorter} {parser : TimeParser} :
  SortContract sorter ->
  (forall (c : YouTubeClient.t) now channelID channel,
     YouTubeClient.GetChannelByID c channelID = Ok channel ->
     YouTubeClient.GetChannelVideos c channelID
       (VideoFilter.mk SortByRecency (Channel.VideoCount channel) 0 0) = Ok [] ->
     YouTubeClient.GetChannelTrends c now channelID = Ok None /\
     Server.getChannelTrends c now channelID
     = JSONError StatusNotFound "No videos found for channel") /\
  (forall service channelID channel snippet stats w,
     ChannelWithoutVideos service channelID channel snippet stats ->
     let title := youtube.ChannelSnippet.Title snippet in
     YouTubeAPI.getChannelTrends service channelID w
     = (Ok (ChannelTrends.mk channelID title title [] [] []
              [UploadFrequency.mk "week" 0] [UploadFrequency.mk "month" 0]
              [EngagementTrend.mk "week" F64.zero F64.zero F64.zero]
              [EngagementTrend.mk "month" F64.zero F64.zero F64.zero]
              (YouTubeAPI.clock w)),
        sent 3 w)).
Proof.
  intros Hsort. split.
  - intros c now channelID channel Hch Hvideos.
    assert (H : YouTubeClient.GetChannelTrends c now channelID = Ok None).
    { unfold YouTubeClient.GetChannelTrends. rewrite Hch. simpl.
      rewrite Hvideos. reflexivity. }
    split; [exact H|]. unfold Server.getChannelTrends. now rewrite H.
  - intros service channelID channel snippet stats w Hempty. cbv zeta.
    rewrite (getChannelTrends_empty _ _ _ _ _ _ Hempty).
    now rewrite (trendsOf_empty Hsort).
Qed.

Lemma trends_on_empty_video_list_witness :
  SortContract insertionSorter /\
  YouTubeClient.GetChannelTrends (sorter := insertionSorter) (parser := parseUTC)
    emptyClient 0 "UC1" = Ok None.
Proof.
  split; [exact insertionSorter_contract|].
  refine (proj1 (proj1 (trends_on_empty_video_list
                          (sorter := insertionSorter) (parser := parseUTC)
                          insertionSorter_contract)
                   emptyClient 0 "UC1" (Channel.mk "UC1" "Empty" "" 12 0 0 "") _ _));
    reflexivity.
Defined.

Example sdk_trends_of_empty_channel :
  ChannelWithoutVideos emptyChannel "UC1"
    (youtube.Channel.mk "UC1" (Some (youtube.ChannelSnippet.mk "Empty" "" ""))
       (Some (youtube.ChannelStatistics.mk 12 0 0)) (Some (Some "UU1")))
    (youtube.ChannelSnippet.mk "Empty" "" "") (youtube.ChannelStatistics.mk 12 0 0).
Proof.
  exists [], "UU1". repeat split; try discriminate. right. now exists [].
Qed.

(** ** The ratios *)

(** A video without views, likes or comments. *)
Definition noCounts (v : Video.t) : Prop :=
  Video.Views v = 0 /\ Video.Likes v = 0 /\ Video.Comments v = 0.

Section Ratios.

Context {sorter : SliceSorter} {parser : TimeParser}.

(** The statistics of the HTTP answer are strings, so the [uint64]
    assertions of the client never hold and every count stays zero. *)
Lemma client_toVideo_noCounts item : noCounts (YouTubeClient.toVideo item).
Proof. repeat split. Qed.

Lemma totals_noCounts videos : Forall noCounts videos -> totals videos = (0, 0, 0).
Proof.
  unfold totals. induction 1 as [|v l (Hv & Hl & Hc) _ IH]; simpl; [reflexivity|].
  rewrite Hv, Hl, Hc. exact IH.
Qed.

Lemma fetchDetails_Forall (P : Video.t -> Prop) c filter bs acc r :
  (forall item, P (YouTubeClient.toVideo item)) ->
  Forall P acc -> YouTubeClient.fetchDetails c filter bs acc = Ok r -> Forall P r.
Proof.
  intros HP. revert acc. induction bs as [|b bs IH]; intros acc Hacc; simpl.
  - now intros [= <-].
  - destruct (YouTubeClient.getVideos c b) as [items| |]; simpl; try discriminate.
    apply IH. apply Forall_app. split; [exact Hacc|].
    apply Forall_forall. intros v Hv.
    apply list_elem_of_In, filter_In in Hv as [Hv _].
    apply in_map_iff in Hv as (item & <- & _). apply HP.
Qed.

Lemma fetchDetails_passes c filter bs acc r :
  Forall (fun v => passes filter v = true) acc ->
  YouTubeClient.fetchDetails c filter bs acc = Ok r ->
  Forall (fun v => passes filter v = true) r.
Proof.
  revert acc. induction bs as [|b bs IH]; intros acc Hacc; simpl.
  - now intros [= <-].
  - destruct (YouTubeClient.getVideos c b) as [items| |]; simpl; try discriminate.
    apply IH. apply Forall_app. split; [exact Hacc|].
    apply Forall_forall. intros v Hv.
    now apply list_elem_of_In, filter_In in Hv as [_ Hv].
Qed.

Hypothesis Hsort : SortContract sorter.

Lemma sortVideos_perm filter videos : Permutation (sortVideos filter videos) videos.
Proof.
  unfold sortVideos.
  repeat (destruct (String.eqb _ _)); try apply (sort_Slice_perm Hsort); reflexivity.
Qed.

Lemma sortVideos_Forall (P : Video.t -> Prop) filter videos :
  Forall P videos -> Forall P (sortVideos filter videos).
Proof. intros H. now rewrite sortVideos_perm. Qed.

(** What [GetChannelVideos] returns went through the detail requests. *)
Lemma GetChannelVideos_inv c channelID filter r :
  YouTubeClient.GetChannelVideos c channelID filter = Ok r ->
  exists uploads others allVideoIDs fetched,
    YouTubeClient.getUploads c channelID = Ok (uploads :: others) /\
    YouTubeClient.collectIDs (VideoFilter.MaxVideos filter)
      (YouTubeClient.getPlaylistItems c uploads) [] = Ok allVideoIDs /\
    YouTubeClient.fetchDetails c filter
      (YouTubeClient.batches
         (length (firstn (Z.to_nat (VideoFilter.MaxVideos filter)) allVideoIDs))
         (firstn (Z.to_nat (VideoFilter.MaxVideos filter)) allVideoIDs)) []
    = Ok fetched /\
    r = sortVideos filter fetched.
Proof.
  unfold YouTubeClient.GetChannelVideos.
  destruct (YouTubeClient.getUploads c channelID) as [[|uploads others]| |];
    simpl; try discriminate.
  destruct (YouTubeClient.collectIDs _ _ _) as [ids| |] eqn:Hids; simpl; try discriminate.
  set (M := VideoFilter.MaxVideos filter) in *.
  assert (Hcut : (if M <? len ids then slice_to ids M else Ok ids) = Ok (firstn (Z.to_nat M) ids)
                 \/ exists e, (if M <? len ids then slice_to ids M else Ok ids) = Panic e).
  { unfold slice_to, len. destruct (M <? Z.of_nat (length ids)) eqn:E.
    - apply Z.ltb_lt in E. destruct (M <? 0) eqn:E0; simpl; [right; eauto|].
      apply Z.ltb_ge in E0.
      assert ((Z.of_nat (length ids) <? M) = false) as -> by (apply Z.ltb_ge; lia).
      now left.
    - apply Z.ltb_ge in E. left. rewrite firstn_all2 by lia. reflexivity. }
  destruct Hcut as [-> | [e ->]]; simpl; [|discriminate].
  destruct (YouTubeClient.fetchDetails _ _ _ _) as [fetched| |] eqn:Hf; simpl;
    try discriminate.
  intros [= <-]. exists uploads, others, ids, fetched. auto.
Qed.

Lemma GetChannelVideos_noCounts c channelID filter r :
  YouTubeClient.GetChannelVideos c channelID filter = Ok r -> Forall noCounts r.
Proof.
  intros H. apply GetChannelVideos_inv in H as (? & ? & ? & fetched & _ & _ & Hf & ->).
  apply sortVideos_Forall.
  eapply fetchDetails_Forall; [apply client_toVideo_noCounts | constructor | exact Hf].
Qed.

(** In the direct-client path both ratios are [0/0]: whenever
    [GetChannelAnalytics] answers, they are NaN. *)
Lemma client_ratios_are_nan c channelID a :
  YouTubeClient.GetChannelAnalytics c channelID = Ok a ->
  ChannelAnalytics.LikeToViewRatio a = F64.nan /\
  ChannelAnalytics.CommentToViewRatio a = F64.nan.
Proof.
  unfold YouTubeClient.GetChannelAnalytics.
  destruct (YouTubeClient.GetChannelByID c channelID) as [channel| |]; simpl;
    try discriminate.
  destruct (YouTubeClient.GetChannelVideos _ _ _) as [videos| |] eqn:Hv; simpl;
    try discriminate.
  destruct (len videos =? 0); [discriminate|].
  unfold YouTubeClient.analyticsOf.
  rewrite (totals_noCounts _ (GetChannelVideos_noCounts _ _ _ _ Hv)).
  destruct (index _ _) as [last| |]; simpl; try discriminate.
  destruct (index _ _) as [first| |]; simpl; try discriminate.
  intros [= <-]. split; reflexivity.
Qed.

(** The SDK path guards both ratios: zero unless the total of views is
    positive, the quotient of the totals otherwise. *)
Lemma sdk_ratios_guarded now channelID channel stats allVideos videos a :
  mapR YouTubeAPI.convert allVideos = Ok videos -> videos <> [] ->
  YouTubeAPI.analyticsOf now channelID channel stats allVideos = Ok a ->
  let '(totalViews, totalLikes, totalComments) := totals videos in
  ChannelAnalytics.LikeToViewRatio a =
    (if 0 <? totalViews
     then F64.div (F64.of_int totalLikes) (F64.of_int totalViews) else F64.zero) /\
  ChannelAnalytics.CommentToViewRatio a =
    (if 0 <? totalViews
     then F64.div (F64.of_int totalComments) (F64.of_int totalViews) else F64.zero).
Proof.
  intros Hconv Hne. unfold YouTubeAPI.analyticsOf. rewrite Hconv. simpl bindR.
  destruct (totals videos) as [[tv tl] tc].
  assert (Hpos : (0 <? len videos) = true).
  { apply Z.ltb_lt. unfold len. destruct videos; [congruence|simpl; lia]. }
  rewrite Hpos. cbn [andb].
  destruct (bindR (index _ _) _) as [[s e]| |]; simpl; try discriminate.
  destruct (deref _) as [sn| |]; simpl; try discriminate.
  destruct (deref _) as [st| |]; simpl; try discriminate.
  intros [= <-]. split; reflexivity.
Qed.

End Ratios.

(** A channel with one upload, which the API reports with 100 views, 10
    likes and 1 comment. *)
Definition oneVideoClient : YouTubeClient.t :=
  YouTubeClient.mk
    (fun _ => Ok (Channel.mk "UC1" "One" "" 12 100 1 ""))
    (fun _ => Ok ["UU1"])
    (fun _ => [Ok ["v1"]])
    (fun ids =>
       Ok (map (fun id =>
                  YouTubeClient.VideoItem.mk id "first" "" 1709208001000000000 "" "PT1M"
                    "100" "10" "1") ids)).

(** C4 at a failing input.  For that channel the direct-client analytics
    answer with one video and with both ratios NaN: the totals are zero
    and the divisions are not guarded. *)
Theorem client_ratios_nan_on_one_video :
  exists a,
    YouTubeClient.GetChannelAnalytics (sorter := insertionSorter) (parser := parseUTC)
      oneVideoClient "UC1" = Ok a /\
    ChannelAnalytics.TotalVideos a = 1 /\
    ChannelAnalytics.AverageViews a = F64.zero /\
    ChannelAnalytics.LikeToViewRatio a = F64.nan /\
    ChannelAnalytics.CommentToViewRatio a = F64.nan.
Proof. eexists. split; [vm_compute; reflexivity|]. repeat split. Qed.

(** ** Binary64 facts

    Integers below [2^53] are represented exactly, and sums, products
    and comparisons of such integers are computed exactly. *)

(** The number of binary digits of a positive integer. *)
Definition dig (n : positive) : Z := Z.log2 (Zpos n) + 1.

(** The float that represents the positive integer [n] (of at most 53
    digits) exactly: mantissa [n] shifted to 53 digits. *)
Definition canon (sx : bool) (n : positive) : float64 :=
  S754_finite sx (Z.to_pos (Zpos n * 2 ^ (F64.prec - dig n))) (dig n - F64.prec).

(** A float that is +0, positive and finite, or +infinity. *)
Definition nonNegativeFloat (x : float64) : Prop :=
  match x with
  | S754_zero false | S754_finite false _ _ | S754_infinity false => True
  | _ => False
  end.

(** The order of non-negative floats, through a rank compared
    lexicographically. *)
Definition rank (x : float64) : Z * Z * Z :=
  match x with
  | S754_finite _ m e => (1, e, Zpos m)
  | S754_infinity _ => (2, 0, 0)
  | _ => (0, 0, 0)
  end.

Definition lexlt (a b : Z * Z * Z) : Prop :=
  let '(c1, e1, m1) := a in
  let '(c2, e2, m2) := b in
  c1 < c2 \/ (c1 = c2 /\ (e1 < e2 \/ (e1 = e2 /\ m1 < m2))).

Section Binary64Facts.

Lemma digits_log2 p : Zpos (digits2_pos p) = Z.log2 (Zpos p) + 1.
Proof.
  induction p as [p IH|p IH|]; simpl; try reflexivity.
  - rewrite Pos2Z.inj_succ, IH. destruct p; simpl; lia.
  - rewrite Pos2Z.inj_succ, IH. destruct p; simpl; lia.
Qed.

Lemma iter_xO p k : Zpos (Pos.iter xO p k) = Zpos p * 2 ^ Zpos k.
Proof.
  pose proof (shift_pos_correct k p) as H. unfold shift_pos in H.
  rewrite H, Zpower_pos_nat, Zpower_nat_Z, positive_nat_Z. lia.
Qed.

Lemma iter_shr k m :
  SpecFloat.iter_pos shr_1 k (Build_shr_record (Zpos (Pos.iter xO m k)) false false)
  = Build_shr_record (Zpos m) false false.
Proof.
  revert m. induction k as [k IH|k IH|]; intros m; simpl.
  - rewrite !IH. reflexivity.
  - rewrite !IH. reflexivity.
  - reflexivity.
Qed.

Lemma dig_pos n : 1 <= dig n.
Proof. unfold dig. pose proof (Z.log2_nonneg (Zpos n)). lia. Qed.

Lemma dig_shift n k : 0 <= k -> Z.log2 (Zpos n * 2 ^ k) + 1 = dig n + k.
Proof. intros Hk. unfold dig. rewrite Z.log2_mul_pow2 by lia. lia. Qed.

Lemma shr_exact (M m : positive) (e k : Z) :
  0 <= k -> Zpos M = Zpos m * 2 ^ k ->
  shr (Build_shr_record (Zpos M) false false) e k
  = (Build_shr_record (Zpos m) false false, e + k).
Proof.
  intros Hk HM. destruct k as [|k|k]; [| |lia].
  - simpl. rewrite Z.add_0_r. f_equal. f_equal. rewrite HM. simpl. lia.
  - simpl. f_equal. rewrite <- iter_xO in HM. injection HM as ->. apply iter_shr.
Qed.

Lemma bra_exact (sx : bool) (M : positive) (E : Z) (n : positive) :
  dig n <= F64.prec -> E <= dig n - F64.prec -> Zpos M = Zpos n * 2 ^ (- E) ->
  binary_round_aux F64.prec F64.emax sx (Zpos M) E loc_Exact = canon sx n.
Proof.
  intros Hd HE HM.
  pose proof (dig_pos n) as Hd1.
  assert (Hpow : 0 < 2 ^ (F64.prec - dig n)) by (apply Z.pow_pos_nonneg; lia).
  set (m := Z.to_pos (Zpos n * 2 ^ (F64.prec - dig n))).
  assert (Hm : Zpos m = Zpos n * 2 ^ (F64.prec - dig n)) by (unfold m; rewrite Z2Pos.id; lia).
  unfold binary_round_aux, shr_fexp. 
  assert (H1 : fexp F64.prec F64.emax (Zdigits2 (Zpos M) + E) - E = dig n - F64.prec - E).
  { simpl Zdigits2. rewrite digits_log2, HM, dig_shift by (unfold F64.prec in *; lia).
    unfold fexp, emin, F64.prec, F64.emax in *. lia. }
  rewrite H1. simpl shr_record_of_loc.
  rewrite (shr_exact M m E (dig n - F64.prec - E)).
  2: lia.
  2:{ rewrite HM, Hm, <- Z.mul_assoc, <- Z.pow_add_r by (unfold F64.prec in *; lia).
      f_equal. f_equal. lia. }
  simpl shr_m. simpl loc_of_shr_record. simpl round_nearest_even.
  replace (E + (dig n - F64.prec - E)) with (dig n - F64.prec) by lia.
  assert (H2 : fexp F64.prec F64.emax (Zdigits2 (Zpos m) + (dig n - F64.prec)) - (dig n - F64.prec) = 0).
  { simpl Zdigits2. rewrite digits_log2, Hm, dig_shift by (unfold F64.prec in *; lia).
    unfold fexp, emin, F64.prec, F64.emax in *. lia. }
  rewrite H2. simpl.
  destruct (_ <=? _) eqn:H3; [reflexivity|].
  apply Z.leb_gt in H3. unfold F64.prec, F64.emax in *. lia.
Qed.

Lemma of_int_pos (n : positive) : dig n <= F64.prec -> F64.of_int (Zpos n) = canon false n.
Proof.
  intros Hd. pose proof (dig_pos n) as Hd1.
  unfold F64.of_int, binary_normalize, binary_round.
  assert (H1 : fexp F64.prec F64.emax (Zpos (digits2_pos n) + 0) = dig n - F64.prec).
  { rewrite digits_log2. fold (dig n). unfold fexp, emin, F64.prec, F64.emax in *. lia. }
  rewrite H1. unfold shl_align.
  destruct (dig n - F64.prec - 0) as [|k|k] eqn:Hk.
  - apply bra_exact; [lia|lia|]. simpl. lia.
  - lia.
  - replace (dig n - F64.prec) with (Zneg k) by lia.
    apply bra_exact; [lia|lia|]. rewrite iter_xO. reflexivity.
Qed.

Lemma canon_mantissa sx n : dig n <= F64.prec ->
  exists m, canon sx n = S754_finite sx m (dig n - F64.prec) /\ Zpos m = Zpos n * 2 ^ (F64.prec - dig n).
Proof.
  intros Hd. eexists. split; [reflexivity|].
  rewrite Z2Pos.id; [reflexivity|].
  assert (0 < 2 ^ (F64.prec - dig n)) by (apply Z.pow_pos_nonneg; lia). lia.
Qed.

Lemma dig_le_mono a b : (a <= b)%positive -> dig a <= dig b.
Proof. intros H. unfold dig. pose proof (Z.log2_le_mono (Zpos a) (Zpos b)). lia. Qed.

Lemma mul_exact (a b : positive) :
  dig (a * b) <= F64.prec -> SFmul F64.prec F64.emax (canon false a) (canon false b) = canon false (a * b).
Proof.
  intros Hd.
  assert (Ha : dig a <= F64.prec) by (pose proof (dig_le_mono a (a * b)); nia).
  assert (Hb : dig b <= F64.prec) by (pose proof (dig_le_mono b (a * b)); nia).
  destruct (canon_mantissa false a Ha) as (ma & -> & Hma).
  destruct (canon_mantissa false b Hb) as (mb & -> & Hmb).
  unfold SFmul. simpl xorb.
  pose proof (dig_pos a). pose proof (dig_pos b).
  assert (Hlog : dig a + dig b - 1 <= dig (a * b)).
  { unfold dig. rewrite Pos2Z.inj_mul.
    pose proof (Z.log2_mul_below (Zpos a) (Zpos b)). lia. }
  apply bra_exact; [exact Hd|lia|].
  rewrite !Pos2Z.inj_mul, Hma, Hmb.
  replace (- (dig a - F64.prec + (dig b - F64.prec))) with ((F64.prec - dig a) + (F64.prec - dig b)) by lia.
  rewrite Z.pow_add_r by lia. lia.
Qed.

Lemma shl_align_fst m e ez : ez <= e ->
  Zpos (fst (shl_align m e ez)) = Zpos m * 2 ^ (e - ez).
Proof.
  intros H. unfold shl_align. destruct (ez - e) as [|k|k] eqn:Hk; simpl fst.
  - replace (e - ez) with 0 by lia. simpl. lia.
  - lia.
  - rewrite iter_xO. f_equal. f_equal. lia.
Qed.

Lemma add_exact (a b : positive) :
  dig (a + b) <= F64.prec -> SFadd F64.prec F64.emax (canon false a) (canon false b) = canon false (a + b).
Proof.
  intros Hd.
  assert (Ha : dig a <= F64.prec) by (pose proof (dig_le_mono a (a + b)); lia).
  assert (Hb : dig b <= F64.prec) by (pose proof (dig_le_mono b (a + b)); lia).
  assert (Hab : dig a <= dig (a + b)) by (apply dig_le_mono; lia).
  assert (Hba : dig b <= dig (a + b)) by (apply dig_le_mono; lia).
  destruct (canon_mantissa false a Ha) as (ma & -> & Hma).
  destruct (canon_mantissa false b Hb) as (mb & -> & Hmb).
  pose proof (dig_pos a). pose proof (dig_pos b).
  unfold SFadd. cbv zeta. unfold cond_Zopp.
  set (ez := Z.min (dig a - F64.prec) (dig b - F64.prec)).
  assert (Hsum : Zpos (fst (shl_align ma (dig a - F64.prec) ez)) + Zpos (fst (shl_align mb (dig b - F64.prec) ez))
                 = Zpos (a + b) * 2 ^ (- ez)).
  { rewrite !shl_align_fst by lia. rewrite Hma, Hmb, Pos2Z.inj_add.
    rewrite <- !Z.mul_assoc, <- !Z.pow_add_r by lia.
    replace (F64.prec - dig a + (dig a - F64.prec - ez)) with (- ez) by lia.
    replace (F64.prec - dig b + (dig b - F64.prec - ez)) with (- ez) by lia. lia. }
  assert (Hpow : 0 < 2 ^ (- ez)) by (apply Z.pow_pos_nonneg; lia).
  destruct (Zpos (fst (shl_align ma (dig a - F64.prec) ez)) + Zpos (fst (shl_align mb (dig b - F64.prec) ez)))
    as [|S|S] eqn:HS; [lia| |lia].
  unfold binary_normalize, binary_round.
  assert (H1 : fexp F64.prec F64.emax (Zpos (digits2_pos S) + ez) = dig (a + b) - F64.prec).
  { rewrite digits_log2, Hsum, dig_shift by lia.
    pose proof (dig_pos (a + b)). unfold fexp, emin, F64.prec, F64.emax in *. lia. }
  rewrite H1. unfold shl_align.
  destruct (dig (a + b) - F64.prec - ez) as [|k|k] eqn:Hk; [| |lia].
  - apply bra_exact; [lia|lia|exact Hsum].
  - apply bra_exact; [lia|lia|exact Hsum].
Qed.

Lemma dig_small n : Zpos n < 2 ^ F64.prec -> dig n <= F64.prec.
Proof.
  intros H. unfold dig.
  assert (Z.log2 (Zpos n) < F64.prec) by (apply Z.log2_lt_pow2; [lia|exact H]). lia.
Qed.

Lemma of_int_add a b : 0 <= a -> 0 <= b -> a + b < 2 ^ F64.prec ->
  SFadd F64.prec F64.emax (F64.of_int a) (F64.of_int b) = F64.of_int (a + b).
Proof.
  intros Ha Hb Hab.
  destruct a as [|a|a]; [| |lia].
  - destruct b as [|b|b]; [reflexivity| |lia].
    rewrite Z.add_0_l, of_int_pos by (apply dig_small; lia). reflexivity.
  - destruct b as [|b|b]; [| |lia].
    + rewrite Z.add_0_r, of_int_pos by (apply dig_small; lia). reflexivity.
    + rewrite !of_int_pos by (apply dig_small; lia).
      rewrite <- Pos2Z.inj_add, of_int_pos by (apply dig_small; lia).
      apply add_exact. apply dig_small. lia.
Qed.

Lemma of_int_mul a b : 0 <= a < 2 ^ F64.prec -> 0 <= b < 2 ^ F64.prec -> a * b < 2 ^ F64.prec ->
  SFmul F64.prec F64.emax (F64.of_int a) (F64.of_int b) = F64.of_int (a * b).
Proof.
  intros Ha Hb Hab.
  destruct a as [|a|a]; [| |lia].
  - destruct b as [|b|b]; [reflexivity| |lia].
    rewrite of_int_pos by (apply dig_small; lia). reflexivity.
  - destruct b as [|b|b]; [| |lia].
    + rewrite of_int_pos by (apply dig_small; lia). reflexivity.
    + rewrite !of_int_pos by (apply dig_small; lia).
      rewrite <- Pos2Z.inj_mul, of_int_pos by (apply dig_small; lia).
      apply mul_exact. apply dig_small. lia.
Qed.

Lemma dig_bounds n : 2 ^ (dig n - 1) <= Zpos n < 2 ^ dig n.
Proof.
  unfold dig. pose proof (Z.log2_spec (Zpos n) eq_refl) as H.
  replace (Z.log2 (Zpos n) + 1 - 1) with (Z.log2 (Zpos n)) by lia.
  replace (Z.log2 (Zpos n) + 1) with (Z.succ (Z.log2 (Zpos n))) by lia. exact H.
Qed.

Lemma canon_lt (a b : positive) : dig a <= F64.prec -> dig b <= F64.prec ->
  SFltb (canon false a) (canon false b) = (Zpos a <? Zpos b).
Proof.
  intros Ha Hb.
  destruct (canon_mantissa false a Ha) as (ma & -> & Hma).
  destruct (canon_mantissa false b Hb) as (mb & -> & Hmb).
  pose proof (dig_bounds a) as Ba. pose proof (dig_bounds b) as Bb.
  pose proof (dig_pos a). pose proof (dig_pos b).
  unfold SFltb, SFcompare.
  destruct (Z.compare_spec (dig a - F64.prec) (dig b - F64.prec)) as [He|He|He].
  - assert (Hd : dig a = dig b) by lia.
    rewrite Pos.compare_cont_spec. simpl Pos.switch_Eq.
    change (Pos.compare ma mb) with (Z.compare (Zpos ma) (Zpos mb)).
    rewrite Hma, Hmb, Hd.
    assert (Hp : 0 < 2 ^ (F64.prec - dig b)) by (apply Z.pow_pos_nonneg; lia).
    destruct (Z.compare_spec (Zpos a * 2 ^ (F64.prec - dig b)) (Zpos b * 2 ^ (F64.prec - dig b)));
      symmetry; [apply Z.ltb_ge | apply Z.ltb_lt | apply Z.ltb_ge]; nia.
  - symmetry. apply Z.ltb_lt.
    assert (2 ^ dig a <= 2 ^ (dig b - 1)) by (apply Z.pow_le_mono_r; lia). lia.
  - symmetry. apply Z.ltb_ge.
    assert (2 ^ dig b <= 2 ^ (dig a - 1)) by (apply Z.pow_le_mono_r; lia). lia.
Qed.

Lemma of_int_lt a b : 0 <= a < 2 ^ F64.prec -> 0 <= b < 2 ^ F64.prec ->
  SFltb (F64.of_int a) (F64.of_int b) = (a <? b).
Proof.
  intros Ha Hb.
  destruct a as [|a|a]; [| |lia]; destruct b as [|b|b]; try lia.
  - reflexivity.
  - rewrite of_int_pos by (apply dig_small; lia). reflexivity.
  - rewrite of_int_pos by (apply dig_small; lia). reflexivity.
  - rewrite !of_int_pos by (apply dig_small; lia). apply canon_lt; apply dig_small; lia.
Qed.

Lemma shr_1_nonneg r : 0 <= shr_m r -> 0 <= shr_m (shr_1 r).
Proof. destruct r as [[|[p|p|]|p] r s]; simpl; lia. Qed.

Lemma iter_pos_inv {A} (f : A -> A) (I : A -> Prop) :
  (forall x, I x -> I (f x)) -> forall k x, I x -> I (SpecFloat.iter_pos f k x).
Proof.
  intros Hf. induction k as [k IH|k IH|]; intros x Hx; simpl; auto.
Qed.

Lemma shr_nonneg r e k : 0 <= shr_m r -> 0 <= shr_m (fst (shr r e k)).
Proof.
  intros H. destruct k; simpl; try exact H.
  apply (iter_pos_inv shr_1 (fun r => 0 <= shr_m r)); [apply shr_1_nonneg|exact H].
Qed.

Lemma shr_record_of_loc_m m l : shr_m (shr_record_of_loc m l) = m.
Proof. destruct l as [|[| |]]; reflexivity. Qed.

Lemma round_nearest_even_nonneg m l : 0 <= m -> 0 <= round_nearest_even m l.
Proof. intros H. destruct l as [|[| |]]; simpl; try lia. destruct (Z.even m); lia. Qed.

Lemma binary_round_aux_nonneg m e l :
  0 <= m -> nonNegativeFloat (binary_round_aux F64.prec F64.emax false m e l).
Proof.
  intros Hm. unfold binary_round_aux, shr_fexp.
  destruct (shr (shr_record_of_loc m l) e _) as [mrs' e'] eqn:E1.
  assert (H1 : 0 <= shr_m mrs').
  { change mrs' with (fst (mrs', e')). rewrite <- E1. apply shr_nonneg.
    now rewrite shr_record_of_loc_m. }
  destruct (shr (shr_record_of_loc (round_nearest_even _ _) loc_Exact) e' _)
    as [mrs'' e''] eqn:E2.
  assert (H2 : 0 <= shr_m mrs'').
  { change mrs'' with (fst (mrs'', e'')). rewrite <- E2. apply shr_nonneg.
    simpl. now apply round_nearest_even_nonneg. }
  destruct (shr_m mrs'') as [|p|p]; simpl; [exact I| |lia].
  destruct (_ <=? _); exact I.
Qed.

Lemma binary_round_nonneg m e : nonNegativeFloat (binary_round F64.prec F64.emax false m e).
Proof.
  unfold binary_round.
  destruct (shl_align _ _ _) as [mz ez]. apply binary_round_aux_nonneg. lia.
Qed.

Lemma of_int_nonneg z : 0 <= z -> nonNegativeFloat (F64.of_int z).
Proof.
  intros Hz. destruct z as [|p|p]; [exact I| |lia]. apply binary_round_nonneg.
Qed.

Lemma mul_nonneg x y :
  nonNegativeFloat x -> nonNegativeFloat y ->
  (exists m e, x = S754_finite false m e) ->
  nonNegativeFloat (F64.mul x y).
Proof.
  intros Hx Hy (m & e & ->). unfold F64.mul.
  destruct y as [[|]|[|]| |[|] my ey]; simpl in *; try contradiction; try exact I.
  apply binary_round_aux_nonneg. lia.
Qed.

Lemma add_nonneg x y :
  nonNegativeFloat x -> nonNegativeFloat y -> nonNegativeFloat (F64.add x y).
Proof.
  intros Hx Hy.
  destruct x as [[|]|[|]| |[|] mx ex]; simpl in Hx; try contradiction;
  destruct y as [[|]|[|]| |[|] my ey]; simpl in Hy; try contradiction; try exact I.
  unfold F64.add, SFadd. cbv zeta. unfold cond_Zopp.
  destruct (Zpos _ + Zpos _) as [|s|s] eqn:E; [exact I| |lia].
  apply binary_round_nonneg.
Qed.

Lemma ltb_rank x y :
  nonNegativeFloat x -> nonNegativeFloat y ->
  (F64.gt y x = true <-> lexlt (rank x) (rank y)).
Proof.
  intros Hx Hy.
  destruct x as [[|]|[|]| |[|] mx ex]; simpl in Hx; try contradiction;
  destruct y as [[|]|[|]| |[|] my ey]; simpl in Hy; try contradiction;
    unfold F64.gt, SFltb, SFcompare, lexlt, rank; try (split; [discriminate|lia]);
    try (split; [lia|reflexivity]); try (split; [intros _; lia | reflexivity]).
  destruct (Z.compare_spec ex ey) as [He|He|He].
  - rewrite Pos.compare_cont_spec. simpl Pos.switch_Eq.
    destruct (Pos.compare_spec mx my) as [Hm|Hm|Hm]; split; try discriminate; try lia;
      try reflexivity.
  - split; [lia|reflexivity].
  - split; [discriminate|lia].
Qed.

End Binary64Facts.

(** ** The engagement score *)

(** The weighted sum of the specification, in [float64] arithmetic. *)
Definition weightedScore (v : Video.t) : float64 :=
  F64.add
    (F64.add (F64.mul F64.one (F64.of_int (Video.Views v)))
             (F64.mul F64.two (F64.of_int (Video.Likes v))))
    (F64.mul F64.three (F64.of_int (Video.Comments v))).

(** Counts as the data model has them, non-negative, with a weighted sum
    that [float64] represents exactly. *)
Definition plausible (v : Video.t) : Prop :=
  0 <= Video.Views v /\ 0 <= Video.Likes v /\ 0 <= Video.Comments v /\
  Video.Views v + 2 * Video.Likes v + 3 * Video.Comments v < 2 ^ 53.

(** Counts as the data model has them: non-negative. *)
Definition nonNegative (v : Video.t) : Prop :=
  0 <= Video.Views v /\ 0 <= Video.Likes v /\ 0 <= Video.Comments v.

(** The score as an integer. *)
Definition scoreValue (v : Video.t) : Z :=
  if Video.Views v =? 0 then 0
  else Video.Views v + 2 * Video.Likes v + 3 * Video.Comments v.

Section Score.

Lemma weightedScore_exact v :
  plausible v ->
  weightedScore v
  = F64.of_int (Video.Views v + 2 * Video.Likes v + 3 * Video.Comments v).
Proof.
  intros (HV & HL & HC & Hsum). unfold weightedScore, F64.add, F64.mul.
  change F64.one with (F64.of_int 1).
  change F64.two with (F64.of_int 2).
  change F64.three with (F64.of_int 3).
  change (2 ^ 53) with (2 ^ F64.prec) in Hsum.
  assert (H53 : 2 ^ F64.prec = 9007199254740992) by reflexivity.
  rewrite !of_int_mul by lia.
  rewrite !of_int_add by lia.
  f_equal. lia.
Qed.

Lemma EngagementScore_value v :
  plausible v ->
  EngagementScore v = F64.of_int (scoreValue v) /\ 0 <= scoreValue v < 2 ^ 53.
Proof.
  intros Hv. pose proof Hv as (HV & HL & HC & Hsum).
  unfold EngagementScore, scoreValue.
  destruct (Video.Views v =? 0) eqn:E.
  - split; [reflexivity|lia].
  - split; [|lia]. apply (weightedScore_exact v Hv).
Qed.

(** On plausible videos the comparison of scores is the comparison of
    the integers. *)
Lemma byEngagementScore_value a b :
  plausible a -> plausible b ->
  byEngagementScore a b = (scoreValue b <? scoreValue a).
Proof.
  intros Ha Hb. unfold byEngagementScore, F64.gt.
  destruct (EngagementScore_value a Ha) as [-> Ba].
  destruct (EngagementScore_value b Hb) as [-> Bb].
  apply of_int_lt; assumption.
Qed.

(** With non-negative counts the score is never NaN and never negative. *)
Lemma EngagementScore_nonneg v : nonNegative v -> nonNegativeFloat (EngagementScore v).
Proof.
  intros (HV & HL & HC). unfold EngagementScore.
  destruct (Video.Views v =? 0); [exact I|].
  repeat apply add_nonneg;
    (apply mul_nonneg; [exact I | now apply of_int_nonneg | do 2 eexists; reflexivity]).
Qed.

Lemma byEngagementScore_rank a b :
  nonNegative a -> nonNegative b ->
  (byEngagementScore a b = true
   <-> lexlt (rank (EngagementScore b)) (rank (EngagementScore a))).
Proof.
  intros Ha Hb. unfold byEngagementScore.
  apply ltb_rank; now apply EngagementScore_nonneg.
Qed.

End Score.

(** C1, as the code has it.  A video without views scores 0 whatever its
    likes and comments; every other video scores
    [1.0*views + 2.0*likes + 3.0*comments] in [float64] arithmetic, which
    is exactly the integer [views + 2*likes + 3*comments] when the counts
    are non-negative and that integer is below [2^53]. *)
Theorem EngagementScore_weighted_unless_no_views (v : Video.t) :
  (Video.Views v = 0 -> EngagementScore v = F64.zero) /\
  (Video.Views v <> 0 -> EngagementScore v = weightedScore v) /\
  (Video.Views v <> 0 -> plausible v ->
   EngagementScore v
   = F64.of_int (Video.Views v + 2 * Video.Likes v + 3 * Video.Comments v)).
Proof.
  unfold EngagementScore. repeat split.
  - now intros ->.
  - intros H. apply Z.eqb_neq in H. now rewrite H.
  - intros H Hv. apply Z.eqb_neq in H. rewrite H. exact (weightedScore_exact v Hv).
Qed.

(** A video with no view, four likes and two comments scores 0, not 14. *)
Lemma EngagementScore_without_views :
  let v := Video.mk "v" "" "" 0 4 2 0 0 "" "" 0 4 2 in
  EngagementScore v = F64.zero /\
  weightedScore v = F64.of_int 14 /\
  F64.gt (weightedScore v) (EngagementScore v) = true.
Proof. vm_compute. repeat split. Qed.

(** The scenario of the specification: 300 views, 30 likes, 3 comments. *)
Example EngagementScore_369 :
  EngagementScore (Video.mk "c" "" "" 300 30 3 0 0 "" "" 300 30 3) = F64.of_int 369.
Proof. vm_compute. reflexivity. Qed.

(** ** The top five *)

(** The selection of the specification: the stable descending sort by
    engagement score (insertion sort keeps equal elements in input
    order), cut to five. *)
Definition specTop5 (videos : list Video.t) : list Video.t :=
  firstn 5 (insertionSort byEngagementScore videos).

(** [top] is the head, of length [min 5 n], of a rearrangement of
    [videos] in which no video is outranked by a later one. *)
Definition Ranked (less : Video.t -> Video.t -> bool) (videos top : list Video.t) : Prop :=
  exists rest,
    Permutation (top ++ rest) videos /\
    ordered less (top ++ rest) /\
    length top = Nat.min 5 (length videos).

(** A sorter that meets the contract of [sort.Slice] and reverses ties:
    insertion sort run on the reversed slice. *)
Definition reversingSorter : SliceSorter := fun A less l => insertionSort less (rev l).

Section TopFive.

Lemma strict_weak_by_key {A} (f : A -> Z) (less : A -> A -> bool) (l : list A) :
  (forall a b, In a l -> In b l -> less a b = (f b <? f a)) -> strict_weak less l.
Proof.
  intros H. repeat split.
  - intros x Hx. rewrite H by assumption. apply Z.ltb_irrefl.
  - intros x y z Hx Hy Hz. rewrite !H by assumption. rewrite !Z.ltb_lt. lia.
  - intros x y z Hx Hy Hz. rewrite !H by assumption. rewrite !Z.ltb_ge. lia.
Qed.

Lemma strict_weak_by_rank {A} (r : A -> Z * Z * Z) (less : A -> A -> bool) (l : list A) :
  (forall a b, In a l -> In b l -> (less a b = true <-> lexlt (r b) (r a))) ->
  strict_weak less l.
Proof.
  intros H.
  assert (Hf : forall a b, In a l -> In b l -> (less a b = false <-> ~ lexlt (r b) (r a))).
  { intros a b Ha Hb. rewrite <- (H a b Ha Hb). destruct (less a b); split; congruence. }
  repeat split.
  - intros x Hx. apply Hf; [assumption..|].
    unfold lexlt. destruct (r x) as [[c e] m]. lia.
  - intros x y z Hx Hy Hz. rewrite !H by assumption.
    unfold lexlt. destruct (r x) as [[c1 e1] m1], (r y) as [[c2 e2] m2],
      (r z) as [[c3 e3] m3]. lia.
  - intros x y z Hx Hy Hz. rewrite !Hf by assumption.
    unfold lexlt. destruct (r x) as [[c1 e1] m1], (r y) as [[c2 e2] m2],
      (r z) as [[c3 e3] m3]. lia.
Qed.

Lemma strict_weak_score (videos : list Video.t) :
  Forall nonNegative videos -> strict_weak byEngagementScore videos.
Proof.
  intros Hp. apply (strict_weak_by_rank (fun v => rank (EngagementScore v))).
  rewrite Forall_forall in Hp. intros a b Ha Hb.
  apply byEngagementScore_rank; apply Hp; now apply list_elem_of_In.
Qed.

Lemma strict_weak_plain (videos : list Video.t) : strict_weak YouTubeAPI.byPlainEngagement videos.
Proof.
  apply (strict_weak_by_key YouTubeAPI.plainEngagement). intros a b _ _.
  unfold YouTubeAPI.byPlainEngagement. apply Z.gtb_ltb.
Qed.

Lemma top5_firstn (l : list Video.t) : top5 l = firstn 5 l.
Proof.
  unfold top5, len. destruct (5 <? Z.of_nat (length l)) eqn:E; [reflexivity|].
  apply Z.ltb_ge in E. rewrite firstn_all2 by lia. reflexivity.
Qed.

Lemma strict_weak_perm {A} (less : A -> A -> bool) l l' :
  Permutation l l' -> strict_weak less l -> strict_weak less l'.
Proof.
  intros Hp H. apply (strict_weak_incl _ _ _ H).
  intros x Hx. apply (Permutation_in _ (Permutation_sym Hp) Hx).
Qed.

Context {sorter : SliceSorter} (Hsort : SortContract sorter).

Lemma top5_ranked less (videos l : list Video.t) :
  Permutation l videos -> strict_weak less videos ->
  Ranked less videos (top5 (sort_Slice less l)).
Proof.
  intros Hp Hless. rewrite top5_firstn. exists (skipn 5 (sort_Slice less l)).
  rewrite firstn_skipn. split; [|split].
  - now rewrite (sort_Slice_perm Hsort).
  - apply (sort_Slice_ordered Hsort). now apply (strict_weak_perm _ videos l).
  - rewrite length_take, (sort_Slice_length Hsort), (Permutation_length Hp). reflexivity.
Qed.

Lemma trending_ranked (videos l : list Video.t) :
  Permutation l videos -> strict_weak byEngagementScore videos ->
  Ranked byEngagementScore videos (trending l).
Proof.
  intros Hp Hless. unfold trending. destruct (0 <? len l) eqn:E.
  - now apply top5_ranked.
  - apply Z.ltb_ge in E. unfold len in E. destruct l; [|simpl in E; lia].
    apply Permutation_nil in Hp. subst videos. exists []. repeat split; constructor.
Qed.

(** Without ties there is one ordered rearrangement only. *)
Lemma sort_Slice_unique less (videos l : list Video.t) :
  Permutation l videos -> strict_weak less videos ->
  (forall x y, In x videos -> In y videos ->
               less x y = false -> less y x = false -> x = y) ->
  sort_Slice less l = insertionSort less videos.
Proof.
  intros Hp Hless Hties.
  apply (StronglySorted_unique_strong (fun x y => less y x = false)).
  - intros x y Hx Hy Hxy Hyx. apply Hties; auto.
    + apply list_elem_of_In. now rewrite (sort_Slice_perm Hsort), Hp in Hx.
    + apply list_elem_of_In. now rewrite insertionSort_perm in Hy.
  - apply (sort_Slice_ordered Hsort). now apply (strict_weak_perm _ videos l).
  - now apply insertionSort_ordered.
  - now rewrite (sort_Slice_perm Hsort), insertionSort_perm.
Qed.

Lemma trending_without_ties (videos l : list Video.t) :
  Permutation l videos -> Forall nonNegative videos ->
  (forall x y, In x videos -> In y videos ->
     byEngagementScore x y = false -> byEngagementScore y x = false -> x = y) ->
  trending l = specTop5 videos.
Proof.
  intros Hp Hpl Hties. unfold trending, specTop5.
  destruct (0 <? len l) eqn:E.
  - rewrite top5_firstn. f_equal.
    apply sort_Slice_unique; [exact Hp|now apply strict_weak_score|exact Hties].
  - apply Z.ltb_ge in E. unfold len in E. destruct l; [|simpl in E; lia].
    apply Permutation_nil in Hp. now subst videos.
Qed.

End TopFive.

Lemma reversingSorter_contract : SortContract reversingSorter.
Proof.
  intros A less l. unfold sort_Slice, reversingSorter. split.
  - now rewrite insertionSort_perm, <- Permutation_rev.
  - intros Hless. apply insertionSort_ordered.
    apply (strict_weak_perm _ l); [apply Permutation_rev|exact Hless].
Qed.

Section TopFiveOutputs.

Context {sorter : SliceSorter} {parser : TimeParser}.

Lemma client_analytics_top channelID channel videos a :
  YouTubeClient.analyticsOf channelID channel videos = Ok a ->
  ChannelAnalytics.TopEngagingVideos a = top5 (sort_Slice byEngagementScore videos).
Proof.
  unfold YouTubeClient.analyticsOf. destruct (totals videos) as [[tv tl] tc].
  do 2 answered. now intros [= <-].
Qed.

Lemma client_trends_top now channelID channel videos t :
  YouTubeClient.trendsOf now channelID channel videos = Ok t ->
  ChannelTrends.TrendingVideos t = trending videos.
Proof.
  unfold YouTubeClient.trendsOf. answered. now intros [= <-].
Qed.

Lemma sdk_analytics_top now channelID channel stats allVideos videos a :
  mapR YouTubeAPI.convert allVideos = Ok videos ->
  YouTubeAPI.analyticsOf now channelID channel stats allVideos = Ok a ->
  ChannelAnalytics.TopEngagingVideos a
  = top5 (sort_Slice YouTubeAPI.byPlainEngagement videos).
Proof.
  intros Hconv. unfold YouTubeAPI.analyticsOf. rewrite Hconv. simpl bindR.
  destruct (totals videos) as [[tv tl] tc].
  destruct (if 0 <? len videos then _ else _) as [[s e]| |]; simpl bindR;
    try discriminate.
  do 2 answered. now intros [= <-].
Qed.

Lemma sdk_trends_top now channelID title allVideos videos t :
  mapR YouTubeAPI.convert allVideos = Ok videos ->
  YouTubeAPI.trendsOf now channelID title allVideos = Ok t ->
  ChannelTrends.TrendingVideos t
  = trending (sort_Slice (fun a b => After (Video.UploadDate a) (Video.UploadDate b)) videos).
Proof.
  intros Hconv. unfold YouTubeAPI.trendsOf. rewrite Hconv. simpl bindR.
  answered. now intros [= <-].
Qed.

End TopFiveOutputs.

(** C6, as the code has it.  The top five are the first [min 5 n]
    elements of the list rearranged by [sort.Slice] so that no video is
    outranked by a later one; fewer than five are returned only when the
    list has fewer than five.  The rank is the engagement score in the
    direct-client analytics and in both trends paths, and the unweighted
    sum [views + likes + comments] in the SDK analytics path.  When no two
    videos of the list tie (neither score exceeds the other), the
    score-ranked paths return exactly the stable descending order cut to
    five; the order among tied videos is whatever [sort.Slice] leaves.
    (Counts are non-negative, as the data model has them.) *)
Theorem top5_selection {sorter : SliceSorter} {parser : TimeParser}
    (videos : list Video.t) :
  SortContract sorter -> Forall nonNegative videos ->
  (forall channelID channel a,
     YouTubeClient.analyticsOf channelID channel videos = Ok a ->
     Ranked byEngagementScore videos (ChannelAnalytics.TopEngagingVideos a)) /\
  (forall now channelID channel t,
     YouTubeClient.trendsOf now channelID channel videos = Ok t ->
     Ranked byEngagementScore videos (ChannelTrends.TrendingVideos t)) /\
  (forall now channelID title allVideos t,
     mapR YouTubeAPI.convert allVideos = Ok videos ->
     YouTubeAPI.trendsOf now channelID title allVideos = Ok t ->
     Ranked byEngagementScore videos (ChannelTrends.TrendingVideos t)) /\
  (forall now channelID channel stats allVideos a,
     mapR YouTubeAPI.convert allVideos = Ok videos ->
     YouTubeAPI.analyticsOf now channelID channel stats allVideos = Ok a ->
     Ranked YouTubeAPI.byPlainEngagement videos (ChannelAnalytics.TopEngagingVideos a)) /\
  ((forall x y, In x videos -> In y videos ->
      byEngagementScore x y = false -> byEngagementScore y x = false -> x = y) ->
   (forall channelID channel a,
      YouTubeClient.analyticsOf channelID channel videos = Ok a ->
      ChannelAnalytics.TopEngagingVideos a = specTop5 videos) /\
   (forall now channelID channel t,
      YouTubeClient.trendsOf now channelID channel videos = Ok t ->
      ChannelTrends.TrendingVideos t = specTop5 videos) /\
   (forall now channelID title allVideos t,
      mapR YouTubeAPI.convert allVideos = Ok videos ->
      YouTubeAPI.trendsOf now channelID title allVideos = Ok t ->
      ChannelTrends.TrendingVideos t = specTop5 videos)).
Proof.
  intros Hsort Hpl.
  pose proof (strict_weak_score videos Hpl) as Hsw.
  assert (Hdate : Permutation
            (sort_Slice (fun a b => After (Video.UploadDate a) (Video.UploadDate b)) videos)
            videos) by apply (sort_Slice_perm Hsort).
  repeat split.
  - intros channelID channel a Ha. rewrite (client_analytics_top _ _ _ _ Ha).
    now apply top5_ranked.
  - intros now channelID channel t Ht. rewrite (client_trends_top _ _ _ _ _ Ht).
    now apply trending_ranked.
  - intros now channelID title allVideos t Hconv Ht.
    rewrite (sdk_trends_top _ _ _ _ _ _ Hconv Ht). now apply trending_ranked.
  - intros now channelID channel stats allVideos a Hconv Ha.
    rewrite (sdk_analytics_top _ _ _ _ _ _ _ Hconv Ha).
    apply top5_ranked; [exact Hsort|reflexivity|apply strict_weak_plain].
  - intros channelID channel a Ha. rewrite (client_analytics_top _ _ _ _ Ha).
    pose proof (trending_without_ties Hsort videos videos (Permutation_refl _) Hpl H) as Ht.
    unfold trending in Ht. destruct (0 <? len videos) eqn:E; [exact Ht|].
    apply Z.ltb_ge in E. unfold len in E. destruct videos; [|simpl in E; lia].
    now rewrite (sort_Slice_nil Hsort).
  - intros now channelID channel t Ht. rewrite (client_trends_top _ _ _ _ _ Ht).
    now apply trending_without_ties.
  - intros now channelID title allVideos t Hconv Ht.
    rewrite (sdk_trends_top _ _ _ _ _ _ Hconv Ht). now apply trending_without_ties.
Qed.

(** The three videos of the specification's scenario. *)
Definition scenario : list Video.t :=
  [Video.mk "a" "" "" 100 10 1 10 10 "" "" 100 10 1;
   Video.mk "b" "" "" 200 20 2 20 20 "" "" 200 20 2;
   Video.mk "c" "" "" 300 30 3 30 30 "" "" 300 30 3].

Lemma scenario_nonNegative : Forall nonNegative scenario.
Proof. repeat constructor; simpl; lia. Qed.

Lemma top5_selection_witness :
  SortContract insertionSorter /\ Forall nonNegative scenario /\
  forall t,
    YouTubeClient.trendsOf (sorter := insertionSorter)
      0 "UC1" (Channel.mk "UC1" "T" "" 0 0 3 "") scenario = Ok t ->
    Ranked byEngagementScore scenario (ChannelTrends.TrendingVideos t).
Proof.
  split; [exact insertionSorter_contract|]. split; [exact scenario_nonNegative|].
  exact (proj1 (proj2 (top5_selection (sorter := insertionSorter) (parser := parseUTC)
                         scenario insertionSorter_contract scenario_nonNegative))
           0 "UC1" (Channel.mk "UC1" "T" "" 0 0 3 "")).
Defined.

(** Two uploads: [a] with 10 views, [b] with 1 view and 4 comments.  The
    score ranks [b] (13) above [a] (10); the SDK analytics path ranks by
    the plain sum and puts [a] (10) above [b] (5). *)
Definition sdkVideo (id : string) (views likes comments : Z) : option youtube.Video.t :=
  Some (youtube.Video.mk id
          (Some (youtube.VideoSnippet.mk id "" "2024-02-29T12:00:01Z" ""))
          (Some (youtube.VideoStatistics.mk views likes comments))
          (Some (youtube.VideoContentDetails.mk "PT1M"))).

Lemma sdk_top5_ranks_by_plain_sum :
  let channel :=
    youtube.Channel.mk "UC1" (Some (youtube.ChannelSnippet.mk "T" "" ""))
      (Some (youtube.ChannelStatistics.mk 0 0 2)) (Some (Some "UU1")) in
  let stats := Some (youtube.ChannelStatistics.mk 0 0 2) in
  let allVideos := [sdkVideo "a" 10 0 0; sdkVideo "b" 1 0 4] in
  exists videos a,
    mapR (YouTubeAPI.convert (parser := parseUTC)) allVideos = Ok videos /\
    YouTubeAPI.analyticsOf (sorter := insertionSorter) (parser := parseUTC)
      0 "UC1" channel stats allVideos = Ok a /\
    map Video.ID (ChannelAnalytics.TopEngagingVideos a) = ["a"; "b"] /\
    map Video.ID (specTop5 videos) = ["b"; "a"].
Proof. do 2 eexists. split; [reflexivity|]. split; [vm_compute; reflexivity|]. split; reflexivity. Qed.

(** The contract of [sort.Slice] does not fix the order of ties: a sorter
    that meets it returns two tied videos in reverse input order. *)
Lemma ties_need_not_keep_input_order :
  let a := Video.mk "a" "" "" 10 1 0 0 0 "" "" 10 1 0 in
  let b := Video.mk "b" "" "" 12 0 0 0 0 "" "" 12 0 0 in
  SortContract reversingSorter /\
  EngagementScore a = EngagementScore b /\
  map Video.ID (trending (sorter := reversingSorter) [a; b]) = ["b"; "a"] /\
  map Video.ID (specTop5 [a; b]) = ["a"; "b"].
Proof.
  cbv zeta. split; [exact reversingSorter_contract|]. repeat split.
Qed.

(** ** The video listing *)

(** The comparison that goes with a sort key. *)
Definition lessBy (sortBy : VideoSortOption) (a b : Video.t) : bool :=
  if String.eqb sortBy SortByViews then Video.Views a >? Video.Views b
  else if String.eqb sortBy SortByLikes then Video.Likes a >? Video.Likes b
  else After (Video.UploadDate a) (Video.UploadDate b).

Definition knownSort (sortBy : VideoSortOption) : Prop :=
  sortBy = SortByViews \/ sortBy = SortByLikes \/ sortBy = SortByRecency.

Definition meetsThresholds (filter : VideoFilter.t) (v : Video.t) : Prop :=
  VideoFilter.MinViews filter <= Video.Views v /\
  VideoFilter.MinLikes filter <= Video.Likes v.

(** [top] is the head, of length [min n |videos|], of a rearrangement of
    [videos] that is in order. *)
Definition TopOf (n : nat) (less : Video.t -> Video.t -> bool)
    (videos top : list Video.t) : Prop :=
  exists rest,
    Permutation (top ++ rest) videos /\
    ordered less (top ++ rest) /\
    length top = Nat.min n (length videos).

(** The listing of the specification over all the videos of a channel:
    filter, sort (stably), then cut to [MaxVideos]. *)
Definition specListing (filter : VideoFilter.t) (allVideos : list Video.t) : list Video.t :=
  firstn (Z.to_nat (VideoFilter.MaxVideos filter))
    (insertionSort (lessBy (VideoFilter.SortBy filter))
       (List.filter (passes filter) allVideos)).

Section Listing.

Context {sorter : SliceSorter} {parser : TimeParser}.

Lemma passes_thresholds filter v : passes filter v = true <-> meetsThresholds filter v.
Proof.
  unfold passes, meetsThresholds.
  rewrite negb_true_iff, orb_false_iff, !Z.ltb_ge. reflexivity.
Qed.

Lemma sortVideos_known filter videos :
  knownSort (VideoFilter.SortBy filter) ->
  sortVideos filter videos = sort_Slice (lessBy (VideoFilter.SortBy filter)) videos.
Proof.
  unfold sortVideos, lessBy. intros [-> | [-> | ->]]; reflexivity.
Qed.

Lemma strict_weak_lessBy sortBy (videos : list Video.t) : strict_weak (lessBy sortBy) videos.
Proof.
  unfold lessBy. destruct (String.eqb sortBy SortByViews).
  - apply (strict_weak_by_key Video.Views). intros a b _ _. apply Z.gtb_ltb.
  - destruct (String.eqb sortBy SortByLikes).
    + apply (strict_weak_by_key Video.Likes). intros a b _ _. apply Z.gtb_ltb.
    + apply (strict_weak_by_key Video.UploadDate). now intros a b _ _.
Qed.

Lemma filterOf_known q : knownSort (VideoFilter.SortBy (YouTubeAPI.filterOf q)).
Proof.
  unfold YouTubeAPI.filterOf, knownSort. simpl.
  destruct (String.eqb _ "views"); [now left|].
  destruct (String.eqb _ "likes"); [right; now left|right; now right].
Qed.

Lemma filterOf_max q : 0 < VideoFilter.MaxVideos (YouTubeAPI.filterOf q).
Proof.
  unfold YouTubeAPI.filterOf. simpl. destruct (YouTubeAPI.Query.maxVideos q) as [n|]; [|lia].
  destruct (0 <? n) eqn:E; [now apply Z.ltb_lt in E|lia].
Qed.

Lemma cut_firstn (l : list Video.t) (n : Z) :
  0 <= n -> (if n <? len l then slice_to l n else Ok l) = Ok (firstn (Z.to_nat n) l).
Proof.
  intros Hn. unfold slice_to, len. destruct (n <? Z.of_nat (length l)) eqn:E.
  - apply Z.ltb_lt in E.
    assert ((n <? 0) = false) as -> by (apply Z.ltb_ge; lia).
    assert ((Z.of_nat (length l) <? n) = false) as -> by (apply Z.ltb_ge; lia).
    reflexivity.
  - apply Z.ltb_ge in E. rewrite firstn_all2 by lia. reflexivity.
Qed.

(** A 200 answer of the listing handler is the empty list of a channel
    without videos, or the selection made from the fetched videos. *)
Lemma GetChannelVideos_answer (service : youtube.Service.t) channelID q w r w' :
  YouTubeAPI.GetChannelVideos service channelID q w = (JSON StatusOK r, w') ->
  r = [] \/
  exists allVideos, YouTubeAPI.selectVideos (YouTubeAPI.filterOf q) allVideos = Ok r.
Proof.
  unfold YouTubeAPI.GetChannelVideos, YouTubeAPI.bind, YouTubeAPI.ret.
  destruct (String.eqb channelID ""); [discriminate|].
  destruct (YouTubeAPI.getChannelInfo service channelID w) as [[channel|e|e] w1];
    try discriminate.
  destruct (youtube.Channel.ContentDetails channel) as [[uploads|]|]; try discriminate.
  destruct (String.eqb uploads ""); [discriminate|].
  destruct (YouTubeAPI.getAllVideos service channelID w1) as [[allVideos|e|e] w2];
    try discriminate.
  destruct (len allVideos =? 0).
  - intros [= <- _]. now left.
  - destruct (YouTubeAPI.selectVideos _ allVideos) as [videos|e|e] eqn:Hsel;
      try discriminate.
    intros [= <- _]. right. now exists allVideos.
Qed.

Hypothesis Hsort : SortContract sorter.

Lemma firstn_sorted_TopOf n less (videos : list Video.t) :
  strict_weak less videos ->
  TopOf n less videos (firstn n (sort_Slice less videos)).
Proof.
  intros Hless. exists (skipn n (sort_Slice less videos)).
  rewrite firstn_skipn. split; [|split].
  - apply (sort_Slice_perm Hsort).
  - now apply (sort_Slice_ordered Hsort).
  - now rewrite length_take, (sort_Slice_length Hsort).
Qed.

Lemma ordered_firstn {A} (less : A -> A -> bool) n l :
  ordered less l -> ordered less (firstn n l).
Proof.
  unfold ordered. intros H. rewrite <- (firstn_skipn n l) in H.
  now apply StronglySorted_app_1_l in H.
Qed.

End Listing.

(** C9, as the code has it.  Every video a listing returns meets both
    thresholds, and for the three sort keys the list is in descending
    order of the key.  The cache-free handler ([YouTubeAPI.GetChannelVideos],
    whose filter always has a known key and a positive [MaxVideos])
    filters and sorts all fetched videos and then keeps the first
    [MaxVideos], so its answer is never longer than that.  The direct client ([YouTubeClient.GetChannelVideos])
    cuts the identifier list to [MaxVideos] before it requests details:
    its result is the filtered, sorted detail answers for those
    identifiers, and it is not cut after sorting. *)
Theorem listing_postcondition {sorter : SliceSorter} {parser : TimeParser} :
  SortContract sorter ->
  (forall (q : YouTubeAPI.Query.t) (allVideos : list (option youtube.Video.t)),
     let filter := YouTubeAPI.filterOf q in
     let filtered := List.filter (passes filter) (omap YouTubeAPI.convertChecked allVideos) in
     exists r,
       YouTubeAPI.selectVideos filter allVideos = Ok r /\
       r = firstn (Z.to_nat (VideoFilter.MaxVideos filter)) (sortVideos filter filtered) /\
       TopOf (Z.to_nat (VideoFilter.MaxVideos filter))
         (lessBy (VideoFilter.SortBy filter)) filtered r /\
       Forall (meetsThresholds filter) r /\
       ordered (lessBy (VideoFilter.SortBy filter)) r) /\
  (forall (c : YouTubeClient.t) channelID filter r,
     knownSort (VideoFilter.SortBy filter) ->
     YouTubeClient.GetChannelVideos c channelID filter = Ok r ->
     exists uploads others allVideoIDs fetched,
       YouTubeClient.getUploads c channelID = Ok (uploads :: others) /\
       YouTubeClient.collectIDs (VideoFilter.MaxVideos filter)
         (YouTubeClient.getPlaylistItems c uploads) [] = Ok allVideoIDs /\
       YouTubeClient.fetchDetails c filter
         (YouTubeClient.batches
            (length (firstn (Z.to_nat (VideoFilter.MaxVideos filter)) allVideoIDs))
            (firstn (Z.to_nat (VideoFilter.MaxVideos filter)) allVideoIDs)) []
       = Ok fetched /\
       r = sortVideos filter fetched /\
       Permutation r fetched /\
       Forall (meetsThresholds filter) r /\
       ordered (lessBy (VideoFilter.SortBy filter)) r) /\
  (forall (service : youtube.Service.t) channelID q w r w',
     YouTubeAPI.GetChannelVideos service channelID q w = (JSON StatusOK r, w') ->
     let filter := YouTubeAPI.filterOf q in
     Forall (meetsThresholds filter) r /\
     ordered (lessBy (VideoFilter.SortBy filter)) r /\
     len r <= VideoFilter.MaxVideos filter).
Proof.
  intros Hsort.
  assert (Hselect : forall (q : YouTubeAPI.Query.t) (allVideos : list (option youtube.Video.t)),
     let filter := YouTubeAPI.filterOf q in
     let filtered := List.filter (passes filter) (omap YouTubeAPI.convertChecked allVideos) in
     exists r,
       YouTubeAPI.selectVideos filter allVideos = Ok r /\
       r = firstn (Z.to_nat (VideoFilter.MaxVideos filter)) (sortVideos filter filtered) /\
       TopOf (Z.to_nat (VideoFilter.MaxVideos filter))
         (lessBy (VideoFilter.SortBy filter)) filtered r /\
       Forall (meetsThresholds filter) r /\
       ordered (lessBy (VideoFilter.SortBy filter)) r);
    [|split; [exact Hselect|split]].
  - intros q allVideos filter filtered.
    pose proof (filterOf_known q) as Hknown. pose proof (filterOf_max q) as Hmax.
    fold filter in Hknown, Hmax.
    exists (firstn (Z.to_nat (VideoFilter.MaxVideos filter)) (sortVideos filter filtered)).
    assert (Hall : Forall (meetsThresholds filter) (sortVideos filter filtered)).
    { apply (sortVideos_Forall Hsort). apply Forall_forall. intros v Hv.
      apply list_elem_of_In, filter_In in Hv as [_ Hv]. now apply passes_thresholds. }
    split; [|split; [reflexivity|split; [|split]]].
    + unfold YouTubeAPI.selectVideos. fold filter. fold filtered.
      apply cut_firstn. lia.
    + rewrite (sortVideos_known _ _ Hknown).
      apply (firstn_sorted_TopOf Hsort). apply strict_weak_lessBy.
    + now apply Forall_take.
    + apply ordered_firstn. rewrite (sortVideos_known _ _ Hknown).
      apply (sort_Slice_ordered Hsort). apply strict_weak_lessBy.
  - intros c channelID filter r Hknown Hr.
    apply GetChannelVideos_inv in Hr
      as (uploads & others & ids & fetched & Hup & Hids & Hf & ->).
    exists uploads, others, ids, fetched.
    repeat (split; [assumption || reflexivity|]).
    split; [apply (sortVideos_perm Hsort)|]. split.
    + apply (sortVideos_Forall Hsort).
      apply (Forall_impl (fun v => passes filter v = true)).
      * eapply (fetchDetails_passes c filter _ [] fetched); [constructor|exact Hf].
      * intros v. apply passes_thresholds.
    + rewrite (sortVideos_known _ _ Hknown).
      apply (sort_Slice_ordered Hsort). apply strict_weak_lessBy.
  - intros service channelID q w r w' Hr filter. subst filter.
    pose proof (filterOf_max q) as Hmax.
    apply GetChannelVideos_answer in Hr as [-> | [allVideos Hsel]].
    + split; [constructor|split; [constructor|]].
      now apply Z.lt_le_incl.
    + destruct (Hselect q allVideos) as (r' & Hr' & Hcut & _ & Hall & Hord).
      rewrite Hsel in Hr'. injection Hr' as <-.
      repeat split; [exact Hall|exact Hord|].
      rewrite Hcut. unfold len. rewrite length_take. lia.
Qed.

(** A channel with two uploads, listed oldest first. *)
Definition twoVideoClient : YouTubeClient.t :=
  YouTubeClient.mk
    (fun _ => Ok (Channel.mk "UC1" "Two" "" 0 0 2 ""))
    (fun _ => Ok ["UU1"])
    (fun _ => [Ok ["old"; "new"]])
    (fun ids =>
       Ok (map (fun id =>
                  YouTubeClient.VideoItem.mk id id ""
                    (if String.eqb id "new" then nextDay else 0) "" "PT1M" "7" "1" "0")
               ids)).

Lemma listing_postcondition_witness :
  SortContract insertionSorter /\
  exists r,
    YouTubeAPI.selectVideos (sorter := insertionSorter) (parser := parseUTC)
      (YouTubeAPI.filterOf (YouTubeAPI.Query.mk "views" (Some 1) (Some 5) None))
      [sdkVideo "a" 10 0 0; sdkVideo "b" 1 0 4; sdkVideo "c" 20 1 1] = Ok r /\
    Forall (meetsThresholds
              (YouTubeAPI.filterOf (YouTubeAPI.Query.mk "views" (Some 1) (Some 5) None))) r.
Proof.
  split; [exact insertionSorter_contract|].
  destruct (proj1 (listing_postcondition (sorter := insertionSorter) (parser := parseUTC)
                     insertionSorter_contract)
              (YouTubeAPI.Query.mk "views" (Some 1) (Some 5) None)
              [sdkVideo "a" 10 0 0; sdkVideo "b" 1 0 4; sdkVideo "c" 20 1 1])
    as (r & Hr & _ & _ & Hall & _).
  exists r. split; assumption.
Defined.

(** With [MaxVideos = 1] and the recency key the direct client answers
    with the first identifier's video, the older one; the first element
    of the sorted filtered set is the newer one. *)
Lemma client_listing_cuts_before_sorting :
  let filter := VideoFilter.mk SortByRecency 1 0 0 in
  let old :=
    YouTubeClient.toVideo (parser := parseUTC)
      (YouTubeClient.VideoItem.mk "old" "old" "" 0 "" "PT1M" "7" "1" "0") in
  let new :=
    YouTubeClient.toVideo (parser := parseUTC)
      (YouTubeClient.VideoItem.mk "new" "new" "" nextDay "" "PT1M" "7" "1" "0") in
  YouTubeClient.GetChannelVideos (sorter := insertionSorter) (parser := parseUTC)
    twoVideoClient "UC1" filter = Ok [old] /\
  specListing filter [old; new] = [new].
Proof. vm_compute. split; reflexivity. Qed.

(** * The cache across requests *)

(** A computation that may read the clock and send requests upstream, but
    leaves the database and the clock as they are. *)
Definition keepsStore {A} (m : YouTubeAPI.M A) : Prop :=
  forall w,
    YouTubeAPI.db (snd (m w)) = YouTubeAPI.db w /\
    YouTubeAPI.clock (snd (m w)) = YouTubeAPI.clock w.

(** The world of a later request: the clock has moved on to [now]. *)
Definition later (now : Time) (w : YouTubeAPI.World) : YouTubeAPI.World :=
  {| YouTubeAPI.db := YouTubeAPI.db w;
     YouTubeAPI.clock := now;
     YouTubeAPI.requests := YouTubeAPI.requests w |}.

(** The row a handler hands to [StoreEngagement]. *)
Definition snapshotOf (channelID : string) (ty : EngagementType) (json : string)
    : ChannelEngagement.t :=
  ChannelEngagement.mk 0 channelID ty zeroTime zeroTime json.

Create HintDb store.

Section KeepsStore.

Context {sorter : SliceSorter} {parser : TimeParser}.
Variable service : youtube.Service.t.

Lemma keepsStore_ret {A} (a : A) : keepsStore (YouTubeAPI.ret a).
Proof. intros w. split; reflexivity. Qed.

Lemma keepsStore_request {A} (a : A) : keepsStore (YouTubeAPI.request a).
Proof. intros w. split; reflexivity. Qed.

Lemma keepsStore_Now : keepsStore YouTubeAPI.Now.
Proof. intros w. split; reflexivity. Qed.

Lemma keepsStore_bind {A B} (m : YouTubeAPI.M A) (k : A -> YouTubeAPI.M B) :
  keepsStore m -> (forall a, keepsStore (k a)) -> keepsStore (YouTubeAPI.bind m k).
Proof.
  intros Hm Hk w. unfold YouTubeAPI.bind.
  destruct (m w) as [a w'] eqn:E.
  destruct (Hm w) as [Hd Hc]. rewrite E in Hd, Hc. simpl in Hd, Hc.
  destruct (Hk a w') as [Hd' Hc']. split; congruence.
Qed.

Lemma keepsStore_bindMR {A B} wrap (m : YouTubeAPI.M (result A))
    (k : A -> YouTubeAPI.M (result B)) :
  keepsStore m -> (forall a, keepsStore (k a)) -> keepsStore (YouTubeAPI.bindMR wrap m k).
Proof.
  intros Hm Hk. unfold YouTubeAPI.bindMR. apply keepsStore_bind; [exact Hm|].
  intros [a|e|e]; [apply Hk | apply keepsStore_ret | apply keepsStore_ret].
Qed.

Hint Resolve keepsStore_ret keepsStore_request keepsStore_Now : store.

Lemma keepsStore_getChannelInfo channelID :
  keepsStore (YouTubeAPI.getChannelInfo service channelID).
Proof.
  unfold YouTubeAPI.getChannelInfo. apply keepsStore_bind; auto with store.
Qed.

Lemma keepsStore_getChannelStatistics channelID :
  keepsStore (YouTubeAPI.getChannelStatistics service channelID).
Proof.
  unfold YouTubeAPI.getChannelStatistics.
  apply keepsStore_bindMR; auto using keepsStore_getChannelInfo with store.
Qed.

Lemma keepsStore_fetchPages pages acc :
  keepsStore (YouTubeAPI.fetchPages service pages acc).
Proof.
  revert acc. induction pages as [|page rest IH]; intros acc; simpl; auto with store.
  apply keepsStore_bindMR; auto with store. intros items.
  destruct (len items =? 0); auto with store.
  apply keepsStore_bindMR.
  - destruct (0 <? len _); auto with store.
  - intros found. destruct (len rest =? 0); auto with store.
Qed.

Lemma keepsStore_getAllVideos channelID :
  keepsStore (YouTubeAPI.getAllVideos service channelID).
Proof.
  unfold YouTubeAPI.getAllVideos.
  apply keepsStore_bindMR; [apply keepsStore_getChannelInfo|].
  intros channel. destruct (youtube.Channel.ContentDetails channel) as [[playlistID|]|];
    auto with store.
  destruct (String.eqb playlistID ""); auto using keepsStore_fetchPages with store.
Qed.

Lemma keepsStore_getChannelAnalytics channelID :
  keepsStore (YouTubeAPI.getChannelAnalytics service channelID).
Proof.
  unfold YouTubeAPI.getChannelAnalytics.
  apply keepsStore_bindMR; [apply keepsStore_getChannelInfo|]. intros channel.
  apply keepsStore_bindMR; [apply keepsStore_getChannelStatistics|]. intros stats.
  apply keepsStore_bindMR; [apply keepsStore_getAllVideos|]. intros allVideos.
  apply keepsStore_bind; auto with store.
Qed.

Lemma keepsStore_getChannelTrends channelID :
  keepsStore (YouTubeAPI.getChannelTrends service channelID).
Proof.
  unfold YouTubeAPI.getChannelTrends.
  apply keepsStore_bindMR; [apply keepsStore_getChannelInfo|]. intros channel.
  destruct (deref _); auto with store.
  apply keepsStore_bindMR; [apply keepsStore_getAllVideos|]. intros apiVideos.
  apply keepsStore_bind; auto with store.
Qed.

End KeepsStore.

Section StoreFacts.

(** [CURRENT_TIMESTAMP] drops the fraction of a second, so it stays on the
    calendar day of the instant. *)
Lemma CURRENT_TIMESTAMP_same_day now : utcDay (CURRENT_TIMESTAMP now) = utcDay now.
Proof.
  unfold utcDay, CURRENT_TIMESTAMP, nanosPerDay.
  rewrite (Z.mul_comm 86400), <- !Z.div_div by (unfold nanosPerSecond; lia).
  f_equal.
  rewrite (Z.div_mod now nanosPerSecond) at 1 by (unfold nanosPerSecond; lia).
  replace (nanosPerSecond * (now / nanosPerSecond) + now mod nanosPerSecond
           - now mod nanosPerSecond)
    with ((now / nanosPerSecond) * nanosPerSecond) by lia.
  apply Z.div_mul. unfold nanosPerSecond. lia.
Qed.

Lemma StoreEngagement_offline d now e :
  Database.online d = false ->
  snd (StoreEngagement d now e) = d /\ exists msg, fst (StoreEngagement d now e) = Err msg.
Proof. intros H. unfold StoreEngagement. rewrite H. simpl. eauto. Qed.

Lemma count_key_zero c ty rows :
  (0 <? len (List.filter (has_key c ty) rows)) = false ->
  (c, ty) ∉ map key rows.
Proof.
  intros Hcount Hin. apply list_elem_of_fmap in Hin as (row & Hk & Hrow).
  assert (Hf : row ∈ List.filter (has_key c ty) rows).
  { apply list_elem_of_In, filter_In. split; [now apply list_elem_of_In|].
    now apply has_key_true. }
  destruct (List.filter (has_key c ty) rows); [inversion Hf|].
  unfold len in Hcount. simpl in Hcount. apply Z.ltb_ge in Hcount. lia.
Qed.

Lemma count_key_pos c ty rows :
  (0 <? len (List.filter (has_key c ty) rows)) = true ->
  exists row, row ∈ rows /\ key row = (c, ty).
Proof.
  intros Hcount.
  destruct (List.filter (has_key c ty) rows) as [|row l] eqn:E; [discriminate|].
  assert (Hin : In row (List.filter (has_key c ty) rows)) by (rewrite E; now left).
  apply filter_In in Hin as [Hin Hk].
  exists row. split; [now apply list_elem_of_In | now apply has_key_true].
Qed.

Lemma StoreEngagement_keeps_unique d now e :
  unique_keys (Database.rows d) ->
  unique_keys (Database.rows (snd (StoreEngagement d now e))).
Proof.
  intros Hinv. unfold StoreEngagement.
  destruct (Database.online d); simpl; [|exact Hinv].
  destruct (0 <? len _) eqn:Hcount; simpl.
  - unfold unique_keys. rewrite map_map.
    erewrite map_ext; [exact Hinv|]. intros r. apply key_update_row.
  - destruct (check_engagement_type _); simpl; [|exact Hinv].
    unfold unique_keys. rewrite map_app. simpl.
    apply NoDup_app. split; [exact Hinv|]. split; [|apply NoDup_singleton].
    intros k Hk Hk'. apply list_elem_of_singleton in Hk'. subst k.
    now apply (count_key_zero _ _ _ Hcount).
Qed.

(** Rows of other keys keep their place and their content. *)
Lemma StoreEngagement_frame d now e i r :
  Database.rows d !! i = Some r -> key r <> key e ->
  Database.rows (snd (StoreEngagement d now e)) !! i = Some r.
Proof.
  intros Hi Hk. unfold StoreEngagement.
  destruct (Database.online d); simpl; [|exact Hi].
  destruct (0 <? len _); simpl.
  - rewrite list_lookup_fmap, Hi. simpl. f_equal.
    unfold update_row.
    now assert (has_key (ChannelEngagement.ChannelID e)
                  (ChannelEngagement.EngagementType e) r = false) as ->
      by now apply has_key_false.
  - destruct (check_engagement_type _); simpl; [|exact Hi].
    now apply lookup_app_l_Some.
Qed.

Lemma StoreEngagement_length d now e :
  (length (Database.rows d) <= length (Database.rows (snd (StoreEngagement d now e)))
   <= S (length (Database.rows d)))%nat.
Proof.
  unfold StoreEngagement.
  destruct (Database.online d); simpl; [|lia].
  destruct (0 <? len _); simpl; [rewrite length_map; lia|].
  destruct (check_engagement_type _); simpl; [|lia].
  rewrite length_app. simpl. lia.
Qed.

(** On a live connection a snapshot of an admitted kind is stored: the
    table then holds a row of its key with its payload, updated now. *)
Lemma StoreEngagement_stored d now e :
  Database.online d = true ->
  check_engagement_type (ChannelEngagement.EngagementType e) = true ->
  fst (StoreEngagement d now e) = Ok tt /\
  Database.online (snd (StoreEngagement d now e)) = true /\
  exists row,
    row ∈ Database.rows (snd (StoreEngagement d now e)) /\
    key row = key e /\
    ChannelEngagement.UpdateDate row = CURRENT_TIMESTAMP now /\
    ChannelEngagement.JSONResponse row = ChannelEngagement.JSONResponse e.
Proof.
  intros Hon Hty. unfold StoreEngagement. rewrite Hon, Hty. simpl.
  destruct (0 <? len _) eqn:Hcount; simpl.
  - split; [reflexivity|]. split; [reflexivity|].
    apply count_key_pos in Hcount as (row & Hrow & Hk).
    exists (update_row (ChannelEngagement.ChannelID e) (ChannelEngagement.EngagementType e)
              (ChannelEngagement.JSONResponse e) (CURRENT_TIMESTAMP now) row).
    split; [now apply list_elem_of_fmap_2|].
    rewrite key_update_row. split; [exact Hk|].
    unfold update_row.
    assert (has_key (ChannelEngagement.ChannelID e)
              (ChannelEngagement.EngagementType e) row = true) as ->
      by now apply has_key_true.
    split; reflexivity.
  - split; [reflexivity|]. split; [reflexivity|].
    eexists. split; [apply elem_of_app; right; apply list_elem_of_here|].
    repeat split.
Qed.

End StoreFacts.

Section GateRuns.

Context {A : Type} {codec : YouTubeAPI.JSONCodec A}.
Variables (ty : EngagementType) (compute : string -> YouTubeAPI.M (result A)).
Variable marshalFailure : string.
Hypothesis Hkeep : forall channelID, keepsStore (compute channelID).

(** The world a miss leaves: the snapshot went through [StoreEngagement],
    the requests of the computation were sent. *)
Definition stored (channelID json : string) (w w' : YouTubeAPI.World) : YouTubeAPI.World :=
  {| YouTubeAPI.db :=
       snd (StoreEngagement (YouTubeAPI.db w) (YouTubeAPI.clock w)
              (snapshotOf channelID ty json));
     YouTubeAPI.clock := YouTubeAPI.clock w;
     YouTubeAPI.requests := YouTubeAPI.requests w' |}.

Lemma cacheGated_served channelID w (cached : A) :
  channelID <> "" ->
  YouTubeAPI.servedFromCache (YouTubeAPI.clock w)
    (GetLatestEngagement (YouTubeAPI.db w) channelID ty) = Some cached ->
  YouTubeAPI.cacheGated ty compute marshalFailure channelID w = (JSON StatusOK cached, w).
Proof.
  intros Hid Hhit. unfold YouTubeAPI.cacheGated.
  apply String.eqb_neq in Hid. rewrite Hid.
  unfold YouTubeAPI.bind, YouTubeAPI.getLatestEngagement, YouTubeAPI.Now.
  now rewrite Hhit.
Qed.

Lemma cacheGated_miss channelID w :
  channelID <> "" ->
  @YouTubeAPI.servedFromCache A codec (YouTubeAPI.clock w)
    (GetLatestEngagement (YouTubeAPI.db w) channelID ty) = None ->
  YouTubeAPI.cacheGated ty compute marshalFailure channelID w =
    match compute channelID w with
    | (Ok value, w') =>
        match YouTubeAPI.Marshal value with
        | Ok json => (JSON StatusOK value, stored channelID json w w')
        | _ => (JSONError StatusInternalServerError marshalFailure, w')
        end
    | (Err e, w') => (JSONError StatusInternalServerError e, w')
    | (Panic e, w') => (Aborted e, w')
    end.
Proof.
  intros Hid Hmiss. unfold YouTubeAPI.cacheGated.
  apply String.eqb_neq in Hid. rewrite Hid.
  unfold YouTubeAPI.bind, YouTubeAPI.getLatestEngagement, YouTubeAPI.Now.
  rewrite Hmiss.
  destruct (Hkeep channelID w) as [Hd Hc].
  destruct (compute channelID w) as [[value|e|e] w']; simpl in Hd, Hc; try reflexivity.
  destruct (YouTubeAPI.Marshal value) as [json|e|e]; try reflexivity.
  unfold YouTubeAPI.storeEngagement, YouTubeAPI.ret, stored, snapshotOf.
  rewrite Hd, Hc.
  now destruct (StoreEngagement _ _ _).
Qed.

(** The date is all the gate reads of the clock. *)
Lemma servedFromCache_day now now' lookup :
  utcDay now' = utcDay now ->
  @YouTubeAPI.servedFromCache A codec now' lookup
  = YouTubeAPI.servedFromCache now lookup.
Proof.
  intros Hday. unfold YouTubeAPI.servedFromCache.
  now rewrite (formatDate_same_day _ _ Hday).
Qed.

(** What a run does to the database: nothing, or one [StoreEngagement] of
    a snapshot of the requested key. *)
Lemma cacheGated_db channelID w :
  let w1 := snd (YouTubeAPI.cacheGated ty compute marshalFailure channelID w) in
  YouTubeAPI.clock w1 = YouTubeAPI.clock w /\
  (YouTubeAPI.db w1 = YouTubeAPI.db w \/
   exists json,
     YouTubeAPI.db w1
     = snd (StoreEngagement (YouTubeAPI.db w) (YouTubeAPI.clock w)
              (snapshotOf channelID ty json))).
Proof.
  cbv zeta. destruct (String.eqb channelID "") eqn:Hid.
  { unfold YouTubeAPI.cacheGated. rewrite Hid. simpl. auto. }
  apply String.eqb_neq in Hid.
  destruct (@YouTubeAPI.servedFromCache A codec (YouTubeAPI.clock w)
              (GetLatestEngagement (YouTubeAPI.db w) channelID ty)) as [cached|] eqn:Hs.
  - rewrite (cacheGated_served _ _ _ Hid Hs). simpl. auto.
  - rewrite (cacheGated_miss _ _ Hid Hs).
    destruct (Hkeep channelID w) as [Hd Hc].
    destruct (compute channelID w) as [[value|e|e] w']; simpl in *; auto.
    destruct (YouTubeAPI.Marshal value) as [json|e|e]; simpl; auto.
    split; [reflexivity|]. right. now exists json.
Qed.

Hypothesis Hty : check_engagement_type ty = true.

(** A 200 answer is served again, unchanged and without any request, for
    the rest of the UTC day. *)
Lemma cacheGated_again channelID w w1 (a : A) now2 :
  Database.online (YouTubeAPI.db w) = true ->
  unique_keys (Database.rows (YouTubeAPI.db w)) ->
  utcDay now2 = utcDay (YouTubeAPI.clock w) ->
  (forall json, YouTubeAPI.Marshal a = Ok json -> YouTubeAPI.Unmarshal json = Ok a) ->
  YouTubeAPI.cacheGated ty compute marshalFailure channelID w = (JSON StatusOK a, w1) ->
  YouTubeAPI.cacheGated ty compute marshalFailure channelID (later now2 w1)
  = (JSON StatusOK a, later now2 w1).
Proof.
  intros Hon Hinv Hday Hcodec Hrun.
  destruct (String.eqb channelID "") eqn:Hid.
  { unfold YouTubeAPI.cacheGated in Hrun. rewrite Hid in Hrun. discriminate. }
  apply String.eqb_neq in Hid.
  destruct (@YouTubeAPI.servedFromCache A codec (YouTubeAPI.clock w)
              (GetLatestEngagement (YouTubeAPI.db w) channelID ty)) as [cached|] eqn:Hs.
  - rewrite (cacheGated_served _ _ _ Hid Hs) in Hrun. injection Hrun as -> ->.
    apply cacheGated_served; [exact Hid|]. simpl.
    now rewrite (servedFromCache_day _ _ _ Hday).
  - rewrite (cacheGated_miss _ _ Hid Hs) in Hrun.
    destruct (compute channelID w) as [[value|e|e] w']; try discriminate.
    destruct (YouTubeAPI.Marshal value) as [json|e|e] eqn:Hm; try discriminate.
    injection Hrun as -> <-.
    destruct (StoreEngagement_stored (YouTubeAPI.db w) (YouTubeAPI.clock w)
                (snapshotOf channelID ty json) Hon Hty)
      as (_ & Hon' & row & Hrow & Hkey & Hupd & Hjson).
    apply (cacheGated_hit ty compute marshalFailure channelID _ row); simpl; auto.
    + now apply StoreEngagement_keeps_unique.
    + rewrite Hupd, CURRENT_TIMESTAMP_same_day. now symmetry.
    + rewrite Hjson. simpl. now apply Hcodec.
Qed.

(** With the connection down the gate is transparent: the answer is the
    answer of the computation, the database is not touched. *)
Lemma cacheGated_offline channelID w :
  channelID <> "" ->
  Database.online (YouTubeAPI.db w) = false ->
  YouTubeAPI.cacheGated ty compute marshalFailure channelID w =
    (match fst (compute channelID w) with
     | Ok value =>
         match YouTubeAPI.Marshal value with
         | Ok _ => JSON StatusOK value
         | _ => JSONError StatusInternalServerError marshalFailure
         end
     | Err e => JSONError StatusInternalServerError e
     | Panic e => Aborted e
     end,
     snd (compute channelID w)).
Proof.
  intros Hid Hoff.
  rewrite cacheGated_miss; [|exact Hid|].
  2:{ unfold GetLatestEngagement. now rewrite Hoff. }
  destruct (Hkeep channelID w) as [Hd Hc].
  destruct (compute channelID w) as [[value|e|e] w']; simpl in *; try reflexivity.
  destruct (YouTubeAPI.Marshal value) as [json|e|e]; try reflexivity.
  f_equal. unfold stored.
  rewrite (proj1 (StoreEngagement_offline _ _ _ Hoff)), <- Hd, <- Hc.
  now destruct w'.
Qed.

End GateRuns.

(** X1. Once the analytics or the trends handler has answered 200 for a
    channel (from the cache or after a computation), every later request
    for that channel on the same UTC day gets the same body from the cache
    and changes nothing: no request goes upstream and nothing is stored.
    The table is assumed to hold one row per key over a live connection,
    and the body to survive encoding and decoding. *)
Theorem cached_answer_is_served_for_the_day
    {sorter : SliceSorter} {parser : TimeParser}
    {analyticsCodec : YouTubeAPI.JSONCodec ChannelAnalytics.t}
    {trendsCodec : YouTubeAPI.JSONCodec ChannelTrends.t}
    (service : youtube.Service.t) (w : YouTubeAPI.World)
    (channelID : string) (now2 : Time) :
  Database.online (YouTubeAPI.db w) = true ->
  unique_keys (Database.rows (YouTubeAPI.db w)) ->
  utcDay now2 = utcDay (YouTubeAPI.clock w) ->
  (forall analytics w1,
     YouTubeAPI.GetChannelAnalytics service channelID w = (JSON StatusOK analytics, w1) ->
     (forall json, YouTubeAPI.Marshal analytics = Ok json ->
                   YouTubeAPI.Unmarshal json = Ok analytics) ->
     YouTubeAPI.GetChannelAnalytics service channelID (later now2 w1)
     = (JSON StatusOK analytics, later now2 w1)) /\
  (forall trends w1,
     YouTubeAPI.GetChannelTrends service channelID w = (JSON StatusOK trends, w1) ->
     (forall json, YouTubeAPI.Marshal trends = Ok json ->
                   YouTubeAPI.Unmarshal json = Ok trends) ->
     YouTubeAPI.GetChannelTrends service channelID (later now2 w1)
     = (JSON StatusOK trends, later now2 w1)).
Proof.
  intros Hon Hinv Hday. split.
  - intros analytics w1 Hrun Hcodec. unfold YouTubeAPI.GetChannelAnalytics in *.
    apply (cacheGated_again EngagementTypeAnalytics _ _
             (keepsStore_getChannelAnalytics service) eq_refl channelID w); assumption.
  - intros trends w1 Hrun Hcodec. unfold YouTubeAPI.GetChannelTrends in *.
    apply (cacheGated_again EngagementTypeTrends _ _
             (keepsStore_getChannelTrends service) eq_refl channelID w); assumption.
Qed.

(** An empty table over a live connection, one hour into 1970-01-01. *)
Definition freshWorld : YouTubeAPI.World :=
  {| YouTubeAPI.db := Database.mk [] 1 true;
     YouTubeAPI.clock := 3600000000000;
     YouTubeAPI.requests := 0 |}.

(** The analytics of the channel without uploads, computed at that hour. *)
Definition emptyAnalytics : ChannelAnalytics.t :=
  ChannelAnalytics.mk "UC1" "Empty" "Empty" 12 0 0
    0 F64.zero F64.zero F64.zero [] (TimeRange.mk "" "") 3600000000000.

Lemma cached_answer_is_served_for_the_day_witness :
  let first :=
    YouTubeAPI.GetChannelAnalytics
      (sorter := insertionSorter) (parser := parseUTC)
      (analyticsCodec := emptyObjectCodec emptyAnalytics)
      emptyChannel "UC1" freshWorld in
  first = (JSON StatusOK emptyAnalytics, snd first) /\
  YouTubeAPI.requests (snd first) = 4%nat /\
  YouTubeAPI.GetChannelAnalytics
    (sorter := insertionSorter) (parser := parseUTC)
    (analyticsCodec := emptyObjectCodec emptyAnalytics)
    emptyChannel "UC1" (later 7200000000000 (snd first))
  = (JSON StatusOK emptyAnalytics, later 7200000000000 (snd first)).
Proof.
  cbv zeta. split; [reflexivity|]. split; [reflexivity|].
  refine (proj1 (cached_answer_is_served_for_the_day
                   (sorter := insertionSorter) (parser := parseUTC)
                   (analyticsCodec := emptyObjectCodec emptyAnalytics)
                   (trendsCodec := emptyObjectCodec zeroTrends)
                   emptyChannel freshWorld "UC1" 7200000000000 eq_refl _ eq_refl)
                emptyAnalytics _ eq_refl _).
  - apply NoDup_nil_2.
  - intros json [= <-]. reflexivity.
Defined.

(** X2. With the database connection down the cache gate is transparent:
    the analytics and the trends handler answer what the computation
    answers (200 with its result, 500 with its error or with the encoding
    failure), send exactly its requests, and leave the database alone;
    neither the failed lookup nor the failed store fails the request. *)
Theorem cache_outage_is_transparent
    {sorter : SliceSorter} {parser : TimeParser}
    {analyticsCodec : YouTubeAPI.JSONCodec ChannelAnalytics.t}
    {trendsCodec : YouTubeAPI.JSONCodec ChannelTrends.t}
    (service : youtube.Service.t) (w : YouTubeAPI.World) (channelID : string) :
  channelID <> "" ->
  Database.online (YouTubeAPI.db w) = false ->
  YouTubeAPI.GetChannelAnalytics service channelID w =
    (match fst (YouTubeAPI.getChannelAnalytics service channelID w) with
     | Ok analytics =>
         match YouTubeAPI.Marshal analytics with
         | Ok _ => JSON StatusOK analytics
         | _ => JSONError StatusInternalServerError "Failed to process analytics data"
         end
     | Err e => JSONError StatusInternalServerError e
     | Panic e => Aborted e
     end,
     snd (YouTubeAPI.getChannelAnalytics service channelID w)) /\
  YouTubeAPI.GetChannelTrends service channelID w =
    (match fst (YouTubeAPI.getChannelTrends service channelID w) with
     | Ok trends =>
         match YouTubeAPI.Marshal trends with
         | Ok _ => JSON StatusOK trends
         | _ => JSONError StatusInternalServerError "Failed to process trends data"
         end
     | Err e => JSONError StatusInternalServerError e
     | Panic e => Aborted e
     end,
     snd (YouTubeAPI.getChannelTrends service channelID w)) /\
  YouTubeAPI.db (snd (YouTubeAPI.GetChannelAnalytics service channelID w)) = YouTubeAPI.db w /\
  YouTubeAPI.db (snd (YouTubeAPI.GetChannelTrends service channelID w)) = YouTubeAPI.db w.
Proof.
  intros Hid Hoff.
  pose proof (cacheGated_offline EngagementTypeAnalytics _ "Failed to process analytics data"
                (keepsStore_getChannelAnalytics service) channelID w Hid Hoff) as Ha.
  pose proof (cacheGated_offline EngagementTypeTrends _ "Failed to process trends data"
                (keepsStore_getChannelTrends service) channelID w Hid Hoff) as Ht.
  fold (YouTubeAPI.GetChannelAnalytics service) in Ha.
  fold (YouTubeAPI.GetChannelTrends service) in Ht.
  split; [exact Ha|]. split; [exact Ht|]. rewrite Ha, Ht. simpl. split.
  - apply keepsStore_getChannelAnalytics.
  - apply keepsStore_getChannelTrends.
Qed.

(** The same hour, with the connection lost. *)
Definition offlineWorld : YouTubeAPI.World :=
  {| YouTubeAPI.db := Database.mk [snapshot0] 2 false;
     YouTubeAPI.clock := 3600000000000;
     YouTubeAPI.requests := 0 |}.

Lemma cache_outage_is_transparent_witness :
  YouTubeAPI.GetChannelAnalytics
    (sorter := insertionSorter) (parser := parseUTC)
    (analyticsCodec := emptyObjectCodec zeroAnalytics)
    emptyChannel "UC1" offlineWorld
  = (JSON StatusOK emptyAnalytics, sent 4 offlineWorld).
Proof.
  exact (proj1 (cache_outage_is_transparent
                  (sorter := insertionSorter) (parser := parseUTC)
                  (analyticsCodec := emptyObjectCodec zeroAnalytics)
                  (trendsCodec := emptyObjectCodec zeroTrends)
                  emptyChannel offlineWorld "UC1" ltac:(discriminate) eq_refl)).
Defined.

(** X3. Whatever an analytics or a trends request does, the table keeps
    one row per key, loses no row, gains at most one, and every row of
    another channel or kind stays where and what it was; the clock is not
    turned. *)
Theorem cache_gate_keeps_table
    {sorter : SliceSorter} {parser : TimeParser}
    {analyticsCodec : YouTubeAPI.JSONCodec ChannelAnalytics.t}
    {trendsCodec : YouTubeAPI.JSONCodec ChannelTrends.t}
    (service : youtube.Service.t) (w : YouTubeAPI.World) (channelID : string) :
  unique_keys (Database.rows (YouTubeAPI.db w)) ->
  let kept (ty : EngagementType) (w1 : YouTubeAPI.World) :=
    unique_keys (Database.rows (YouTubeAPI.db w1)) /\
    YouTubeAPI.clock w1 = YouTubeAPI.clock w /\
    (length (Database.rows (YouTubeAPI.db w))
     <= length (Database.rows (YouTubeAPI.db w1))
     <= S (length (Database.rows (YouTubeAPI.db w))))%nat /\
    (forall i row,
       Database.rows (YouTubeAPI.db w) !! i = Some row ->
       key row <> (channelID, ty) ->
       Database.rows (YouTubeAPI.db w1) !! i = Some row) in
  kept EngagementTypeAnalytics (snd (YouTubeAPI.GetChannelAnalytics service channelID w)) /\
  kept EngagementTypeTrends (snd (YouTubeAPI.GetChannelTrends service channelID w)).
Proof.
  intros Hinv kept.
  assert (Hgen : forall A (codec : YouTubeAPI.JSONCodec A) ty compute msg,
            (forall c, keepsStore (compute c)) ->
            kept ty (snd (@YouTubeAPI.cacheGated A codec ty compute msg channelID w))).
  { intros A codec ty compute msg Hkeep.
    destruct (cacheGated_db ty compute msg Hkeep channelID w) as [Hc [Hd | [json Hd]]];
      unfold kept; rewrite Hc, Hd.
    - repeat split; auto; lia.
    - split; [now apply StoreEngagement_keeps_unique|]. split; [reflexivity|].
      split; [apply StoreEngagement_length|].
      intros i row Hi Hk. now apply StoreEngagement_frame. }
  split.
  - apply Hgen, keepsStore_getChannelAnalytics.
  - apply Hgen, keepsStore_getChannelTrends.
Qed.

Lemma cache_gate_keeps_table_witness :
  unique_keys
    (Database.rows
       (YouTubeAPI.db
          (snd (YouTubeAPI.GetChannelTrends
                  (sorter := insertionSorter) (parser := parseUTC)
                  (trendsCodec := emptyObjectCodec zeroTrends)
                  emptyChannel "UC1" world0)))).
Proof.
  refine (proj1 (proj2 (cache_gate_keeps_table
                          (sorter := insertionSorter) (parser := parseUTC)
                          (analyticsCodec := emptyObjectCodec zeroAnalytics)
                          (trendsCodec := emptyObjectCodec zeroTrends)
                          emptyChannel world0 "UC1" _))).
  apply NoDup_singleton.
Defined.

(** * Reading the snapshot table *)

(** The comparison behind [ORDER BY create_date DESC]. *)
Definition newer (a b : ChannelEngagement.t) : bool :=
  ChannelEngagement.CreateDate b <? ChannelEngagement.CreateDate a.

Section SnapshotReads.

Lemma latest_fold rs b :
  exists e,
    fold_left
      (fun best r =>
         match best with
         | None => Some r
         | Some b =>
             if ChannelEngagement.CreateDate b <? ChannelEngagement.CreateDate r
             then Some r else Some b
         end) rs (Some b) = Some e /\
    In e (b :: rs) /\
    forall r, In r (b :: rs) ->
      ChannelEngagement.CreateDate r <= ChannelEngagement.CreateDate e.
Proof.
  revert b. induction rs as [|x rs IH]; intros b; simpl.
  - exists b. split; [reflexivity|]. split; [now left|]. intros r [<-|[]]. lia.
  - destruct (ChannelEngagement.CreateDate b <? ChannelEngagement.CreateDate x) eqn:E.
    + apply Z.ltb_lt in E. destruct (IH x) as (e & He & Hin & Hmax).
      exists e. split; [exact He|]. split; [now right|].
      intros r [<-|Hr]; [|now apply Hmax].
      specialize (Hmax x (or_introl eq_refl)). lia.
    + apply Z.ltb_ge in E. destruct (IH b) as (e & He & Hin & Hmax).
      exists e. split; [exact He|]. split.
      * destruct Hin as [<-|Hin]; [now left | now right; right].
      * intros r [<-|[<-|Hr]].
        -- apply Hmax. now left.
        -- specialize (Hmax b (or_introl eq_refl)). lia.
        -- apply Hmax. now right.
Qed.

Lemma latest_newest rs :
  match latest rs with
  | None => rs = []
  | Some e =>
      In e rs /\
      forall r, In r rs -> ChannelEngagement.CreateDate r <= ChannelEngagement.CreateDate e
  end.
Proof.
  unfold latest. destruct rs as [|b rs]; [reflexivity|]. simpl.
  destruct (latest_fold rs b) as (e & -> & Hin & Hmax). auto.
Qed.

Lemma strict_weak_newer rs : strict_weak newer rs.
Proof. apply (strict_weak_by_key ChannelEngagement.CreateDate). reflexivity. Qed.

(** The last element of the reversed prefix is the newest row so far,
    the earliest one among rows of the same date. *)
Lemma last_insertLeft x rp :
  descending newer rp ->
  last (insertLeft newer x rp) =
    match last rp with
    | None => Some x
    | Some m =>
        if ChannelEngagement.CreateDate m <? ChannelEngagement.CreateDate x
        then Some x else Some m
    end.
Proof.
  unfold descending. induction rp as [|y r IH]; intros Hrp; [reflexivity|].
  apply StronglySorted_cons in Hrp as [Hy Hr]. simpl insertLeft.
  unfold newer at 1. destruct (ChannelEngagement.CreateDate y <? _) eqn:E.
  - rewrite !last_cons, (IH Hr).
    destruct (last r) as [m|]; [|now rewrite E].
    now destruct (ChannelEngagement.CreateDate m <? ChannelEngagement.CreateDate x).
  - rewrite (last_cons x).
    destruct (last (y :: r)) as [m|] eqn:Hm.
    2:{ rewrite last_cons in Hm. now destruct (last r). }
    assert (Hle : ChannelEngagement.CreateDate y <= ChannelEngagement.CreateDate m).
    { apply last_Some_elem_of in Hm. apply elem_of_cons in Hm as [->|Hm]; [lia|].
      rewrite Forall_forall in Hy. specialize (Hy m Hm). unfold newer in Hy.
      apply Z.ltb_ge in Hy. exact Hy. }
    apply Z.ltb_ge in E.
    now assert ((ChannelEngagement.CreateDate m <? ChannelEngagement.CreateDate x) = false)
      as -> by (apply Z.ltb_ge; lia).
Qed.

Lemma last_insertion_fold rs rp :
  descending newer rp ->
  last (fold_left (fun rp x => insertLeft newer x rp) rs rp) =
    fold_left
      (fun best r =>
         match best with
         | None => Some r
         | Some b =>
             if ChannelEngagement.CreateDate b <? ChannelEngagement.CreateDate r
             then Some r else Some b
         end) rs (last rp).
Proof.
  revert rp. induction rs as [|x rs IH]; intros rp Hrp; [reflexivity|]. simpl.
  rewrite IH.
  - now rewrite last_insertLeft.
  - apply insertLeft_descending; [apply strict_weak_newer | exact Hrp].
Qed.

Lemma hd_error_rev {A} (l : list A) : hd_error (rev l) = last l.
Proof.
  induction l as [|x l _] using rev_ind; [reflexivity|].
  now rewrite rev_app_distr, last_snoc.
Qed.

(** The first row of [ORDER BY create_date DESC] is the row of
    [ORDER BY create_date DESC LIMIT 1]. *)
Lemma newestFirst_head rs : hd_error (newestFirst rs) = latest rs.
Proof.
  unfold newestFirst, insertionSort, latest.
  rewrite hd_error_rev. fold newer. apply last_insertion_fold. constructor.
Qed.

Lemma limitTo_head {A} limit (l : list A) :
  limit <> 0 -> hd_error (limitTo limit l) = hd_error l.
Proof.
  intros Hl. unfold limitTo. destruct (limit <? 0) eqn:E; [reflexivity|].
  apply Z.ltb_ge in E. destruct (Z.to_nat limit) eqn:En; [lia|]. now destruct l.
Qed.

Lemma limitTo_len {A} limit (l : list A) :
  len (limitTo limit l) = if limit <? 0 then len l else Z.min limit (len l).
Proof.
  unfold limitTo, len. destruct (limit <? 0) eqn:E; [reflexivity|].
  apply Z.ltb_ge in E. rewrite length_take. lia.
Qed.

Lemma update_row_absent c ty json ts rows :
  (forall row, row ∈ rows -> key row <> (c, ty)) ->
  map (update_row c ty json ts) rows = rows.
Proof.
  intros Hnone. induction rows as [|r rows IH]; [reflexivity|]. simpl.
  rewrite IH by (intros row Hrow; apply Hnone; now right).
  unfold update_row.
  now assert (has_key c ty r = false) as ->
    by (apply has_key_false, Hnone; now left).
Qed.

End SnapshotReads.

(** X4. [GetLatestEngagement] over a live connection answers without
    error: with no record exactly when no row has the channel and kind,
    and otherwise with a row of the table that has them and whose creation
    date no other such row exceeds.  With the connection down it fails. *)
Theorem GetLatestEngagement_newest (d : Database.t) (channelID : string)
    (ty : EngagementType) :
  (Database.online d = false ->
   exists msg, GetLatestEngagement d channelID ty = Err msg) /\
  (Database.online d = true ->
   exists found,
     GetLatestEngagement d channelID ty = Ok found /\
     match found with
     | None => forall row, row ∈ Database.rows d -> key row <> (channelID, ty)
     | Some e =>
         e ∈ Database.rows d /\ key e = (channelID, ty) /\
         forall row, row ∈ Database.rows d -> key row = (channelID, ty) ->
           ChannelEngagement.CreateDate row <= ChannelEngagement.CreateDate e
     end).
Proof.
  unfold GetLatestEngagement. split; intros Hon; rewrite Hon; simpl; [eauto|].
  eexists. split; [reflexivity|].
  pose proof (latest_newest (List.filter (has_key channelID ty) (Database.rows d))) as H.
  destruct (latest _) as [e|].
  - destruct H as [Hin Hmax]. apply filter_In in Hin as [Hin Hk].
    split; [now apply list_elem_of_In|]. split; [now apply has_key_true|].
    intros row Hrow Hkey. apply Hmax, filter_In.
    split; [now apply list_elem_of_In | now apply has_key_true].
  - intros row Hrow Hkey.
    assert (Hf : In row (List.filter (has_key channelID ty) (Database.rows d))).
    { apply filter_In. split; [now apply list_elem_of_In | now apply has_key_true]. }
    now rewrite H in Hf.
Qed.

(** X5. [UpdateEngagement] is the update half of [StoreEngagement]: when
    a row with the key exists the two leave the same database and answer;
    when none exists [UpdateEngagement] still reports success and changes
    nothing (where [StoreEngagement] would insert).  It keeps the table at
    one row per key, and fails with the driver's error when the
    connection is down. *)
Theorem UpdateEngagement_updates_only (d : Database.t) (now : Time)
    (e : ChannelEngagement.t) :
  (Database.online d = true ->
   (exists row, row ∈ Database.rows d /\ key row = key e) ->
   StoreEngagement d now e = UpdateEngagement d now e) /\
  (Database.online d = true ->
   (forall row, row ∈ Database.rows d -> key row <> key e) ->
   UpdateEngagement d now e = (Ok tt, d)) /\
  (unique_keys (Database.rows d) ->
   unique_keys (Database.rows (snd (UpdateEngagement d now e)))) /\
  (Database.online d = false -> UpdateEngagement d now e = (Err connError, d)).
Proof.
  unfold UpdateEngagement, StoreEngagement. repeat split.
  - intros Hon (row & Hrow & Hk). rewrite Hon. simpl.
    destruct (0 <? len _) eqn:Hcount; [reflexivity|].
    exfalso. apply (count_key_zero _ _ _ Hcount).
    change (key e ∈ map key (Database.rows d)).
    rewrite <- Hk. now apply list_elem_of_fmap_2.
  - intros Hon Hnone. rewrite Hon. simpl.
    rewrite update_row_absent by exact Hnone. destruct d; simpl in *. now subst.
  - intros Hinv. destruct (Database.online d); simpl; [|exact Hinv].
    unfold unique_keys. rewrite map_map.
    erewrite map_ext; [exact Hinv|]. intros r. apply key_update_row.
  - now intros ->.
Qed.

(** X6. [GetEngagementHistory] over a live connection lists rows of the
    requested channel and kind, newest creation date first, as many as
    the limit allows (all of them under a negative limit); unless the
    limit is zero its first entry is the record [GetLatestEngagement]
    returns.  As the table holds one row per key, the history never has
    more than one entry. *)
Theorem history_lists_newest_first (d : Database.t) (channelID : string)
    (ty : EngagementType) (limit : Z) :
  (Database.online d = false ->
   GetEngagementHistory d channelID ty limit = Err connError) /\
  (Database.online d = true ->
   let selected := List.filter (has_key channelID ty) (Database.rows d) in
   exists l,
     GetEngagementHistory d channelID ty limit = Ok l /\
     Forall (fun row => row ∈ Database.rows d /\ key row = (channelID, ty)) l /\
     ordered newer l /\
     len l = (if limit <? 0 then len selected else Z.min limit (len selected)) /\
     (limit <> 0 -> GetLatestEngagement d channelID ty = Ok (hd_error l)) /\
     (unique_keys (Database.rows d) -> len l <= 1)).
Proof.
  unfold GetEngagementHistory, GetLatestEngagement.
  split; intros Hon; rewrite Hon; simpl; [reflexivity|].
  set (selected := List.filter (has_key channelID ty) (Database.rows d)).
  eexists. split; [reflexivity|].
  assert (Hperm : Permutation (newestFirst selected) selected)
    by apply insertionSort_perm.
  assert (Hsub : forall row, In row (limitTo limit (newestFirst selected)) ->
                             In row selected).
  { intros row Hrow. apply (Permutation_in _ Hperm).
    unfold limitTo in Hrow. destruct (limit <? 0); [exact Hrow|].
    apply list_elem_of_In. apply list_elem_of_In in Hrow.
    exact (elem_of_sublist _ _ _ Hrow (sublist_take _ _)). }
  split; [|split; [|split; [|split]]].
  - apply Forall_forall. intros row Hrow.
    apply list_elem_of_In, Hsub, filter_In in Hrow as [Hin Hk].
    split; [now apply list_elem_of_In | now apply has_key_true].
  - assert (Hord : ordered newer (newestFirst selected))
      by apply insertionSort_ordered, strict_weak_newer.
    unfold limitTo. destruct (limit <? 0); [exact Hord|].
    now apply ordered_firstn.
  - rewrite limitTo_len. unfold len.
    now rewrite (Permutation_length Hperm).
  - intros Hl. now rewrite limitTo_head, newestFirst_head.
  - intros Hinv. rewrite limitTo_len.
    assert (Hone : len selected <= 1).
    { destruct selected as [|r rest] eqn:Hsel; [unfold len; simpl; lia|].
      assert (Hr : In r selected) by (rewrite Hsel; now left).
      unfold selected in Hr. apply filter_In in Hr as [Hr Hk].
      fold selected in Hsel.
      rewrite <- Hsel. unfold selected.
      rewrite (filter_key_unique channelID ty _ r Hinv);
        [unfold len; simpl; lia | now apply list_elem_of_In | now apply has_key_true]. }
    unfold len in *. rewrite (Permutation_length Hperm).
    destruct (limit <? 0); lia.
Qed.

(** * The direct client's listing *)

Section ClientListing.

Context {sorter : SliceSorter} {parser : TimeParser}.
Hypothesis Hsort : SortContract sorter.

Lemma sortVideos_nil filter : sortVideos filter [] = [].
Proof. apply Permutation_nil. symmetry. apply (sortVideos_perm Hsort). Qed.

(** A video without counts passes the filter only when neither threshold
    is positive. *)
Lemma passes_noCounts filter v :
  noCounts v -> passes filter v = true ->
  VideoFilter.MinViews filter <= 0 /\ VideoFilter.MinLikes filter <= 0.
Proof.
  intros (Hv & Hl & _). unfold passes. rewrite Hv, Hl.
  rewrite negb_true_iff, orb_false_iff, !Z.ltb_ge. tauto.
Qed.

Lemma GetChannelVideos_thresholds c channelID filter r :
  YouTubeClient.GetChannelVideos c channelID filter = Ok r ->
  0 < VideoFilter.MinViews filter \/ 0 < VideoFilter.MinLikes filter ->
  r = [].
Proof.
  intros Hr Hpos. pose proof (GetChannelVideos_noCounts Hsort _ _ _ _ Hr) as Hzero.
  apply GetChannelVideos_inv in Hr as (? & ? & ? & fetched & _ & _ & Hf & ->).
  apply (fetchDetails_passes c filter _ [] fetched) in Hf; [|constructor].
  assert (Hzero' : Forall noCounts fetched)
    by now rewrite <- (sortVideos_perm Hsort filter).
  destruct fetched as [|v fetched]; [apply sortVideos_nil|].
  apply Forall_cons in Hf as [Hp _]. apply Forall_cons in Hzero' as [Hv _].
  destruct (passes_noCounts _ _ Hv Hp). lia.
Qed.

(** Without a positive [MaxVideos] no detail request is made. *)
Lemma GetChannelVideos_none c channelID filter r :
  VideoFilter.MaxVideos filter <= 0 ->
  YouTubeClient.GetChannelVideos c channelID filter = Ok r -> r = [].
Proof.
  intros Hmax Hr.
  apply GetChannelVideos_inv in Hr as (? & ? & ids & fetched & _ & _ & Hf & ->).
  replace (Z.to_nat (VideoFilter.MaxVideos filter)) with 0%nat in Hf by lia.
  simpl in Hf. injection Hf as <-. apply sortVideos_nil.
Qed.

End ClientListing.

Section Batches.

Lemma batches_concat fuel ids :
  (length ids <= fuel)%nat -> concat (YouTubeClient.batches fuel ids) = ids.
Proof.
  revert ids. induction fuel as [|fuel IH]; intros ids Hfuel.
  - destruct ids; [reflexivity|simpl in Hfuel; lia].
  - destruct ids as [|id ids]; [reflexivity|].
    change (YouTubeClient.batches (S fuel) (id :: ids))
      with (firstn 50 (id :: ids) :: YouTubeClient.batches fuel (skipn 50 (id :: ids))).
    cbn [concat]. rewrite IH; [apply firstn_skipn|].
    rewrite length_skipn. simpl in *. lia.
Qed.

Lemma batches_sizes fuel ids :
  Forall (fun batch => (0 < length batch <= 50)%nat) (YouTubeClient.batches fuel ids).
Proof.
  revert ids. induction fuel as [|fuel IH]; intros ids.
  - destruct ids; constructor.
  - destruct ids as [|id ids]; [constructor|].
    change (YouTubeClient.batches (S fuel) (id :: ids))
      with (firstn 50 (id :: ids) :: YouTubeClient.batches fuel (skipn 50 (id :: ids))).
    constructor; [|apply IH].
    rewrite length_firstn. cbn [length]. lia.
Qed.

Lemma batches_count fuel ids :
  (length ids <= fuel)%nat ->
  length (YouTubeClient.batches fuel ids) = ((length ids + 49) / 50)%nat.
Proof.
  revert ids. induction fuel as [|fuel IH]; intros ids Hfuel.
  - destruct ids; [reflexivity|simpl in Hfuel; lia].
  - destruct ids as [|id ids]; [reflexivity|].
    change (YouTubeClient.batches (S fuel) (id :: ids))
      with (firstn 50 (id :: ids) :: YouTubeClient.batches fuel (skipn 50 (id :: ids))).
    cbn [length]. rewrite IH by (rewrite length_skipn; simpl in *; lia).
    rewrite length_skipn. cbn [length]. set (m := length ids).
    destruct (le_lt_dec 50 (S m)) as [Hbig|Hsmall].
    + replace (S m + 49)%nat with ((S m - 50 + 49) + 1 * 50)%nat by lia.
      rewrite Nat.div_add by lia. lia.
    + replace (S m - 50 + 49)%nat with 49%nat by lia.
      change (49 / 50)%nat with 0%nat.
      apply (Nat.div_unique _ _ _ m); lia.
Qed.

(** Every batch but the last is full. *)
Lemma batches_full fuel ids i batch :
  (length ids <= fuel)%nat ->
  YouTubeClient.batches fuel ids !! i = Some batch ->
  (S i < length (YouTubeClient.batches fuel ids))%nat ->
  length batch = 50%nat.
Proof.
  revert ids i batch. induction fuel as [|fuel IH]; intros ids i batch Hfuel.
  - destruct ids; [discriminate|simpl in Hfuel; lia].
  - destruct ids as [|id ids]; [discriminate|].
    change (YouTubeClient.batches (S fuel) (id :: ids))
      with (firstn 50 (id :: ids) :: YouTubeClient.batches fuel (skipn 50 (id :: ids))).
    assert (Hrest : (length (skipn 50 (id :: ids)) <= fuel)%nat)
      by (rewrite length_skipn; simpl in *; lia).
    destruct i as [|i].
    + intros Hb Hmore. apply (f_equal (option_map (@length string))) in Hb.
      cbn [lookup list_lookup option_map] in Hb. injection Hb as <-.
      cbn [length] in Hmore.
      rewrite (batches_count _ _ Hrest), length_skipn in Hmore.
      rewrite length_firstn.
      destruct (le_lt_dec (length (id :: ids)) 50) as [Hsmall|Hbig];
        [|cbn [length] in *; lia].
      replace (length (id :: ids) - 50 + 49)%nat with 49%nat in Hmore by lia.
      change (49 / 50)%nat with 0%nat in Hmore. lia.
    + cbn [lookup list_lookup length]. intros Hb Hmore.
      apply (IH _ i batch Hrest Hb). lia.
Qed.

End Batches.

(** X7. The direct client reads every count as zero (the statistics of
    the HTTP answer are strings and fail the [uint64] assertion), so under
    a positive [MinViews] or [MinLikes] its listing is empty whatever the
    channel holds; and every video it does list carries zero views, likes
    and comments. *)
Theorem client_listing_reads_no_counts {sorter : SliceSorter} {parser : TimeParser}
    (c : YouTubeClient.t) (channelID : string) (filter : VideoFilter.t)
    (r : list Video.t) :
  SortContract sorter ->
  YouTubeClient.GetChannelVideos c channelID filter = Ok r ->
  Forall noCounts r /\
  (0 < VideoFilter.MinViews filter \/ 0 < VideoFilter.MinLikes filter -> r = []).
Proof.
  intros Hsort Hr. split.
  - exact (GetChannelVideos_noCounts Hsort _ _ _ _ Hr).
  - now apply (GetChannelVideos_thresholds Hsort c channelID).
Qed.

Lemma client_listing_reads_no_counts_witness :
  SortContract insertionSorter /\
  exists r,
    YouTubeClient.GetChannelVideos (sorter := insertionSorter) (parser := parseUTC)
      oneVideoClient "UC1" (VideoFilter.mk SortByViews 50 0 0) = Ok r /\
    length r = 1%nat /\
    Forall noCounts r.
Proof.
  split; [exact insertionSorter_contract|].
  eexists. split; [reflexivity|]. split; [reflexivity|].
  refine (proj1 (client_listing_reads_no_counts
                   (sorter := insertionSorter) (parser := parseUTC)
                   oneVideoClient "UC1" (VideoFilter.mk SortByViews 50 0 0) _
                   insertionSorter_contract eq_refl)).
Defined.

(** X8. The detail requests of the direct client cover the collected
    identifiers exactly once and in order: the batches concatenate to the
    identifier list, none is empty, none has more than 50 identifiers,
    all but the last have exactly 50, and there are [ceil(n / 50)] of
    them. *)
Theorem batches_partition (ids : list string) :
  let bs := YouTubeClient.batches (length ids) ids in
  concat bs = ids /\
  Forall (fun batch => (0 < length batch <= 50)%nat) bs /\
  length bs = ((length ids + 49) / 50)%nat /\
  (forall i batch, bs !! i = Some batch -> (S i < length bs)%nat ->
                   length batch = 50%nat).
Proof.
  cbv zeta. split; [|split; [|split]].
  - now apply batches_concat.
  - apply batches_sizes.
  - now apply batches_count.
  - intros i batch. now apply batches_full.
Qed.

(** X9. The direct client asks for as many videos as the channel reports
    ([MaxVideos] is the channel's video count).  For a channel that
    reports no video, analytics never succeed and trends never carry a
    result, whatever the uploads playlist holds. *)
Theorem client_needs_the_video_count {sorter : SliceSorter} {parser : TimeParser}
    (c : YouTubeClient.t) (now : Time) (channelID : string) (channel : Channel.t) :
  SortContract sorter ->
  YouTubeClient.GetChannelByID c channelID = Ok channel ->
  Channel.VideoCount channel <= 0 ->
  (exists e, YouTubeClient.GetChannelAnalytics c channelID = Err e \/
             YouTubeClient.GetChannelAnalytics c channelID = Panic e) /\
  (YouTubeClient.GetChannelTrends c now channelID = Ok None \/
   exists e, YouTubeClient.GetChannelTrends c now channelID = Err e \/
             YouTubeClient.GetChannelTrends c now channelID = Panic e).
Proof.
  intros Hsort Hch Hcount.
  unfold YouTubeClient.GetChannelAnalytics, YouTubeClient.GetChannelTrends.
  rewrite Hch. simpl.
  destruct (YouTubeClient.GetChannelVideos c channelID _) as [videos|e|e] eqn:Hv; simpl.
  - apply (GetChannelVideos_none Hsort) in Hv as ->; [|exact Hcount].
    simpl. split; [exists "no videos found for channel"|]; auto.
  - split; [|right]; eexists; left; reflexivity.
  - split; [|right]; eexists; right; reflexivity.
Qed.

(** A channel that reports no video but lists one upload. *)
Definition uncountedClient : YouTubeClient.t :=
  YouTubeClient.mk
    (fun _ => Ok (Channel.mk "UC1" "One" "" 12 100 0 ""))
    (YouTubeClient.getUploads oneVideoClient)
    (YouTubeClient.getPlaylistItems oneVideoClient)
    (YouTubeClient.getVideos oneVideoClient).

Lemma client_needs_the_video_count_witness :
  SortContract insertionSorter /\
  YouTubeClient.GetChannelTrends (sorter := insertionSorter) (parser := parseUTC)
    uncountedClient 0 "UC1" = Ok None /\
  exists e,
    YouTubeClient.GetChannelAnalytics (sorter := insertionSorter) (parser := parseUTC)
      uncountedClient "UC1" = Err e \/
    YouTubeClient.GetChannelAnalytics (sorter := insertionSorter) (parser := parseUTC)
      uncountedClient "UC1" = Panic e.
Proof.
  split; [exact insertionSorter_contract|]. split; [reflexivity|].
  refine (proj1 (client_needs_the_video_count
                   (sorter := insertionSorter) (parser := parseUTC)
                   uncountedClient 0 "UC1" (Channel.mk "UC1" "One" "" 12 100 0 "")
                   insertionSorter_contract eq_refl _)).
  simpl. lia.
Defined.

(** * Videos with missing parts *)

(** A fetched video all of whose parts are there. *)
Definition complete (v : option youtube.Video.t) : bool :=
  match v with
  | Some v =>
      match youtube.Video.Snippet v, youtube.Video.Statistics v,
            youtube.Video.ContentDetails v with
      | Some _, Some _, Some _ => true
      | _, _, _ => false
      end
  | None => false
  end.

Definition nilDereference : string := "nil pointer dereference".

(** A computation whose answer depends on the clock only, not on the
    requests sent so far nor on the database. *)
Definition answersAlike {A} (m : YouTubeAPI.M A) : Prop :=
  forall w w', YouTubeAPI.clock w = YouTubeAPI.clock w' -> fst (m w) = fst (m w').

Section MissingParts.

Context {sorter : SliceSorter} {parser : TimeParser}.
Variable service : youtube.Service.t.

Lemma convert_complete v :
  complete v = true ->
  exists video, YouTubeAPI.convert v = Ok video /\ YouTubeAPI.convertChecked v = Some video.
Proof.
  destruct v as [[id [sn|] [st|] [cd|]]|]; try discriminate.
  intros _. eexists. split; reflexivity.
Qed.

Lemma convert_incomplete v :
  complete v = false ->
  YouTubeAPI.convert v = Panic nilDereference /\ YouTubeAPI.convertChecked v = None.
Proof.
  destruct v as [[id [sn|] [st|] [cd|]]|]; try discriminate; intros _; split; reflexivity.
Qed.

(** One incomplete video unwinds the whole conversion loop. *)
Lemma mapR_convert_panics v l :
  In v l -> complete v = false -> mapR YouTubeAPI.convert l = Panic nilDereference.
Proof.
  intros Hin Hv. induction l as [|a l IH]; [destruct Hin|]. simpl.
  destruct (complete a) eqn:Ha.
  - destruct (convert_complete a Ha) as (video & -> & _). simpl.
    destruct Hin as [->|Hin]; [congruence|]. now rewrite (IH Hin).
  - now rewrite (proj1 (convert_incomplete a Ha)).
Qed.

(** The checked conversion passes over them. *)
Lemma convertChecked_complete l :
  omap YouTubeAPI.convertChecked (List.filter complete l)
  = omap YouTubeAPI.convertChecked l.
Proof.
  induction l as [|a l IH]; [reflexivity|]. cbn [List.filter].
  destruct (complete a) eqn:Ha; cbn [omap list_omap].
  - now rewrite IH.
  - now rewrite (proj2 (convert_incomplete a Ha)).
Qed.

Lemma answersAlike_ret {A} (a : A) : answersAlike (YouTubeAPI.ret a).
Proof. intros w w' _. reflexivity. Qed.

Lemma answersAlike_request {A} (a : A) : answersAlike (YouTubeAPI.request a).
Proof. intros w w' _. reflexivity. Qed.

Lemma answersAlike_Now : answersAlike YouTubeAPI.Now.
Proof. intros w w' H. exact H. Qed.

Lemma answersAlike_bind {A B} (m : YouTubeAPI.M A) (k : A -> YouTubeAPI.M B) :
  answersAlike m -> keepsStore m -> (forall a, answersAlike (k a)) ->
  answersAlike (YouTubeAPI.bind m k).
Proof.
  intros Hm Hkeep Hk w w' Hclock. unfold YouTubeAPI.bind.
  pose proof (Hm w w' Hclock) as Ha.
  destruct (Hkeep w) as [_ Hc]. destruct (Hkeep w') as [_ Hc'].
  destruct (m w) as [a w1]. destruct (m w') as [a' w1']. simpl in *. subst a'.
  apply Hk. congruence.
Qed.

Lemma answersAlike_bindMR {A B} wrap (m : YouTubeAPI.M (result A))
    (k : A -> YouTubeAPI.M (result B)) :
  answersAlike m -> keepsStore m -> (forall a, answersAlike (k a)) ->
  answersAlike (YouTubeAPI.bindMR wrap m k).
Proof.
  intros Hm Hkeep Hk. unfold YouTubeAPI.bindMR.
  apply answersAlike_bind; [exact Hm|exact Hkeep|].
  intros [a|e|e]; [apply Hk | apply answersAlike_ret | apply answersAlike_ret].
Qed.

Hint Resolve answersAlike_ret answersAlike_request answersAlike_Now
  keepsStore_ret keepsStore_request keepsStore_Now : store.

Lemma answersAlike_getChannelInfo channelID :
  answersAlike (YouTubeAPI.getChannelInfo service channelID).
Proof.
  unfold YouTubeAPI.getChannelInfo. apply answersAlike_bind; auto with store.
Qed.

Lemma answersAlike_fetchPages pages acc :
  answersAlike (YouTubeAPI.fetchPages service pages acc).
Proof.
  revert acc. induction pages as [|page rest IH]; intros acc; simpl; auto with store.
  apply answersAlike_bindMR; auto with store. intros items.
  destruct (len items =? 0); auto with store.
  apply answersAlike_bindMR.
  - destruct (0 <? len _); auto with store.
  - destruct (0 <? len _); auto with store.
  - intros found. destruct (len rest =? 0); auto with store.
Qed.

Lemma answersAlike_getAllVideos channelID :
  answersAlike (YouTubeAPI.getAllVideos service channelID).
Proof.
  unfold YouTubeAPI.getAllVideos.
  apply answersAlike_bindMR;
    [apply answersAlike_getChannelInfo | apply keepsStore_getChannelInfo|].
  intros channel. destruct (youtube.Channel.ContentDetails channel) as [[playlistID|]|];
    auto with store.
  destruct (String.eqb playlistID ""); auto using answersAlike_fetchPages with store.
Qed.

(** The channel lookup reads nothing of the world. *)
Lemma getChannelInfo_answer channelID w w' :
  fst (YouTubeAPI.getChannelInfo service channelID w)
  = fst (YouTubeAPI.getChannelInfo service channelID w').
Proof. reflexivity. Qed.

Lemma getChannelInfo_snippet channelID w channel :
  fst (YouTubeAPI.getChannelInfo service channelID w) = Ok channel ->
  exists snippet, youtube.Channel.Snippet channel = Some snippet.
Proof.
  unfold YouTubeAPI.getChannelInfo, YouTubeAPI.bind, YouTubeAPI.request, YouTubeAPI.ret.
  simpl.
  destruct (youtube.Service.ChannelsList service channelID) as [[|ch others]|e|e];
    try discriminate.
  destruct (youtube.Channel.Snippet ch) as [sn|] eqn:Hs; [|discriminate].
  intros [= <-]. eauto.
Qed.

(** When [getAllVideos] answers, the channel lookup it starts with
    answered with a channel that has a snippet and a named uploads
    playlist. *)
Lemma getAllVideos_channel channelID w allVideos :
  fst (YouTubeAPI.getAllVideos service channelID w) = Ok allVideos ->
  exists channel snippet uploads,
    (forall w', fst (YouTubeAPI.getChannelInfo service channelID w') = Ok channel) /\
    youtube.Channel.Snippet channel = Some snippet /\
    youtube.Channel.ContentDetails channel = Some (Some uploads) /\
    uploads <> "".
Proof.
  unfold YouTubeAPI.getAllVideos, YouTubeAPI.bindMR, YouTubeAPI.bind.
  destruct (YouTubeAPI.getChannelInfo service channelID w) as [[channel|e|e] w1] eqn:Hinfo;
    try discriminate.
  assert (Hinfo' : fst (YouTubeAPI.getChannelInfo service channelID w) = Ok channel)
    by now rewrite Hinfo.
  destruct (getChannelInfo_snippet channelID w channel Hinfo') as [snippet Hsn].
  destruct (youtube.Channel.ContentDetails channel) as [[uploads|]|] eqn:Hcd;
    try discriminate.
  destruct (String.eqb uploads "") eqn:Hup; [discriminate|].
  intros _. exists channel, snippet, uploads.
  split; [|split; [exact Hsn|split; [exact Hcd|now apply String.eqb_neq]]].
  intros w'. now rewrite (getChannelInfo_answer channelID w' w).
Qed.

(** The answer of a computation, in whatever world it runs. *)
Lemma run_fst {A} (m : YouTubeAPI.M A) w : m w = (fst (m w), snd (m w)).
Proof. now destruct (m w). Qed.

Lemma getChannelAnalytics_panics channelID w allVideos v :
  fst (YouTubeAPI.getAllVideos service channelID w) = Ok allVideos ->
  In v allVideos -> complete v = false ->
  fst (YouTubeAPI.getChannelAnalytics service channelID w) = Panic nilDereference.
Proof.
  intros Hall Hin Hv.
  destruct (getAllVideos_channel _ _ _ Hall) as (channel & snippet & uploads & Hinfo & _).
  unfold YouTubeAPI.getChannelAnalytics, YouTubeAPI.getChannelStatistics,
    YouTubeAPI.bindMR, YouTubeAPI.bind, YouTubeAPI.ret, YouTubeAPI.Now.
  rewrite (run_fst (YouTubeAPI.getChannelInfo service channelID) w), Hinfo.
  set (w1 := snd (YouTubeAPI.getChannelInfo service channelID w)).
  rewrite (run_fst (YouTubeAPI.getChannelInfo service channelID) w1), Hinfo.
  set (w2 := snd (YouTubeAPI.getChannelInfo service channelID w1)).
  rewrite (run_fst (YouTubeAPI.getAllVideos service channelID) w2).
  rewrite (answersAlike_getAllVideos channelID w2 w), Hall.
  2:{ unfold w2, w1.
      now rewrite !(proj2 (keepsStore_getChannelInfo service channelID _)). }
  simpl. unfold YouTubeAPI.analyticsOf.
  now rewrite (mapR_convert_panics _ _ Hin Hv).
Qed.

Lemma getChannelTrends_panics channelID w allVideos v :
  fst (YouTubeAPI.getAllVideos service channelID w) = Ok allVideos ->
  In v allVideos -> complete v = false ->
  fst (YouTubeAPI.getChannelTrends service channelID w) = Panic nilDereference.
Proof.
  intros Hall Hin Hv.
  destruct (getAllVideos_channel _ _ _ Hall)
    as (channel & snippet & uploads & Hinfo & Hsn & _).
  unfold YouTubeAPI.getChannelTrends, YouTubeAPI.bindMR, YouTubeAPI.bind,
    YouTubeAPI.ret, YouTubeAPI.Now.
  rewrite (run_fst (YouTubeAPI.getChannelInfo service channelID) w), Hinfo, Hsn.
  set (w1 := snd (YouTubeAPI.getChannelInfo service channelID w)).
  unfold deref. cbv beta iota.
  rewrite (run_fst (YouTubeAPI.getAllVideos service channelID) w1).
  rewrite (answersAlike_getAllVideos channelID w1 w), Hall.
  2:{ unfold w1. now rewrite (proj2 (keepsStore_getChannelInfo service channelID _)). }
  simpl. unfold YouTubeAPI.trendsOf.
  now rewrite (mapR_convert_panics _ _ Hin Hv).
Qed.

Lemma selectVideos_answers filter allVideos :
  0 <= VideoFilter.MaxVideos filter ->
  YouTubeAPI.selectVideos filter allVideos
  = Ok (firstn (Z.to_nat (VideoFilter.MaxVideos filter))
          (sortVideos filter
             (List.filter (passes filter) (omap YouTubeAPI.convertChecked allVideos)))).
Proof. intros Hmax. unfold YouTubeAPI.selectVideos. now apply cut_firstn. Qed.

(** The listing handler leaves the incomplete videos out and answers. *)
Lemma GetChannelVideos_skips channelID q w allVideos :
  channelID <> "" ->
  fst (YouTubeAPI.getAllVideos service channelID w) = Ok allVideos ->
  exists videos,
    fst (YouTubeAPI.GetChannelVideos service channelID q w) = JSON StatusOK videos /\
    (allVideos <> [] ->
     YouTubeAPI.selectVideos (YouTubeAPI.filterOf q) (List.filter complete allVideos)
     = Ok videos).
Proof.
  intros Hid Hall.
  destruct (getAllVideos_channel _ _ _ Hall)
    as (channel & snippet & uploads & Hinfo & Hsn & Hcd & Hup).
  unfold YouTubeAPI.GetChannelVideos, YouTubeAPI.bind, YouTubeAPI.ret.
  apply String.eqb_neq in Hid, Hup. rewrite Hid.
  rewrite (run_fst (YouTubeAPI.getChannelInfo service channelID) w), Hinfo, Hcd, Hup.
  set (w1 := snd (YouTubeAPI.getChannelInfo service channelID w)).
  rewrite (run_fst (YouTubeAPI.getAllVideos service channelID) w1).
  rewrite (answersAlike_getAllVideos channelID w1 w), Hall.
  2:{ unfold w1. now rewrite (proj2 (keepsStore_getChannelInfo service channelID _)). }
  pose proof (filterOf_max q) as Hmax.
  destruct (len allVideos =? 0) eqn:Hlen.
  - exists []. split; [reflexivity|]. intros Hne.
    destruct allVideos; [congruence|discriminate].
  - rewrite (selectVideos_answers _ allVideos) by lia.
    eexists. split; [reflexivity|]. intros _.
    rewrite (selectVideos_answers _ (List.filter complete allVideos)) by lia.
    now rewrite convertChecked_complete.
Qed.

End MissingParts.

(** X10. A fetched video that is nil or lacks its snippet, statistics or
    content details is fatal for the SDK analytics and trends: their
    conversion loop follows the pointers unchecked, so the computation
    panics and, unless today's snapshot is served from the cache, the
    handler is unwound without an answer and without touching the
    database.  The listing handler checks the pointers: it answers 200
    with the selection made from the complete videos alone. *)
Theorem incomplete_video_aborts_analytics_not_listing
    {sorter : SliceSorter} {parser : TimeParser}
    {analyticsCodec : YouTubeAPI.JSONCodec ChannelAnalytics.t}
    {trendsCodec : YouTubeAPI.JSONCodec ChannelTrends.t}
    (service : youtube.Service.t) (w : YouTubeAPI.World) (channelID : string)
    (q : YouTubeAPI.Query.t)
    (allVideos : list (option youtube.Video.t)) (v : option youtube.Video.t) :
  channelID <> "" ->
  fst (YouTubeAPI.getAllVideos service channelID w) = Ok allVideos ->
  In v allVideos -> complete v = false ->
  fst (YouTubeAPI.getChannelAnalytics service channelID w) = Panic nilDereference /\
  fst (YouTubeAPI.getChannelTrends service channelID w) = Panic nilDereference /\
  (@YouTubeAPI.servedFromCache _ analyticsCodec (YouTubeAPI.clock w)
     (GetLatestEngagement (YouTubeAPI.db w) channelID EngagementTypeAnalytics) = None ->
   fst (YouTubeAPI.GetChannelAnalytics service channelID w) = Aborted nilDereference /\
   YouTubeAPI.db (snd (YouTubeAPI.GetChannelAnalytics service channelID w))
   = YouTubeAPI.db w) /\
  (@YouTubeAPI.servedFromCache _ trendsCodec (YouTubeAPI.clock w)
     (GetLatestEngagement (YouTubeAPI.db w) channelID EngagementTypeTrends) = None ->
   fst (YouTubeAPI.GetChannelTrends service channelID w) = Aborted nilDereference /\
   YouTubeAPI.db (snd (YouTubeAPI.GetChannelTrends service channelID w))
   = YouTubeAPI.db w) /\
  exists videos,
    fst (YouTubeAPI.GetChannelVideos service channelID q w) = JSON StatusOK videos /\
    YouTubeAPI.selectVideos (YouTubeAPI.filterOf q) (List.filter complete allVideos)
    = Ok videos.
Proof.
  intros Hid Hall Hin Hv.
  pose proof (getChannelAnalytics_panics service _ _ _ _ Hall Hin Hv) as Ha.
  pose proof (getChannelTrends_panics service _ _ _ _ Hall Hin Hv) as Ht.
  split; [exact Ha|]. split; [exact Ht|]. split; [|split].
  - intros Hmiss. unfold YouTubeAPI.GetChannelAnalytics.
    rewrite (cacheGated_miss _ _ _ (keepsStore_getChannelAnalytics service) _ _ Hid Hmiss).
    rewrite (run_fst (YouTubeAPI.getChannelAnalytics service channelID) w), Ha. simpl.
    split; [reflexivity|]. apply keepsStore_getChannelAnalytics.
  - intros Hmiss. unfold YouTubeAPI.GetChannelTrends.
    rewrite (cacheGated_miss _ _ _ (keepsStore_getChannelTrends service) _ _ Hid Hmiss).
    rewrite (run_fst (YouTubeAPI.getChannelTrends service channelID) w), Ht. simpl.
    split; [reflexivity|]. apply keepsStore_getChannelTrends.
  - destruct (GetChannelVideos_skips service channelID q w allVideos Hid Hall)
      as (videos & Hr & Hsel).
    exists videos. split; [exact Hr|]. apply Hsel.
    intros ->. destruct Hin.
Qed.

(** A channel with two uploads, the second of which comes without its
    statistics. *)
Definition partialChannel : youtube.Service.t :=
  youtube.Service.mk
    (fun _ => Ok [youtube.Channel.mk "UC1"
                    (Some (youtube.ChannelSnippet.mk "Partial" "" ""))
                    (Some (youtube.ChannelStatistics.mk 12 100 2))
                    (Some (Some "UU1"))])
    (fun _ => [Ok [Some "v1"; Some "v2"]])
    (fun _ =>
       Ok [sdkVideo "v1" 10 1 0;
           Some (youtube.Video.mk "v2"
                   (Some (youtube.VideoSnippet.mk "second" "" "2024-02-29T12:00:01Z" ""))
                   None
                   (Some (youtube.VideoContentDetails.mk "PT1M")))]).

Lemma incomplete_video_aborts_analytics_not_listing_witness :
  fst (YouTubeAPI.GetChannelAnalytics
         (sorter := insertionSorter) (parser := parseUTC)
         (analyticsCodec := emptyObjectCodec zeroAnalytics)
         partialChannel "UC1" freshWorld)
  = Aborted nilDereference /\
  exists videos,
    fst (YouTubeAPI.GetChannelVideos (sorter := insertionSorter) (parser := parseUTC)
           partialChannel "UC1" (YouTubeAPI.Query.mk "views" None None None) freshWorld)
    = JSON StatusOK videos /\
    map Video.ID videos = ["v1"].
Proof.
  destruct (incomplete_video_aborts_analytics_not_listing
              (sorter := insertionSorter) (parser := parseUTC)
              (analyticsCodec := emptyObjectCodec zeroAnalytics)
              (trendsCodec := emptyObjectCodec zeroTrends)
              partialChannel freshWorld "UC1" (YouTubeAPI.Query.mk "views" None None None)
              _ _ ltac:(discriminate) eq_refl (or_intror (or_introl eq_refl)) eq_refl)
    as (_ & _ & Ha & _ & videos & Hr & Hsel).
  split; [exact (proj1 (Ha eq_refl))|].
  exists videos. split; [exact Hr|].
  vm_compute in Hsel. injection Hsel as <-. reflexivity.
Defined.

(** * Strings and numbers *)

Section StringFacts.

Import strings.

Lemma append_cons c (p s : string) : String c p +:+ s = String c (p +:+ s).
Proof. reflexivity. Qed.

Lemma append_nil_l (s : string) : "" +:+ s = s.
Proof. reflexivity. Qed.

Lemma HasPrefix_nil s : HasPrefix s "" = true.
Proof. now destruct s. Qed.

Lemma HasPrefix_app p s : HasPrefix (p +:+ s) p = true.
Proof.
  induction p as [|c p IH]; [now rewrite append_nil_l; destruct s|].
  rewrite append_cons. simpl. now rewrite Ascii.eqb_refl, IH.
Qed.

Lemma dropBytes_app p s : dropBytes (String.length p) (p +:+ s) = s.
Proof.
  induction p as [|c p IH]; [now rewrite append_nil_l; destruct s|].
  rewrite append_cons. exact IH.
Qed.

Lemma takeBytes_app p s : takeBytes (String.length p) (p +:+ s) = p.
Proof.
  induction p as [|c p IH]; [now rewrite append_nil_l; destruct s|].
  rewrite append_cons. simpl. now rewrite IH.
Qed.

Lemma TrimPrefix_app p s : TrimPrefix (p +:+ s) p = s.
Proof. unfold TrimPrefix. now rewrite HasPrefix_app, dropBytes_app. Qed.

(** A string with the prefix is the prefix followed by the rest. *)
Lemma HasPrefix_cut s p :
  HasPrefix s p = true -> s = p +:+ dropBytes (String.length p) s.
Proof.
  revert s. induction p as [|c p IH]; intros s; [now destruct s|].
  destruct s as [|d s]; [discriminate|]. simpl.
  rewrite andb_true_iff, Ascii.eqb_eq. intros [-> H].
  rewrite append_cons. f_equal. now apply IH.
Qed.

Lemma HasPrefix_length s p :
  HasPrefix s p = true -> (String.length p <= String.length s)%nat.
Proof.
  revert s. induction p as [|c p IH]; intros s; simpl; [lia|].
  destruct s as [|d s]; [discriminate|]. simpl.
  rewrite andb_true_iff. intros [_ H]. apply IH in H. lia.
Qed.

(** Whether a string has a prefix is decided by its first bytes. *)
Lemma HasPrefix_more s b p :
  (String.length p <= String.length s)%nat ->
  HasPrefix (s +:+ b) p = HasPrefix s p.
Proof.
  revert s. induction p as [|c p IH]; intros s Hlen; [now rewrite !HasPrefix_nil|].
  destruct s as [|d s]; [simpl in Hlen; lia|]. rewrite append_cons. simpl.
  rewrite IH; [reflexivity|]. simpl in Hlen. lia.
Qed.

Lemma Index_nil sub : Index "" sub = if HasPrefix "" sub then 0 else -1.
Proof. reflexivity. Qed.

Lemma Index_cons c s sub :
  Index (String c s) sub =
    if HasPrefix (String c s) sub then 0
    else if Index s sub <? 0 then -1 else Index s sub + 1.
Proof. reflexivity. Qed.

Lemma Index_bounds s sub : -1 <= Index s sub <= Z.of_nat (String.length s).
Proof.
  induction s as [|c s IH].
  - rewrite Index_nil. destruct (HasPrefix "" sub); simpl; lia.
  - rewrite Index_cons. cbn [String.length]. rewrite Nat2Z.inj_succ.
    destruct (HasPrefix (String c s) sub); [lia|].
    destruct (Index s sub <? 0) eqn:E; [lia|]. apply Z.ltb_ge in E. lia.
Qed.

(** At the index the substring starts, and it fits into the string. *)
Lemma Index_found s sub :
  0 <= Index s sub ->
  HasPrefix (dropBytes (Z.to_nat (Index s sub)) s) sub = true /\
  (Z.to_nat (Index s sub) + String.length sub <= String.length s)%nat.
Proof.
  induction s as [|c s IH].
  - rewrite Index_nil. destruct (HasPrefix "" sub) eqn:E; [|intros; lia]. intros _.
    split; [exact E|]. now apply HasPrefix_length in E.
  - rewrite Index_cons. destruct (HasPrefix (String c s) sub) eqn:E.
    + intros _. split; [exact E|]. now apply HasPrefix_length in E.
    + destruct (Index s sub <? 0) eqn:Hi; [intros; lia|]. apply Z.ltb_ge in Hi. intros _.
      destruct (IH Hi) as [Hp Hl].
      replace (Z.to_nat (Index s sub + 1)) with (S (Z.to_nat (Index s sub))) by lia.
      cbn [dropBytes String.length]. split; [exact Hp|lia].
Qed.

Lemma Index_cut s sub :
  0 <= Index s sub ->
  s = takeBytes (Z.to_nat (Index s sub)) s +:+ sub
      +:+ dropBytes (Z.to_nat (Index s sub) + String.length sub) s.
Proof.
  induction s as [|c s IH].
  - rewrite Index_nil. destruct (HasPrefix "" sub) eqn:E; [|intros; lia]. intros _.
    destruct sub; [reflexivity|discriminate].
  - rewrite Index_cons. destruct (HasPrefix (String c s) sub) eqn:E.
    + intros _. cbn [Z.to_nat takeBytes Nat.add]. rewrite append_nil_l.
      now apply HasPrefix_cut in E.
    + destruct (Index s sub <? 0) eqn:Hi; [intros; lia|]. apply Z.ltb_ge in Hi. intros _.
      replace (Z.to_nat (Index s sub + 1)) with (S (Z.to_nat (Index s sub))) by lia.
      cbn [takeBytes dropBytes Nat.add]. rewrite append_cons. f_equal. now apply IH.
Qed.

(** What follows the first occurrence does not move it. *)
Lemma Index_app s b sub :
  0 <= Index s sub -> Index (s +:+ b) sub = Index s sub.
Proof.
  induction s as [|c s IH].
  - rewrite Index_nil. destruct (HasPrefix "" sub) eqn:E; [|intros; lia]. intros _.
    destruct sub; [|discriminate]. rewrite append_nil_l.
    destruct b; [reflexivity|]. now rewrite Index_cons, HasPrefix_nil.
  - rewrite append_cons, !Index_cons, <- append_cons.
    destruct (HasPrefix (String c s) sub) eqn:E.
    + intros _. rewrite HasPrefix_more by now apply HasPrefix_length. now rewrite E.
    + destruct (Index s sub <? 0) eqn:Hs; [intros; lia|]. apply Z.ltb_ge in Hs. intros _.
      rewrite HasPrefix_more, E.
      * now rewrite (IH Hs), (proj2 (Z.ltb_ge _ _) Hs).
      * destruct (Index_found s sub Hs) as [_ Hl]. cbn [String.length]. lia.
Qed.

(** A string that has the substring somewhere has an index for it. *)
Lemma Index_occurs p sub r : 0 <= Index (p +:+ sub +:+ r) sub.
Proof.
  induction p as [|c p IH].
  - rewrite append_nil_l.
    assert (H : HasPrefix (sub +:+ r) sub = true) by apply HasPrefix_app.
    destruct (sub +:+ r); [rewrite Index_nil|rewrite Index_cons]; rewrite H; lia.
  - rewrite append_cons, Index_cons. destruct (HasPrefix _ sub); [lia|].
    destruct (Index (p +:+ sub +:+ r) sub <? 0) eqn:E; [apply Z.ltb_lt in E; lia|].
    apply Z.ltb_ge in E. lia.
Qed.

Lemma append_assoc (a b c : string) : (a +:+ b) +:+ c = a +:+ (b +:+ c).
Proof.
  induction a as [|x a IH]; [reflexivity|]. rewrite !append_cons. now rewrite IH.
Qed.

Lemma takeBytes_more n s b :
  (n <= String.length s)%nat -> takeBytes n (s +:+ b) = takeBytes n s.
Proof.
  revert s. induction n as [|n IH]; intros s Hn.
  - destruct s; [now destruct (_ +:+ b)|reflexivity].
  - destruct s as [|c s]; [simpl in Hn; lia|]. rewrite append_cons. simpl.
    rewrite IH; [reflexivity|]. simpl in Hn. lia.
Qed.

Lemma length_append (a b : string) :
  String.length (a +:+ b) = (String.length a + String.length b)%nat.
Proof.
  induction a as [|x a IH]; [reflexivity|]. rewrite append_cons. simpl. now rewrite IH.
Qed.

(** The first piece of a split is what stands before the first
    occurrence of the separator, and there is a second piece. *)
Lemma Split_first s sep :
  sep <> "" -> 0 <= Index s sep ->
  exists rest,
    Split s sep = takeBytes (Z.to_nat (Index s sep)) s :: rest /\ rest <> [].
Proof.
  intros Hsep Hi. unfold Split. apply String.eqb_neq in Hsep. rewrite Hsep.
  destruct (Index_found s sep Hi) as [_ Hl].
  destruct (String.length s) as [|n] eqn:Hn.
  - apply String.eqb_neq in Hsep. destruct sep; [congruence|simpl in Hl; lia].
  - simpl. rewrite (proj2 (Z.ltb_ge _ _) Hi).
    eexists. split; [reflexivity|]. destruct n; simpl; [discriminate|].
    now destruct (Index _ sep <? 0).
Qed.

(** The first occurrence is no later than any occurrence. *)
Lemma Index_first p sub r : Index (p +:+ sub +:+ r) sub <= Z.of_nat (String.length p).
Proof.
  induction p as [|c p IH].
  - rewrite append_nil_l.
    assert (H : HasPrefix (sub +:+ r) sub = true) by apply HasPrefix_app.
    destruct (sub +:+ r); [rewrite Index_nil|rewrite Index_cons]; rewrite H; simpl; lia.
  - rewrite append_cons, Index_cons. cbn [String.length]. rewrite Nat2Z.inj_succ.
    destruct (HasPrefix _ sub); [lia|].
    destruct (Index (p +:+ sub +:+ r) sub <? 0); lia.
Qed.

Lemma append_nil_r (s : string) : s +:+ "" = s.
Proof. induction s as [|c s IH]; [reflexivity|]. now rewrite append_cons, IH. Qed.

(** The index of a substring that occurs does not depend on what
    follows that occurrence. *)
Lemma Index_prefix p sub r r' :
  Index (p +:+ sub +:+ r) sub = Index (p +:+ sub +:+ r') sub.
Proof.
  assert (H : forall x, Index (p +:+ sub +:+ x) sub = Index (p +:+ sub) sub).
  { intros x. rewrite <- append_assoc. apply Index_app.
    rewrite <- (append_nil_r sub) at 1. apply Index_occurs. }
  now rewrite !H.
Qed.

Lemma length_takeBytes n s :
  (n <= String.length s)%nat -> String.length (takeBytes n s) = n.
Proof.
  revert s. induction n as [|n IH]; intros s Hn; [now destruct s|].
  destruct s as [|c s]; [simpl in Hn; lia|]. simpl. rewrite IH; [reflexivity|].
  simpl in Hn. lia.
Qed.

End StringFacts.

Section Mask.

Import strings.

Lemma mask_absent s : Index s "apikey=" < 0 -> maskConnectionString s = s.
Proof.
  intros H. unfold maskConnectionString, Contains.
  now rewrite (proj2 (Z.leb_gt _ _) H).
Qed.

Lemma mask_shape s :
  0 <= Index s "apikey=" ->
  maskConnectionString s
  = takeBytes (Z.to_nat (Index s "apikey=")) s +:+ "apikey=***".
Proof.
  intros H. unfold maskConnectionString, Contains.
  rewrite (proj2 (Z.leb_le _ _) H).
  destruct (Split_first s "apikey=" ltac:(discriminate) H) as (rest & -> & Hrest).
  destruct rest as [|x rest]; [congruence|].
  unfold len. cbn [length nth].
  now assert ((1 <? Z.of_nat (S (S (length rest)))) = true) as -> by (apply Z.ltb_lt; lia).
Qed.

Lemma mask_of_key p r :
  maskConnectionString (p +:+ "apikey=" +:+ r)
  = takeBytes (Z.to_nat (Index (p +:+ "apikey=") "apikey=")) p +:+ "apikey=***".
Proof.
  rewrite mask_shape by apply Index_occurs.
  rewrite (Index_prefix p "apikey=" r ""), append_nil_r.
  rewrite takeBytes_more; [reflexivity|].
  pose proof (Index_first p "apikey=" "") as H. rewrite append_nil_r in H.
  pose proof (Index_bounds (p +:+ "apikey=") "apikey="). lia.
Qed.

Lemma mask_idempotent s : maskConnectionString (maskConnectionString s) = maskConnectionString s.
Proof.
  destruct (Z.lt_ge_cases (Index s "apikey=") 0) as [H|H].
  - now rewrite !(mask_absent s H).
  - rewrite (mask_shape s H).
    set (i := Z.to_nat (Index s "apikey=")).
    destruct (Index_found s "apikey=" H) as [_ Hl]. fold i in Hl.
    assert (Hlen : String.length (takeBytes i s) = i) by (apply length_takeBytes; lia).
    change "apikey=***" with ("apikey=" +:+ "***").
    rewrite mask_of_key. f_equal.
    pose proof (Index_cut s "apikey=" H) as Hcut. fold i in Hcut.
    assert (Hi : Index (takeBytes i s +:+ "apikey=") "apikey=" = Index s "apikey=").
    { pose proof (Index_prefix (takeBytes i s) "apikey=" ""
                    (dropBytes (i + String.length "apikey=") s)) as Hp.
      rewrite <- Hcut in Hp. now rewrite append_nil_r in Hp. }
    rewrite Hi. fold i. rewrite <- Hlen at 1.
    rewrite <- (append_nil_r (takeBytes i s)) at 2. apply takeBytes_app.
Qed.

End Mask.

Section NumberFacts.

Import strconv.

Lemma digit_range c d : digit c = Some d -> 0 <= d <= 9.
Proof.
  unfold digit. destruct (_ && _) eqn:E; [|discriminate].
  intros [= <-]. apply andb_true_iff in E as [H1 H2].
  apply Z.leb_le in H1, H2. lia.
Qed.

Lemma parseUintFrom_range n s :
  0 <= n <= maxUint64 -> 0 <= fst (parseUintFrom n s) <= maxUint64.
Proof.
  revert n. induction s as [|c s IH]; intros n Hn; simpl; [exact Hn|].
  destruct (digit c) as [d|] eqn:Hd; [|simpl; unfold maxUint64; lia].
  apply digit_range in Hd.
  destruct (_ <=? n); [simpl; unfold maxUint64; lia|].
  destruct (maxUint64 <? n * 10 + d) eqn:E; [simpl; unfold maxUint64; lia|].
  apply Z.ltb_ge in E. apply IH. lia.
Qed.

(** A syntax error comes with the value zero. *)
Lemma parseUintFrom_syntax n s :
  snd (parseUintFrom n s) = Some ErrSyntax -> fst (parseUintFrom n s) = 0.
Proof.
  revert n. induction s as [|c s IH]; intros n; simpl; [discriminate|].
  destruct (digit c) as [d|]; [|reflexivity].
  destruct (_ <=? n); [discriminate|].
  destruct (maxUint64 <? n * 10 + d); [discriminate|]. apply IH.
Qed.

Lemma ParseUint_range s : 0 <= fst (ParseUint s) <= maxUint64.
Proof.
  unfold ParseUint. destruct s; [simpl; unfold maxUint64; lia|].
  apply parseUintFrom_range. unfold maxUint64. lia.
Qed.

(** Whatever the string, [ParseInt] returns an [int64]. *)
Lemma ParseInt_in_range s : Int64.in_range (fst (ParseInt s)).
Proof.
  unfold ParseInt, Int64.in_range, Int64.min_int, Int64.max_int.
  destruct s as [|c rest]; [simpl; unfold Int64.half; lia|].
  set (digits := if Ascii.eqb c "+"%char || Ascii.eqb c "-"%char
                 then rest else String c rest).
  pose proof (ParseUint_range digits) as Hr.
  destruct (ParseUint digits) as [un [[|]|]]; simpl in Hr |- *;
    try (unfold Int64.half; lia);
    destruct (Ascii.eqb c "-"%char); simpl;
    repeat match goal with
           | |- context [?a <=? ?b] => destruct (Z.leb_spec a b); simpl
           | |- context [?a <? ?b] => destruct (Z.ltb_spec a b); simpl
           end; unfold Int64.half in *; lia.
Qed.

Lemma digit_pretty d : (d < 10)%N -> digit (pretty_N_char d) = Some (Z.of_N d).
Proof.
  intros Hd.
  assert (H : (d = 0 \/ d = 1 \/ d = 2 \/ d = 3 \/ d = 4 \/ d = 5 \/ d = 6 \/ d = 7
               \/ d = 8 \/ d = 9)%N) by lia.
  repeat destruct H as [->|H]; try reflexivity. now subst.
Qed.

(** Reading the digits that [pretty] writes gives the number back. *)
Lemma parseUintFrom_pretty x s :
  Z.of_N x <= maxUint64 ->
  parseUintFrom 0 (pretty_N_go x s) = parseUintFrom (Z.of_N x) s.
Proof.
  revert s. induction x as [x IH] using (well_founded_induction N.lt_wf_0).
  intros s Hx. destruct (N.eq_dec x 0%N) as [->|Hne].
  - now rewrite pretty_N_go_0.
  - rewrite pretty_N_go_step by lia.
    assert (Hdiv : (x / 10 < x)%N) by (apply N.div_lt; lia).
    assert (Hmod : (x mod 10 < 10)%N) by (apply N.mod_lt; lia).
    rewrite IH by (try exact Hdiv; lia).
    cbn [parseUintFrom]. rewrite (digit_pretty _ Hmod).
    assert (Hx10 : Z.of_N x = Z.of_N (x / 10) * 10 + Z.of_N (x mod 10)).
    { rewrite N2Z.inj_div, N2Z.inj_mod.
      pose proof (Z.div_mod (Z.of_N x) 10). change (Z.of_N 10) with 10. lia. }
    assert ((maxUint64 / 10 + 1 <=? Z.of_N (x / 10)) = false) as ->.
    { apply Z.leb_gt. pose proof (N2Z.is_nonneg (x mod 10)).
      change (maxUint64 / 10 + 1) with 1844674407370955162.
      unfold maxUint64 in Hx. simpl in Hx. lia. }
    rewrite <- Hx10.
    now assert ((maxUint64 <? Z.of_N x) = false) as -> by (apply Z.ltb_ge; lia).
Qed.

Lemma ParseUint_pretty (p : positive) :
  Zpos p <= maxUint64 ->
  ParseUint (pretty p) = (Zpos p, None) /\
  exists c rest, pretty p = String c rest /\ digit c <> None.
Proof.
  intros Hp.
  assert (H : parseUintFrom 0 (pretty p) = (Zpos p, None)).
  { unfold pretty, pretty_positive, pretty, pretty_N.
    destruct (decide (N.pos p = 0%N)) as [E|_]; [discriminate|].
    now rewrite parseUintFrom_pretty. }
  destruct (pretty p) as [|c rest] eqn:E; [discriminate|].
  split; [exact H|]. exists c, rest. split; [reflexivity|].
  simpl in H. now destruct (digit c).
Qed.

(** [ParseInt] reads the decimal form of every [int64] back. *)
Lemma ParseInt_pretty z : Int64.in_range z -> ParseInt (pretty z) = (z, None).
Proof.
  unfold Int64.in_range, Int64.min_int, Int64.max_int, Int64.half. intros Hz.
  destruct z as [|p|p].
  - reflexivity.
  - destruct (ParseUint_pretty p) as (Hu & c & rest & E & Hc);
      [unfold maxUint64; lia|].
    change (pretty (Zpos p)) with (pretty p). unfold ParseInt. rewrite E in *.
    assert (Hsign : Ascii.eqb c "+"%char = false /\ Ascii.eqb c "-"%char = false).
    { split; apply Ascii.eqb_neq; intros ->; now apply Hc. }
    destruct Hsign as [-> ->]. cbn [orb negb andb]. rewrite Hu.
    now assert ((Int64.half <=? Zpos p) = false) as ->
      by (apply Z.leb_gt; unfold Int64.half; lia).
  - destruct (ParseUint_pretty p) as (Hu & c & rest & E & Hc);
      [unfold maxUint64; lia|].
    change (pretty (Zneg p)) with ("-" +:+ pretty p). unfold ParseInt.
    rewrite append_cons, append_nil_l. cbv zeta.
    change (Ascii.eqb "-"%char "-"%char) with true.
    change (Ascii.eqb "-"%char "+"%char) with false. cbn [orb negb andb]. rewrite Hu.
    now assert ((Int64.half <? Zpos p) = false) as ->
      by (apply Z.ltb_ge; unfold Int64.half; lia).
Qed.

End NumberFacts.

(** * The key in the log *)

Lemma HasPrefix_takeBytes n s : strings.HasPrefix s (strings.takeBytes n s) = true.
Proof.
  revert s. induction n as [|n IH]; intros s; [now destruct s|].
  destruct s as [|c s]; [reflexivity|]. simpl. now rewrite Ascii.eqb_refl, IH.
Qed.

(** X11. [maskConnectionString] leaves a connection string without
    [apikey=] as it is.  Otherwise its result is a prefix of what stands
    before the parameter followed by [apikey=***], and it does not depend
    on anything that follows the first [apikey=]: neither the key nor a
    later parameter reaches the log.  Masking twice is masking once. *)
Theorem maskConnectionString_hides_the_key (s p r r' : string) :
  (strings.Contains s "apikey=" = false -> maskConnectionString s = s) /\
  maskConnectionString (p +:+ "apikey=" +:+ r)
  = maskConnectionString (p +:+ "apikey=" +:+ r') /\
  (exists q, maskConnectionString (p +:+ "apikey=" +:+ r) = q +:+ "apikey=***" /\
             strings.HasPrefix p q = true) /\
  maskConnectionString (maskConnectionString s) = maskConnectionString s.
Proof.
  split; [|split; [|split]].
  - intros H. apply mask_absent. unfold strings.Contains in H.
    now apply Z.leb_gt in H.
  - now rewrite !mask_of_key.
  - rewrite mask_of_key. eexists. split; [reflexivity|]. apply HasPrefix_takeBytes.
  - apply mask_idempotent.
Qed.

Example maskConnectionString_example :
  maskConnectionString "sqlitecloud://host:8860/db?apikey=SECRET&timeout=10"
  = "sqlitecloud://host:8860/db?apikey=***"
  /\ maskConnectionString "file:local.db" = "file:local.db".
Proof. split; reflexivity. Qed.

(** * The query of the video listing *)

Section Filters.

Lemma pretty_nonempty z : Int64.in_range z -> pretty z <> "".
Proof.
  intros Hz E. pose proof (ParseInt_pretty z Hz) as H. rewrite E in H. discriminate.
Qed.

Lemma filterOf_parseQuery query :
  YouTubeAPI.filterOf (YouTubeAPI.parseQuery query) = Server.filterOfQuery query.
Proof.
  unfold YouTubeAPI.filterOf, YouTubeAPI.parseQuery, Server.filterOfQuery. simpl.
  f_equal.
  - destruct (String.eqb (query "maxVideos") ""); [reflexivity|].
    now destruct (strconv.Atoi _) as [n [e|]].
  - destruct (String.eqb (query "minViews") ""); [reflexivity|].
    now destruct (strconv.ParseInt _) as [n [e|]].
  - destruct (String.eqb (query "minLikes") ""); [reflexivity|].
    now destruct (strconv.ParseInt _) as [n [e|]].
Qed.

Lemma parsed_or_default s (d : Z) :
  Int64.in_range d ->
  Int64.in_range
    (if String.eqb s "" then d
     else match strconv.ParseInt s with
          | (n, None) => n
          | _ => d
          end).
Proof.
  intros Hd. destruct (String.eqb s ""); [exact Hd|].
  pose proof (ParseInt_in_range s) as H.
  now destruct (strconv.ParseInt s) as [n [e|]].
Qed.

End Filters.

Section FilterOfQuery.

Variable query : string -> string.

Lemma filterOfQuery_maxVideos n :
  Int64.in_range n -> query "maxVideos" = pretty n ->
  VideoFilter.MaxVideos (Server.filterOfQuery query) = if 0 <? n then n else 50.
Proof.
  intros Hn E. unfold Server.filterOfQuery. cbn [VideoFilter.MaxVideos]. rewrite E.
  apply pretty_nonempty in Hn as Hne. apply String.eqb_neq in Hne. rewrite Hne.
  unfold strconv.Atoi. now rewrite ParseInt_pretty.
Qed.

Lemma filterOfQuery_minViews n :
  Int64.in_range n -> query "minViews" = pretty n ->
  VideoFilter.MinViews (Server.filterOfQuery query) = n.
Proof.
  intros Hn E. unfold Server.filterOfQuery. cbn [VideoFilter.MinViews]. rewrite E.
  apply pretty_nonempty in Hn as Hne. apply String.eqb_neq in Hne. rewrite Hne.
  now rewrite ParseInt_pretty.
Qed.

Lemma filterOfQuery_minLikes n :
  Int64.in_range n -> query "minLikes" = pretty n ->
  VideoFilter.MinLikes (Server.filterOfQuery query) = n.
Proof.
  intros Hn E. unfold Server.filterOfQuery. cbn [VideoFilter.MinLikes]. rewrite E.
  apply pretty_nonempty in Hn as Hne. apply String.eqb_neq in Hne. rewrite Hne.
  now rewrite ParseInt_pretty.
Qed.

Lemma filterOfQuery_max : 0 < VideoFilter.MaxVideos (Server.filterOfQuery query) <= Int64.max_int.
Proof.
  unfold Server.filterOfQuery. cbn [VideoFilter.MaxVideos].
  destruct (String.eqb (query "maxVideos") "");
    [unfold Int64.max_int, Int64.half; lia|].
  unfold strconv.Atoi. pose proof (ParseInt_in_range (query "maxVideos")) as H.
  destruct (strconv.ParseInt _) as [n [e|]];
    [unfold Int64.max_int, Int64.half; lia|].
  destruct (0 <? n) eqn:E; [|unfold Int64.max_int, Int64.half; lia].
  apply Z.ltb_lt in E. unfold Int64.in_range in H. simpl in H. lia.
Qed.

End FilterOfQuery.

(** X12. The filter of the video listing is built safely from any query
    string, and alike by both handlers: [MaxVideos] is a positive [int]
    (50 unless [maxVideos] is a positive decimal number), [MinViews] and
    [MinLikes] are [int64] values (0 unless the parameter is a decimal
    number), the sort key is one of the three known ones, and a parameter
    that is the decimal form of an [int64] is read as that number. *)
Theorem listing_filter_is_safe (query : string -> string) :
  let filter := Server.filterOfQuery query in
  YouTubeAPI.filterOf (YouTubeAPI.parseQuery query) = filter /\
  0 < VideoFilter.MaxVideos filter <= Int64.max_int /\
  Int64.in_range (VideoFilter.MinViews filter) /\
  Int64.in_range (VideoFilter.MinLikes filter) /\
  (VideoFilter.SortBy filter = SortByViews \/ VideoFilter.SortBy filter = SortByLikes
   \/ VideoFilter.SortBy filter = SortByRecency) /\
  (forall n, Int64.in_range n -> query "maxVideos" = pretty n ->
             VideoFilter.MaxVideos filter = if 0 <? n then n else 50) /\
  (forall n, Int64.in_range n -> query "minViews" = pretty n ->
             VideoFilter.MinViews filter = n) /\
  (forall n, Int64.in_range n -> query "minLikes" = pretty n ->
             VideoFilter.MinLikes filter = n).
Proof.
  cbv zeta. split; [apply filterOf_parseQuery|].
  split; [apply filterOfQuery_max|].
  assert (Hzero : Int64.in_range 0) by (unfold Int64.in_range,
    Int64.min_int, Int64.max_int, Int64.half; lia).
  split; [|split; [|split; [|split; [|split]]]].
  - unfold Server.filterOfQuery. cbn [VideoFilter.MinViews]. now apply parsed_or_default.
  - unfold Server.filterOfQuery. cbn [VideoFilter.MinLikes]. now apply parsed_or_default.
  - unfold Server.filterOfQuery. cbn [VideoFilter.SortBy].
    destruct (String.eqb (query "sortBy") "views"); [now left|].
    destruct (String.eqb (query "sortBy") "likes"); auto.
  - apply filterOfQuery_maxVideos.
  - apply filterOfQuery_minViews.
  - apply filterOfQuery_minLikes.
Qed.

Example listing_filter_examples :
  let query (maxVideos minViews : string) (k : string) :=
    if String.eqb k "maxVideos" then maxVideos
    else if String.eqb k "minViews" then minViews else "" in
  Server.filterOfQuery (query "25" "1000") = VideoFilter.mk SortByRecency 25 1000 0
  /\ Server.filterOfQuery (query "-3" "+7") = VideoFilter.mk SortByRecency 50 7 0
  /\ Server.filterOfQuery (query "ten" "1e3") = VideoFilter.mk SortByRecency 50 0 0
  /\ Server.filterOfQuery (query "99999999999999999999" "99999999999999999999")
     = VideoFilter.mk SortByRecency 50 0 0.
Proof. repeat split. Qed.

(** * The configuration *)

(** X13. A configuration that [Load] returns always passes [Validate]:
    its key is the value of [YOUTUBE_API_KEY], which is not empty.  [Load]
    fails exactly when that variable is empty or unset, or when [DB_PATH]
    is empty or unset and the working directory cannot be read; a
    [DB_PATH] that is set is taken as it is, whatever the working
    directory. *)
Theorem Load_then_Validate (p : config.Process.t) :
  let key := config.Process.Getenv p "YOUTUBE_API_KEY" in
  let path := config.Process.Getenv p "DB_PATH" in
  (forall cfg, config.Load p = Ok cfg ->
     config.Validate cfg = Ok tt /\
     config.Config.YouTubeAPIKey cfg = key /\ key <> "" /\
     (path <> "" -> config.Config.DBPath cfg = path)) /\
  (key = "" -> config.Load p = Err "YOUTUBE_API_KEY environment variable is required") /\
  (key <> "" -> path <> "" -> config.Load p = Ok (config.Config.mk key path)) /\
  (key <> "" -> path = "" ->
   config.Load p =
     match config.Process.Getwd p with
     | Ok wd =>
         Ok (config.Config.mk key
               (config.Process.Join p [wd; ".."; "sqlite"; "yt_insights.db"]))
     | Err e => Err ("failed to get working directory: " +:+ e)
     | Panic e => Panic e
     end).
Proof.
  cbv zeta. unfold config.Load.
  destruct (String.eqb (config.Process.Getenv p "YOUTUBE_API_KEY") "") eqn:Hkey.
  - apply String.eqb_eq in Hkey.
    split; [intros cfg; discriminate|].
    split; [reflexivity|].
    split; intros Hne; now destruct Hne.
  - pose proof Hkey as Hne. apply String.eqb_neq in Hne.
    destruct (String.eqb (config.Process.Getenv p "DB_PATH") "") eqn:Hpath.
    + apply String.eqb_eq in Hpath.
      split; [|split; [|split]].
      * intros cfg. destruct (config.Process.Getwd p) as [wd|e|e]; try discriminate.
        simpl. intros [= <-]. unfold config.Validate. simpl. rewrite Hkey.
        split; [reflexivity|]. split; [reflexivity|]. split; [exact Hne|].
        intros Hp. now destruct Hp.
      * intros E. now destruct Hne.
      * intros _ Hp. now destruct Hp.
      * intros _ _. now destruct (config.Process.Getwd p).
    + apply String.eqb_neq in Hpath.
      split; [|split; [|split]].
      * intros cfg. simpl. intros [= <-]. unfold config.Validate. simpl. rewrite Hkey.
        split; [reflexivity|]. split; [reflexivity|]. split; [exact Hne|].
        reflexivity.
      * intros E. now destruct Hne.
      * reflexivity.
      * intros _ Hp. now destruct Hpath.
Qed.

(** * Channel lookups over HTTP *)

Section Extract.

Context {parser : URLParser}.
Variable c : HTTPClient.t.

Lemma Extract_parsed channelURL u :
  urlParse channelURL = Ok u ->
  HTTPClient.ExtractChannelIDFromURL c channelURL =
    if strings.Contains (url.Host u) "youtube.com" then
      let path := url.Path u in
      if strings.HasPrefix path "/channel/" then Ok (strings.TrimPrefix path "/channel/")
      else if strings.HasPrefix path "/c/" || strings.HasPrefix path "/user/" then
        HTTPClient.getChannelIDFromCustomURL c
          (strings.TrimPrefix (strings.TrimPrefix path "/c/") "/user/")
      else if strings.HasPrefix path "/@" then
        HTTPClient.getChannelIDFromHandle c (strings.TrimPrefix path "/@")
      else Err "unsupported YouTube URL format"
    else if strings.Contains (url.Host u) "youtu.be" then
      Err "youtu.be URLs are typically video URLs, not channel URLs"
    else Err "unsupported YouTube URL format".
Proof. intros H. unfold HTTPClient.ExtractChannelIDFromURL. now rewrite H. Qed.

End Extract.

(** X14. How [ExtractChannelIDFromURL] reads a URL that parses.  A host
    without [youtube.com] always gives an error.  On a [youtube.com] host
    the path [/channel/ID] gives [ID] as it stands (also the empty one)
    without consulting the API, [/user/NAME] looks [NAME] up as a user
    name, [/@HANDLE] looks the handle up, and [/c/NAME] looks up [NAME]
    after a further leading [/user/] is cut from it; any other path is
    unsupported. *)
Theorem ExtractChannelIDFromURL_classifies {parser : URLParser} (c : HTTPClient.t)
    (channelURL : string) (u : url.URL) (name : string) :
  urlParse channelURL = Ok u ->
  let answer := HTTPClient.ExtractChannelIDFromURL c channelURL in
  let path := url.Path u in
  (strings.Contains (url.Host u) "youtube.com" = false -> exists e, answer = Err e) /\
  (strings.Contains (url.Host u) "youtube.com" = true ->
   (path = "/channel/" +:+ name -> answer = Ok name) /\
   (path = "/user/" +:+ name -> answer = HTTPClient.getChannelIDFromCustomURL c name) /\
   (path = "/c/" +:+ name ->
    answer = HTTPClient.getChannelIDFromCustomURL c (strings.TrimPrefix name "/user/")) /\
   (path = "/@" +:+ name -> answer = HTTPClient.getChannelIDFromHandle c name) /\
   (strings.HasPrefix path "/channel/" = false -> strings.HasPrefix path "/c/" = false ->
    strings.HasPrefix path "/user/" = false -> strings.HasPrefix path "/@" = false ->
    answer = Err "unsupported YouTube URL format")).
Proof.
  intros Hparse answer path. subst answer path.
  rewrite (Extract_parsed c channelURL u Hparse). cbv zeta.
  split.
  - intros ->. destruct (strings.Contains (url.Host u) "youtu.be"); eauto.
  - intros ->. split; [|split; [|split; [|split]]].
    + intros ->. now rewrite HasPrefix_app, TrimPrefix_app.
    + intros ->.
      change (strings.HasPrefix ("/user/" +:+ name) "/channel/") with false.
      change (strings.HasPrefix ("/user/" +:+ name) "/c/") with false.
      rewrite HasPrefix_app. cbn [orb].
      change (strings.TrimPrefix ("/user/" +:+ name) "/c/") with ("/user/" +:+ name).
      now rewrite TrimPrefix_app.
    + intros ->.
      change (strings.HasPrefix ("/c/" +:+ name) "/channel/") with false.
      rewrite HasPrefix_app. cbn [orb]. now rewrite TrimPrefix_app.
    + intros ->.
      change (strings.HasPrefix ("/@" +:+ name) "/channel/") with false.
      change (strings.HasPrefix ("/@" +:+ name) "/c/") with false.
      change (strings.HasPrefix ("/@" +:+ name) "/user/") with false.
      rewrite HasPrefix_app. cbn [orb]. now rewrite TrimPrefix_app.
    + now intros -> -> -> ->.
Qed.

(** A parser that knows one address. *)
Definition parseChannelPage : URLParser :=
  fun s =>
    if String.eqb s "https://www.youtube.com/channel/UC123"
    then Ok (url.mk "www.youtube.com" "/channel/UC123")
    else Err "parse error".

(** A client whose every request fails. *)
Definition unreachableClient : HTTPClient.t :=
  HTTPClient.mk "key" (fun _ => Err "connection refused")
    (fun _ => Err "EOF") (fun _ => Err "EOF") (fun _ => Err "EOF")
    (fun _ => Err "EOF") (fun _ => Err "EOF").

Lemma ExtractChannelIDFromURL_classifies_witness :
  HTTPClient.ExtractChannelIDFromURL (parser := parseChannelPage) unreachableClient
    "https://www.youtube.com/channel/UC123" = Ok "UC123".
Proof.
  destruct (ExtractChannelIDFromURL_classifies (parser := parseChannelPage) unreachableClient
              "https://www.youtube.com/channel/UC123"
              (url.mk "www.youtube.com" "/channel/UC123") "UC123" eq_refl)
    as [_ H].
  exact (proj1 (H eq_refl) eq_refl).
Defined.

Section Lookups.

Variable c : HTTPClient.t.

Lemma fetch_answered {A} (decode : string -> result A) url getFailure decodeFailure resp :
  HTTPClient.Get c url = Ok resp ->
  HTTPClient.fetch c decode url getFailure decodeFailure =
    if http.StatusCode resp =? 200
    then wrapErr decodeFailure (decode (http.Body resp))
    else Err ("YouTube API returned status code: " +:+ pretty (http.StatusCode resp)).
Proof.
  intros H. unfold HTTPClient.fetch. rewrite H. simpl.
  unfold http.StatusOK. now destruct (http.StatusCode resp =? 200).
Qed.

End Lookups.

(** The address [GetChannelByID] requests. *)
Definition channelsRequest (c : HTTPClient.t) (channelID : string) : string :=
  HTTPClient.youtubeAPIBaseURL +:+ "/channels?part=snippet,statistics&id=" +:+ channelID
  +:+ "&key=" +:+ HTTPClient.apiKey c.

(** What a count read from the text of a statistic can be. *)
Definition readsAs (text : string) (count : Z) : Prop :=
  Int64.in_range count /\
  (text = "" -> count = 0) /\
  (forall n, Int64.in_range n -> text = pretty n -> count = n).

(** X15. When the API answers [GetChannelByID] with status 200 and a body
    that decodes to at least one channel, the lookup succeeds whatever the
    three statistics strings hold: each count is an [int64], it is the
    number itself when the string is the decimal form of an [int64], and 0
    when the string is empty (a hidden subscriber count).  Any other
    status gives the error naming that status, whatever the body. *)
Theorem GetChannelByID_reads_counts (c : HTTPClient.t) (channelID : string)
    (resp : http.Response) :
  HTTPClient.Get c (channelsRequest c channelID) = Ok resp ->
  (http.StatusCode resp <> 200 ->
   HTTPClient.GetChannelByID c channelID
   = Err ("YouTube API returned status code: " +:+ pretty (http.StatusCode resp))) /\
  (http.StatusCode resp = 200 ->
   forall item rest, HTTPClient.decodeChannels c (http.Body resp) = Ok (item :: rest) ->
   exists channel,
     HTTPClient.GetChannelByID c channelID = Ok channel /\
     Channel.ID channel = HTTPClient.ChannelItem.ID item /\
     Channel.Title channel = HTTPClient.ChannelItem.Title item /\
     readsAs (HTTPClient.ChannelItem.SubscriberCount item) (Channel.Subscribers channel) /\
     readsAs (HTTPClient.ChannelItem.ViewCount item) (Channel.ViewCount channel) /\
     readsAs (HTTPClient.ChannelItem.VideoCount item) (Channel.VideoCount channel)).
Proof.
  intros Hget. unfold HTTPClient.GetChannelByID. fold (channelsRequest c channelID).
  rewrite (fetch_answered c _ _ _ _ resp Hget). split.
  - intros Hcode. apply Z.eqb_neq in Hcode. now rewrite Hcode.
  - intros Hcode item rest Hdecode. rewrite Hcode, Hdecode. simpl.
    eexists. split; [reflexivity|]. simpl.
    assert (Hread : forall text, readsAs text (fst (strconv.ParseInt text))).
    { intros text. split; [apply ParseInt_in_range|]. split.
      - now intros ->.
      - intros n Hn ->. now rewrite ParseInt_pretty. }
    repeat split; try reflexivity; apply Hread.
Qed.

(** A client that gets one channel, with its subscriber count hidden and
    a video count that is no number. *)
Definition hiddenSubscribers : HTTPClient.t :=
  HTTPClient.mk "key"
    (fun _ => Ok (http.mk 200 "{}"))
    (fun _ => Err "EOF") (fun _ => Err "EOF") (fun _ => Err "EOF") (fun _ => Err "EOF")
    (fun _ => Ok [HTTPClient.ChannelItem.mk "UC1" "Hidden" "" "" "" "1000" "many"]).

Lemma GetChannelByID_reads_counts_witness :
  exists channel,
    HTTPClient.GetChannelByID hiddenSubscribers "UC1" = Ok channel /\
    Channel.Subscribers channel = 0 /\ Channel.ViewCount channel = 1000.
Proof.
  destruct (GetChannelByID_reads_counts hiddenSubscribers "UC1" (http.mk 200 "{}") eq_refl)
    as [_ H].
  destruct (H eq_refl _ _ eq_refl) as (channel & Hok & _ & _ & Hsubs & Hviews & _).
  exists channel. split; [exact Hok|]. split.
  - exact (proj1 (proj2 Hsubs) eq_refl).
  - apply (proj2 (proj2 Hviews) 1000); [|reflexivity].
    unfold Int64.in_range, Int64.min_int, Int64.max_int, Int64.half. lia.
Defined.

(** * A channel the API does not know *)

Section UnknownChannel.

Context {sorter : SliceSorter} {parser : TimeParser}.
Context {analyticsCodec : YouTubeAPI.JSONCodec ChannelAnalytics.t}.
Context {trendsCodec : YouTubeAPI.JSONCodec ChannelTrends.t}.
Variable service : youtube.Service.t.
Variable channelID : string.
Hypothesis Hunknown : youtube.Service.ChannelsList service channelID = Ok [].

Lemma getChannelInfo_unknown w :
  fst (YouTubeAPI.getChannelInfo service channelID w) = Err "channel not found".
Proof.
  unfold YouTubeAPI.getChannelInfo, YouTubeAPI.bind, YouTubeAPI.request, YouTubeAPI.ret.
  simpl. now rewrite Hunknown.
Qed.

Lemma getChannelAnalytics_unknown w :
  fst (YouTubeAPI.getChannelAnalytics service channelID w) = Err "channel not found".
Proof.
  unfold YouTubeAPI.getChannelAnalytics, YouTubeAPI.bindMR, YouTubeAPI.bind.
  rewrite (run_fst (YouTubeAPI.getChannelInfo service channelID) w), getChannelInfo_unknown.
  reflexivity.
Qed.

Lemma getChannelTrends_unknown w :
  fst (YouTubeAPI.getChannelTrends service channelID w)
  = Err "failed to get channel info: channel not found".
Proof.
  unfold YouTubeAPI.getChannelTrends, YouTubeAPI.bindMR, YouTubeAPI.bind.
  rewrite (run_fst (YouTubeAPI.getChannelInfo service channelID) w), getChannelInfo_unknown.
  reflexivity.
Qed.

Lemma gated_unknown {A} {codec : YouTubeAPI.JSONCodec A} ty
    (compute : string -> YouTubeAPI.M (result A)) marshalFailure w e :
  (forall channelID, keepsStore (compute channelID)) ->
  channelID <> "" ->
  YouTubeAPI.servedFromCache (A := A) (YouTubeAPI.clock w)
    (GetLatestEngagement (YouTubeAPI.db w) channelID ty) = None ->
  fst (compute channelID w) = Err e ->
  fst (YouTubeAPI.cacheGated ty compute marshalFailure channelID w)
  = JSONError StatusInternalServerError e.
Proof.
  intros Hkeep Hid Hmiss He.
  rewrite (cacheGated_miss ty compute marshalFailure Hkeep channelID w Hid Hmiss).
  rewrite (run_fst (compute channelID) w), He. reflexivity.
Qed.

End UnknownChannel.

(** The address [SearchChannelByTitle] requests. *)
Definition searchRequest (c : HTTPClient.t) (title : string) : string :=
  HTTPClient.youtubeAPIBaseURL +:+ "/search?part=snippet&q=" +:+ title
  +:+ "&type=channel&key=" +:+ HTTPClient.apiKey c.

(** X16. A channel that the API does not know (an answer without items)
    is reported with a different status by each handler.  The handlers on
    the SDK answer 500 for [GetChannelByID] and [GetChannelVideos], 500
    for analytics and trends when no snapshot of the day is served, 500
    for [GetChannelByTitle] when the search names the channel and 404
    when the search finds nothing, and 404 for [GetChannelByURL].  The
    handlers of [Server] answer 400 in each of these cases. *)
Theorem unknown_channel_status_codes
    {sorter : SliceSorter} {parser : TimeParser}
    {analyticsCodec : YouTubeAPI.JSONCodec ChannelAnalytics.t}
    {trendsCodec : YouTubeAPI.JSONCodec ChannelTrends.t}
    {urlParser : URLParser}
    (service : youtube.Service.t)
    (searchChannels : string -> result (list (option string)))
    (client : HTTPClient.t) (resp : http.Response)
    (channelID : string) (w : YouTubeAPI.World) :
  channelID <> "" ->
  youtube.Service.ChannelsList service channelID = Ok [] ->
  HTTPClient.Get client (channelsRequest client channelID) = Ok resp ->
  http.StatusCode resp = 200 ->
  HTTPClient.decodeChannels client (http.Body resp) = Ok [] ->
  fst (YouTubeAPI.GetChannelByID service channelID w)
  = JSONError 500 "Error fetching channel info: channel not found" /\
  (forall q, fst (YouTubeAPI.GetChannelVideos service channelID q w)
             = JSONError 500 "Error fetching channel info: channel not found") /\
  (YouTubeAPI.servedFromCache (A := ChannelAnalytics.t) (YouTubeAPI.clock w)
     (GetLatestEngagement (YouTubeAPI.db w) channelID EngagementTypeAnalytics) = None ->
   fst (YouTubeAPI.GetChannelAnalytics service channelID w)
   = JSONError 500 "channel not found") /\
  (YouTubeAPI.servedFromCache (A := ChannelTrends.t) (YouTubeAPI.clock w)
     (GetLatestEngagement (YouTubeAPI.db w) channelID EngagementTypeTrends) = None ->
   fst (YouTubeAPI.GetChannelTrends service channelID w)
   = JSONError 500 "failed to get channel info: channel not found") /\
  (forall title rest, title <> "" ->
     (searchChannels title = Ok [] ->
      fst (YouTubeAPI.GetChannelByTitle service searchChannels title w)
      = JSONError 404 "Channel not found") /\
     (searchChannels title = Ok (Some channelID :: rest) ->
      fst (YouTubeAPI.GetChannelByTitle service searchChannels title w)
      = JSONError 500 "Error fetching channel info: channel not found")) /\
  (forall channelURL, channelURL <> "" ->
     HTTPClient.ExtractChannelIDFromURL client channelURL = Ok channelID ->
     fst (YouTubeAPI.GetChannelByURL service client channelURL w)
     = JSONError 404 "Channel not found" /\
     Server.getChannelByURL client channelURL = JSONError 400 "channel not found") /\
  Server.getChannelByID client channelID = JSONError 400 "channel not found" /\
  (forall title found rest,
     HTTPClient.Get client (searchRequest client title) = Ok found ->
     http.StatusCode found = 200 ->
     (HTTPClient.decodeFound client (http.Body found) = Ok [] ->
      Server.getChannelByTitle client title
      = JSONError 400 ("no channels found with title: " +:+ title)) /\
     (HTTPClient.decodeFound client (http.Body found) = Ok (channelID :: rest) ->
      Server.getChannelByTitle client title = JSONError 400 "channel not found")).
Proof.
  intros Hid Hunknown Hget Hcode Hdecode.
  pose proof Hid as Hid'. apply String.eqb_neq in Hid'.
  assert (Hclient : HTTPClient.GetChannelByID client channelID = Err "channel not found").
  { unfold HTTPClient.GetChannelByID. fold (channelsRequest client channelID).
    now rewrite (fetch_answered client _ _ _ _ resp Hget), Hcode, Hdecode. }
  split; [|split; [|split; [|split; [|split; [|split; [|split]]]]]].
  - unfold YouTubeAPI.GetChannelByID. rewrite Hid'. unfold YouTubeAPI.bind.
    rewrite (run_fst (YouTubeAPI.getChannelInfo service channelID) w).
    now rewrite (getChannelInfo_unknown service channelID Hunknown).
  - intros q. unfold YouTubeAPI.GetChannelVideos. rewrite Hid'. unfold YouTubeAPI.bind.
    rewrite (run_fst (YouTubeAPI.getChannelInfo service channelID) w).
    now rewrite (getChannelInfo_unknown service channelID Hunknown).
  - intros Hmiss. unfold YouTubeAPI.GetChannelAnalytics.
    apply (gated_unknown channelID); auto.
    + apply keepsStore_getChannelAnalytics.
    + now apply getChannelAnalytics_unknown.
  - intros Hmiss. unfold YouTubeAPI.GetChannelTrends.
    apply (gated_unknown channelID); auto.
    + apply keepsStore_getChannelTrends.
    + now apply getChannelTrends_unknown.
  - intros title rest Htitle. apply String.eqb_neq in Htitle.
    unfold YouTubeAPI.GetChannelByTitle. rewrite Htitle.
    unfold YouTubeAPI.bind, YouTubeAPI.request. cbn [fst snd].
    split; intros ->; [reflexivity|].
    match goal with
    | |- context [YouTubeAPI.getChannelInfo service channelID ?w'] =>
        rewrite (run_fst (YouTubeAPI.getChannelInfo service channelID) w'),
          (getChannelInfo_unknown service channelID Hunknown)
    end.
    reflexivity.
  - intros channelURL Hurl Hextract. apply String.eqb_neq in Hurl.
    unfold YouTubeAPI.GetChannelByURL, Server.getChannelByURL.
    rewrite Hurl, Hextract. unfold YouTubeAPI.bind, YouTubeAPI.request.
    rewrite Hunknown. split; [reflexivity|].
    unfold Server.respond. now rewrite Hclient.
  - unfold Server.getChannelByID, Server.respond. now rewrite Hclient.
  - intros title found rest Hsearch Hfound.
    unfold Server.getChannelByTitle, HTTPClient.SearchChannelByTitle.
    fold (searchRequest client title).
    rewrite (fetch_answered client _ _ _ _ found Hsearch), Hfound.
    split; intros ->; [reflexivity|].
    simpl. unfold Server.respond. now rewrite Hclient.
Qed.

(** A service and a client that know no channel. *)
Definition noChannels : youtube.Service.t :=
  youtube.Service.mk (fun _ => Ok []) (fun _ => []) (fun _ => Ok []).

Definition noChannelsClient : HTTPClient.t :=
  HTTPClient.mk "key"
    (fun _ => Ok (http.mk 200 "{}"))
    (fun _ => Ok []) (fun _ => Ok []) (fun _ => Ok []) (fun _ => Ok [])
    (fun _ => Ok []).

Lemma unknown_channel_status_codes_witness :
  fst (YouTubeAPI.GetChannelByID noChannels "UC123" freshWorld)
  = JSONError 500 "Error fetching channel info: channel not found" /\
  fst (YouTubeAPI.GetChannelByURL (urlParser := parseChannelPage) noChannels
         noChannelsClient "https://www.youtube.com/channel/UC123" freshWorld)
  = JSONError 404 "Channel not found" /\
  Server.getChannelByID noChannelsClient "UC123" = JSONError 400 "channel not found".
Proof.
  destruct (unknown_channel_status_codes
              (sorter := insertionSorter) (parser := parseUTC)
              (analyticsCodec := emptyObjectCodec zeroAnalytics)
              (trendsCodec := emptyObjectCodec zeroTrends)
              (urlParser := parseChannelPage)
              noChannels (fun _ => Ok []) noChannelsClient (http.mk 200 "{}")
              "UC123" freshWorld)
    as (Hid & _ & _ & _ & _ & Hurl & Hserver & _);
    try reflexivity; [discriminate|].
  split; [reflexivity|]. split; [|exact Hserver].
  refine (proj1 (Hurl "https://www.youtube.com/channel/UC123" _ eq_refl)).
  discriminate.
Defined.

(** * Thresholds through [Server] *)

(** X17. Through [Server], a listing request whose [minViews] or
    [minLikes] is the decimal form of a positive [int64] never answers
    with a video: a 200 answer carries the empty list.  The counts that
    the thresholds test are not filled in by the direct client. *)
Theorem server_listing_with_threshold_is_empty
    {sorter : SliceSorter} {parser : TimeParser}
    (c : YouTubeClient.t) (channelID : string) (query : string -> string)
    (n : Z) (videos : list Video.t) :
  SortContract sorter ->
  0 < n -> Int64.in_range n ->
  query "minViews" = pretty n \/ query "minLikes" = pretty n ->
  Server.getChannelVideos c channelID query = JSON StatusOK videos ->
  videos = [].
Proof.
  intros Hsort Hpos Hn Hquery. unfold Server.getChannelVideos.
  destruct (YouTubeClient.GetChannelVideos c channelID (Server.filterOfQuery query))
    as [r|e|e] eqn:Hr; try discriminate.
  intros [= <-].
  apply (GetChannelVideos_thresholds Hsort c channelID _ r Hr).
  destruct Hquery as [Hq|Hq].
  - left. now rewrite (filterOfQuery_minViews query n Hn Hq).
  - right. now rewrite (filterOfQuery_minLikes query n Hn Hq).
Qed.

Lemma server_listing_with_threshold_is_empty_witness :
  Server.getChannelVideos (sorter := insertionSorter) (parser := parseUTC)
    oneVideoClient "UC1" (fun k => if String.eqb k "minViews" then "1" else "")
  = JSON StatusOK [].
Proof.
  assert (H : exists videos,
             Server.getChannelVideos (sorter := insertionSorter) (parser := parseUTC)
               oneVideoClient "UC1" (fun k => if String.eqb k "minViews" then "1" else "")
             = JSON StatusOK videos) by (eexists; reflexivity).
  destruct H as [videos H]. rewrite H. f_equal.
  apply (server_listing_with_threshold_is_empty
           (sorter := insertionSorter) (parser := parseUTC)
           oneVideoClient "UC1" (fun k => if String.eqb k "minViews" then "1" else "") 1 videos
           insertionSorter_contract);
    [lia | unfold Int64.in_range, Int64.min_int, Int64.max_int, Int64.half; lia
     | left; reflexivity | exact H].
Defined.
